(** * transcription-whisper: the dashboard client and the upload flows

    A shallow embedding of
    - [webui/dist/assets/js/js_core/funcionalidades.js]: the push-stream
      handlers ([connectSSE]), the polled refresh ([updateDashboardCards],
      [updatePerformanceMetrics]), the periodic timer set up at
      [DOMContentLoaded], the structured upload form (submit handler,
      the four course/module listeners, the two listings), the simple
      upload component ([setupUploadArea], [showFeedback]), the list of
      completed transcriptions ([loadCompletedTranscriptions]) and the
      handler that changes the model ([applyModelBtn.onclick]);
    - [frontend/src/pages/UploadPage.jsx]: [handleUpload], [removeFile];
    - [frontend/src/pages/TranscriptionsPage.jsx]: [fetchTranscriptions].

    [funcionalidades.js] holds several successive versions of the page
    script one after the other; the embedding follows the first and most
    complete one (lines 1 to 633).

    Handlers are run-to-completion pieces of a single-threaded event loop.
    Each one is embedded as a computation in a small state-and-exception
    monad over the part of the document it touches; whatever the platform
    supplies (the outcome of [JSON.parse], of [fetch], of [axios.post]) is an
    input of the handler. *)

From stdpp Require Import base option list strings gmap pretty.
From Stdlib Require Import Ascii String.

Open Scope string_scope.
Set Warnings "-register-all".

(** ** JavaScript values coming from JSON *)

(** Number formatting is the platform's (IEEE doubles): the handlers only
    format numbers, test them for truthiness and convert them to text. *)
Class JsNumber (number : Type) := {
  toFixed : number -> nat -> string;
  numToString : number -> string;
  numTruthy : number -> bool
}.

(** A parsed JSON value. [JObj] lists the own properties in enumeration
    order, each key once. *)
Inductive json {number : Type} : Type :=
  | JNull
  | JBool (b : bool)
  | JNum (n : number)
  | JStr (s : string)
  | JArr (xs : list json)
  | JObj (kvs : list (string * json)).
Arguments json : clear implicits.

(** A JavaScript value as the handlers see it: [None] is [undefined]. *)
Definition value (number : Type) : Type := option (json number).

(** Error objects: only [message] is ever read. The message of an error
    raised by the engine depends on the engine; its name stands for it. *)
Record exn : Type := mkExn { exn_name : string; message : string }.

Definition TypeError : exn := mkExn "TypeError" "TypeError".
Definition SyntaxError : exn := mkExn "SyntaxError" "SyntaxError".
Definition Error (msg : string) : exn := mkExn "Error" msg.

(** ** Handlers: state and exceptions *)

Inductive outcome (A : Type) : Type :=
  | Ok (a : A)
  | Throw (e : exn).
Arguments Ok {A} a.
Arguments Throw {A} e.

Definition JS (S A : Type) : Type := S -> S * outcome A.

Definition ret {S A} (a : A) : JS S A := fun s => (s, Ok a).
Definition throw {S A} (e : exn) : JS S A := fun s => (s, Throw e).
Definition bind {S A B} (m : JS S A) (k : A -> JS S B) : JS S B :=
  fun s => match m s with
           | (s', Ok a) => k a s'
           | (s', Throw e) => (s', Throw e)
           end.
(** [try { m } catch (e) { h e }] *)
Definition try_catch {S A} (m : JS S A) (h : exn -> JS S A) : JS S A :=
  fun s => match m s with
           | (s', Ok a) => (s', Ok a)
           | (s', Throw e) => h e s'
           end.
(** [try { m } finally { f }], for an [f] that completes normally *)
Definition try_finally {S A} (m : JS S A) (f : JS S unit) : JS S A :=
  fun s => match m s with
           | (s', r) => match f s' with
                        | (s'', Ok _) => (s'', r)
                        | (s'', Throw e) => (s'', Throw e)
                        end
           end.
Definition when {S} (c : bool) (m : JS S unit) : JS S unit :=
  if c then m else ret tt.
Definition get {S} : JS S S := fun s => (s, Ok s).
Definition modify {S} (f : S -> S) : JS S unit := fun s => (f s, Ok tt).
Definition lift {S A} (r : outcome A) : JS S A := fun s => (s, r).

Declare Scope js_scope.
Delimit Scope js_scope with js.
Notation "'let*' x ':=' m 'in' k" := (bind m (fun x => k))
  (at level 10, x pattern, m at level 100, k at level 200,
   only parsing) : js_scope.
Notation "m ';;' k" := (bind m (fun _ => k))
  (at level 100, k at level 200, right associativity, only parsing) : js_scope.
Open Scope js_scope.

Fixpoint for_each {S A} (xs : list A) (body : A -> JS S unit) : JS S unit :=
  match xs with
  | [] => ret tt
  | x :: rest => body x ;; for_each rest body
  end.

Section Values.
Context {number : Type} `{JsNumber number}.

(** ToBoolean *)
Definition truthy (v : value number) : bool :=
  match v with
  | None | Some JNull => false
  | Some (JBool b) => b
  | Some (JNum n) => numTruthy n
  | Some (JStr s) => negb (String.eqb s "")
  | Some (JArr _) | Some (JObj _) => true
  end.

Fixpoint assoc (k : string) (kvs : list (string * json number)) : value number :=
  match kvs with
  | [] => None
  | (k', v) :: rest => if String.eqb k k' then Some v else assoc k rest
  end.

(** [v.k] for the property names the handlers read: none of them is a
    property of a string, number, boolean or array, so only objects
    answer; reading a property of [undefined] or [null] throws. *)
Definition prop (v : value number) (k : string) : outcome (value number) :=
  match v with
  | None | Some JNull => Throw TypeError
  | Some (JObj kvs) => Ok (assoc k kvs)
  | Some _ => Ok None
  end.

(** [v?.k] *)
Definition opt_prop (v : value number) (k : string) : outcome (value number) :=
  match v with
  | None | Some JNull => Ok None
  | _ => prop v k
  end.

(** [a || b] *)
Definition or_else (a b : value number) : value number :=
  if truthy a then a else b.

(** [v.toFixed(d)]: only numbers have the method. *)
Definition call_toFixed (v : value number) (d : nat) : outcome string :=
  match v with
  | Some (JNum n) => Ok (toFixed n d)
  | _ => Throw TypeError
  end.

(** ToString of a JSON value; an array joins its elements with commas,
    [null] elements as the empty string. *)
Fixpoint ToString (j : json number) : string :=
  match j with
  | JNull => "null"
  | JBool true => "true"
  | JBool false => "false"
  | JNum n => numToString n
  | JStr s => s
  | JArr xs =>
      (fix join (ys : list (json number)) : string :=
         match ys with
         | [] => ""
         | [y] => match y with JNull => "" | _ => ToString y end
         | y :: rest =>
             (match y with JNull => "" | _ => ToString y end) ++ "," ++ join rest
         end) xs
  | JObj _ => "[object Object]"
  end.

(** What [el.textContent = j] stores: [null] clears the text. *)
Definition text_of (j : json number) : string :=
  match j with
  | JNull => ""
  | _ => ToString j
  end.

(** [Object.entries(v)] of a value that is not [undefined] or [null]. *)
Definition entries (j : json number) : list (string * json number) :=
  match j with
  | JObj kvs => kvs
  | JArr xs => imap (fun i x => (pretty i, x)) xs
  | JStr s => imap (fun i c => (pretty i, JStr (String c ""))) (list_ascii_of_string s)
  | _ => []
  end.
End Values.

(** ** The dashboard document *)

Inductive log_entry : Type :=
  | LogInfo (msg : string)
  | LogWarn (msg : string)
  | LogError (msg : string).

(** The part of the page the dashboard handlers touch: for each element that
    exists in the document, the last string assigned to it (every element is
    written through one property only, [textContent] or [innerHTML]); the
    console; and the number of [/api/status/detailed] requests in flight. *)
Record dashboard : Type := mkDashboard {
  texts : gmap string string;
  console : list log_entry;
  in_flight : nat
}.

Definition getElementById (id : string) : JS dashboard (option string) :=
  fun p => (p, Ok (match texts p !! id with Some _ => Some id | None => None end)).

(** [el.textContent = s] (or [el.innerHTML = s]); [el] may be [null]. *)
Definition set_text (el : option string) (s : string) : JS dashboard unit :=
  match el with
  | None => throw TypeError
  | Some id =>
      modify (fun p => mkDashboard (<[id := s]> (texts p)) (console p) (in_flight p))
  end.

Definition console_write (e : log_entry) : JS dashboard unit :=
  modify (fun p => mkDashboard (texts p) (console p ++ [e]) (in_flight p)).
Definition console_log (msg : string) := console_write (LogInfo msg).
Definition console_warn (msg : string) := console_write (LogWarn msg).
Definition console_error (msg : string) := console_write (LogError msg).

(** [if (el) { el.textContent = ... }] *)
Definition if_el (el : option string) (m : JS dashboard unit) : JS dashboard unit :=
  match el with
  | Some _ => m
  | None => ret tt
  end.

Section Dashboard.
Context {number : Type} `{JsNumber number}.

(** [v !== undefined ? v.toFixed(d) : '--'] *)
Definition fixed_or_dash (v : value number) (d : nat) : outcome string :=
  match v with
  | None => Ok "--"
  | Some _ => call_toFixed v d
  end.

(** [v !== undefined ? v : 0], as assigned to [textContent] *)
Definition value_or_zero (v : value number) : string :=
  match v with
  | None => "0"
  | Some j => text_of j
  end.

(** [x === 'running'] *)
Definition is_running (v : value number) : bool :=
  match v with
  | Some (JStr s) => String.eqb s "running"
  | _ => false
  end.

(** [workers.web?.status || 'Desconhecido'] and its sibling, combined *)
Definition overall_status (workers : value number) : outcome string :=
  match prop workers "web" with
  | Throw e => Throw e
  | Ok web =>
      match opt_prop web "status" with
      | Throw e => Throw e
      | Ok ws =>
          let webStatus := or_else ws (Some (JStr "Desconhecido")) in
          match prop workers "gdrive" with
          | Throw e => Throw e
          | Ok gdrive =>
              match opt_prop gdrive "status" with
              | Throw e => Throw e
              | Ok gs =>
                  let gdriveStatus := or_else gs (Some (JStr "Desconhecido")) in
                  Ok (if is_running webStatus && is_running gdriveStatus
                      then "Operacional" else "Problemas")
              end
          end
      end
  end.

(** *** [connectSSE]: [eventSource.onmessage] *)

(** [if (data.system) { ... }]: the four system cards *)
Definition sse_system_block (system : value number) : JS dashboard unit :=
  when (truthy system) (
    let* cpuEl := getElementById "metric-cpu" in
    let* ramEl := getElementById "metric-ram" in
    let* ramUsedEl := getElementById "metric-ram-used" in
    let* ramTotalEl := getElementById "metric-ram-total" in
    if_el cpuEl (
      let* v := lift (prop system "cpu_percent") in
      let* t := lift (fixed_or_dash v 1) in
      set_text cpuEl t) ;;
    if_el ramEl (
      let* v := lift (prop system "memory_percent") in
      let* t := lift (fixed_or_dash v 1) in
      set_text ramEl t) ;;
    if_el ramUsedEl (
      let* v := lift (prop system "memory_used_gb") in
      let* t := lift (fixed_or_dash v 2) in
      set_text ramUsedEl t) ;;
    if_el ramTotalEl (
      let* v := lift (prop system "memory_total_gb") in
      let* t := lift (fixed_or_dash v 2) in
      set_text ramTotalEl t)).

(** [if (data.queue) { ... }]: the three queue cards *)
Definition sse_queue_block (queue : value number) : JS dashboard unit :=
  when (truthy queue) (
    let* totalTransEl := getElementById "metric-total-transcriptions" in
    let* queueWebEl := getElementById "metric-queue-web" in
    let* queueGdriveEl := getElementById "metric-queue-gdrive" in
    if_el totalTransEl (
      let* v := lift (prop queue "total_transcriptions") in
      set_text totalTransEl (value_or_zero v)) ;;
    if_el queueWebEl (
      let* v := lift (prop queue "web_size") in
      set_text queueWebEl (value_or_zero v)) ;;
    if_el queueGdriveEl (
      let* v := lift (prop queue "gdrive_size") in
      set_text queueGdriveEl (value_or_zero v))).

(** [if (data.workers && systemStatusEl) { ... }]: the overall status *)
Definition sse_status_block (data : value number) : JS dashboard unit :=
  let* systemStatusEl := getElementById "system-status" in
  let* workers := lift (prop data "workers") in
  when (truthy workers && bool_decide (is_Some systemStatusEl)) (
    let* overallStatus := lift (overall_status workers) in
    set_text systemStatusEl overallStatus).

(** The body of the [try]. [parsed] is what [JSON.parse(event.data)]
    yields: [None] when it throws. *)
Definition onmessage_try (parsed : option (json number)) : JS dashboard unit :=
  let* data := match parsed with
               | None => throw SyntaxError
               | Some d => ret (Some d)
               end in
  console_log "Evento SSE recebido:" ;;
  let* system := lift (prop data "system") in
  sse_system_block system ;;
  let* queue := lift (prop data "queue") in
  sse_queue_block queue ;;
  sse_status_block data.

Definition onmessage (parsed : option (json number)) : JS dashboard unit :=
  try_catch (onmessage_try parsed)
            (fun e => console_error "Erro ao processar evento SSE:").

(** *** [connectSSE]: [eventSource.onerror] *)
Definition onerror : JS dashboard unit :=
  console_error "Erro na conexão SSE:" ;;
  let* statusEl := getElementById "system-status" in
  if_el statusEl (set_text statusEl "Erro na conexão").

(** *** [updatePerformanceMetrics] *)

(** [avgSecPerMin !== null ? avgSecPerMin.toFixed(2) : '--'] *)
Definition speed_text (v : json number) : outcome string :=
  match v with
  | JNull => Ok "--"
  | _ => call_toFixed (Some v) 2
  end.

(** The [for ... of Object.entries(avgSpeedPerModel)] loop building [html] *)
Fixpoint model_items (es : list (string * json number)) (html : string)
  : outcome string :=
  match es with
  | [] => Ok html
  | (model, avgSecPerMin) :: rest =>
      match speed_text avgSecPerMin with
      | Throw e => Throw e
      | Ok t =>
          model_items rest
            (html ++ "<li><strong>" ++ model ++ ":</strong> " ++ t
                  ++ " segundos por minuto de áudio</li>")
      end
  end.

Definition updatePerformanceMetrics (metrics modelsInOutput : value number)
  : JS dashboard unit :=
  let* perfList := getElementById "model-performance-list" in
  let* avgProcessTimeEl := getElementById "avg-process-time" in
  if negb (truthy metrics) || bool_decide (perfList = None)
     || bool_decide (avgProcessTimeEl = None)
  then console_warn "Elementos de métricas de performance não encontrados no DOM."
  else
    let* sp := lift (prop metrics "avg_transcription_speed_per_model") in
    let avgSpeedPerModel := or_else sp (Some (JObj [])) in
    let es := match avgSpeedPerModel with Some j => entries j | None => [] end in
    (if bool_decide (0 < List.length es)%nat then
       let* html := lift (model_items es "") in
       set_text perfList html
     else
       set_text perfList "<li>Nenhuma métrica de modelo disponível ainda.</li>") ;;
    let* avgProcessTime := lift (prop metrics "avg_process_time_sec") in
    match avgProcessTime with
    | None | Some JNull => set_text avgProcessTimeEl "-- segundos"
    | Some _ =>
        let* t := lift (call_toFixed avgProcessTime 2) in
        set_text avgProcessTimeEl (t ++ " segundos")
    end.

(** *** [updateDashboardCards] *)

(** What [await fetch(...)] followed by [await response.json()] can give. *)
Inductive fetch_result : Type :=
  | NetworkFailure                 (* [fetch] rejects *)
  | Response (ok : bool) (status : nat) (body : option (json number)).
                                   (* [body = None]: [response.json()] rejects *)

(** The function up to its first [await]: the request is issued. *)
Definition updateDashboardCards_start : JS dashboard unit :=
  console_log "Buscando dados de /api/status/detailed..." ;;
  modify (fun p => mkDashboard (texts p) (console p) (S (in_flight p))).

(** [if (v !== undefined) { document.getElementById(id).textContent = v; }] *)
Definition poll_queue_field (v : value number) (id : string) : JS dashboard unit :=
  match v with
  | Some j =>
      let* el := getElementById id in
      set_text el (text_of j)
  | None => ret tt
  end.

(** [document.getElementById(id).textContent =
      system.k !== undefined ? system.k.toFixed(d) : '--'] *)
Definition poll_system_field (system : value number) (k id : string) (d : nat)
  : JS dashboard unit :=
  let* el := getElementById id in
  let* v := lift (prop system k) in
  let* t := lift (fixed_or_dash v d) in
  set_text el t.

(** [if (data.system) { ... }] *)
Definition poll_system_block (system : value number) : JS dashboard unit :=
  when (truthy system) (
    poll_system_field system "cpu_percent" "metric-cpu" 1 ;;
    poll_system_field system "memory_percent" "metric-ram" 1 ;;
    poll_system_field system "memory_used_gb" "metric-ram-used" 2 ;;
    poll_system_field system "memory_total_gb" "metric-ram-total" 2).

(** The rest of the [try] body, run when the request settles. *)
Definition updateDashboardCards_try (r : fetch_result) : JS dashboard unit :=
  modify (fun p => mkDashboard (texts p) (console p) (pred (in_flight p))) ;;
  let* data :=
    match r with
    | NetworkFailure => throw TypeError
    | Response ok status body =>
        if negb ok then throw (Error ("HTTP error! status: " ++ pretty status))
        else match body with
             | None => throw SyntaxError
             | Some d => ret (Some d)
             end
    end in
  console_log "Dados detalhados recebidos:" ;;
  let* total := lift (prop data "total_transcriptions") in
  poll_queue_field total "metric-total-transcriptions" ;;
  let* web := lift (prop data "queue_web_size") in
  poll_queue_field web "metric-queue-web" ;;
  let* gdrive := lift (prop data "queue_gdrive_size") in
  poll_queue_field gdrive "metric-queue-gdrive" ;;
  let* system := lift (prop data "system") in
  poll_system_block system ;;
  let* metrics := lift (prop data "metrics") in
  let* modelsInOutput := lift (prop data "models_in_output") in
  updatePerformanceMetrics metrics modelsInOutput.

(** The [catch] block. Its writes are not guarded: a missing element makes
    the promise of the async function reject. *)
Definition updateDashboardCards_catch (e : exn) : JS dashboard unit :=
  console_error "Erro ao buscar/atualizar dados do dashboard:" ;;
  (let* el := getElementById "metric-total-transcriptions" in set_text el "Erro") ;;
  (let* el := getElementById "metric-queue-web" in set_text el "Erro") ;;
  (let* el := getElementById "metric-queue-gdrive" in set_text el "Erro") ;;
  (let* el := getElementById "metric-cpu" in set_text el "Erro") ;;
  (let* el := getElementById "metric-ram" in set_text el "Erro").

Definition updateDashboardCards_settle (r : fetch_result) : JS dashboard unit :=
  try_catch (updateDashboardCards_try r) updateDashboardCards_catch.

(** *** The event loop of the dashboard page *)

(** What can happen after [DOMContentLoaded]: a push message arrives, the
    push connection reports an error, the 10-second timer fires (it calls
    [updateDashboardCards], as the initial call does), a status request
    settles. A rejected promise is reported by the platform and changes
    nothing else. *)
Inductive event : Type :=
  | SseMessage (parsed : option (json number))
  | SseError
  | TimerTick
  | StatusSettled (r : fetch_result).

Definition handler (ev : event) : JS dashboard unit :=
  match ev with
  | SseMessage parsed => onmessage parsed
  | SseError => onerror
  | TimerTick => updateDashboardCards_start
  | StatusSettled r => updateDashboardCards_settle r
  end.

Definition step (p : dashboard) (ev : event) : dashboard := fst (handler ev p).

Definition run (evs : list event) (p : dashboard) : dashboard :=
  fold_left step evs p.
End Dashboard.

(** ** Strings *)

(** Strings are sequences of code units below 256. [String.prototype.trim]
    strips the white space and line terminators found in that range. *)
Definition is_space (c : ascii) : bool :=
  match nat_of_ascii c with
  | 9 | 10 | 11 | 12 | 13 | 32 | 160 => true
  | _ => false
  end.

Fixpoint trim_start (s : string) : string :=
  match s with
  | String c rest => if is_space c then trim_start rest else s
  | EmptyString => EmptyString
  end.

Definition string_rev (s : string) : string :=
  string_of_list_ascii (rev (list_ascii_of_string s)).

Definition trim (s : string) : string :=
  string_rev (trim_start (string_rev (trim_start s))).

(** [s !== ''] and the truthiness of a string *)
Definition nonempty (s : string) : bool := negb (String.eqb s "").

(** [a || b] on strings *)
Definition str_or (a b : string) : string := if nonempty a then a else b.

(** ** The structured upload form *)

Record file : Type := mkFile { file_name : string }.

Inductive request : Type :=
  | GetCourses
  | GetModules (course : string)
  | PostUploadStructured (f : file) (course module : string).

(** The two dropdowns and the two text fields. A [select] is represented by
    its [value] (the empty string when the placeholder option or nothing is
    selected); the module dropdown also by its options, as (value, text). *)
Record selection : Type := mkSelection {
  courseSelect_value : string;
  newCourseInput_value : string;
  moduleSelect_value : string;
  moduleSelect_options : list (string * string);
  moduleSelect_disabled : bool;
  newModuleInput_value : string;
  newModuleInput_disabled : bool
}.

(** The form: the selection, the chosen files, the submit button (taken to
    exist), every [showStructuredFeedback] call so far (the feedback element
    shows the last one), the console, and the requests issued, oldest
    first. *)
Record form : Type := mkForm {
  sel : selection;
  fileInput_files : list file;
  submitBtn_disabled : bool;
  feedback : list (string * string);
  form_console : list log_entry;
  requests : list request
}.

Definition with_sel (g : selection -> selection) : JS form unit :=
  modify (fun f => mkForm (g (sel f)) (fileInput_files f) (submitBtn_disabled f)
                          (feedback f) (form_console f) (requests f)).

Definition set_courseSelect_value (v : string) (x : selection) : selection :=
  mkSelection v (newCourseInput_value x) (moduleSelect_value x)
    (moduleSelect_options x) (moduleSelect_disabled x)
    (newModuleInput_value x) (newModuleInput_disabled x).
Definition set_newCourseInput_value (v : string) (x : selection) : selection :=
  mkSelection (courseSelect_value x) v (moduleSelect_value x)
    (moduleSelect_options x) (moduleSelect_disabled x)
    (newModuleInput_value x) (newModuleInput_disabled x).
Definition set_moduleSelect_value (v : string) (x : selection) : selection :=
  mkSelection (courseSelect_value x) (newCourseInput_value x) v
    (moduleSelect_options x) (moduleSelect_disabled x)
    (newModuleInput_value x) (newModuleInput_disabled x).
(** [moduleSelect.innerHTML = '<option value="">text</option>']: one option,
    which is then the selected one. *)
Definition set_moduleSelect_placeholder (text : string) (x : selection) : selection :=
  mkSelection (courseSelect_value x) (newCourseInput_value x) ""
    [("", text)] (moduleSelect_disabled x)
    (newModuleInput_value x) (newModuleInput_disabled x).
(** [moduleSelect.appendChild(option)] for each name: the selection stays. *)
Definition append_module_options (names : list string) (x : selection) : selection :=
  mkSelection (courseSelect_value x) (newCourseInput_value x) (moduleSelect_value x)
    (moduleSelect_options x ++ map (fun m => (m, m)) names) (moduleSelect_disabled x)
    (newModuleInput_value x) (newModuleInput_disabled x).
Definition set_moduleSelect_disabled (b : bool) (x : selection) : selection :=
  mkSelection (courseSelect_value x) (newCourseInput_value x) (moduleSelect_value x)
    (moduleSelect_options x) b
    (newModuleInput_value x) (newModuleInput_disabled x).
Definition set_newModuleInput_value (v : string) (x : selection) : selection :=
  mkSelection (courseSelect_value x) (newCourseInput_value x) (moduleSelect_value x)
    (moduleSelect_options x) (moduleSelect_disabled x)
    v (newModuleInput_disabled x).
Definition set_newModuleInput_disabled (b : bool) (x : selection) : selection :=
  mkSelection (courseSelect_value x) (newCourseInput_value x) (moduleSelect_value x)
    (moduleSelect_options x) (moduleSelect_disabled x)
    (newModuleInput_value x) b.

Definition set_submitBtn_disabled (b : bool) : JS form unit :=
  modify (fun f => mkForm (sel f) (fileInput_files f) b
                          (feedback f) (form_console f) (requests f)).
Definition showStructuredFeedback (msg type : string) : JS form unit :=
  modify (fun f => mkForm (sel f) (fileInput_files f) (submitBtn_disabled f)
                          (feedback f ++ [(msg, type)]) (form_console f) (requests f)).
Definition form_log (e : log_entry) : JS form unit :=
  modify (fun f => mkForm (sel f) (fileInput_files f) (submitBtn_disabled f)
                          (feedback f) (form_console f ++ [e]) (requests f)).
(** [fetch(...)] is called: the request leaves. *)
Definition issue (r : request) : JS form unit :=
  modify (fun f => mkForm (sel f) (fileInput_files f) (submitBtn_disabled f)
                          (feedback f) (form_console f) (requests f ++ [r])).

(** *** The listeners of the four controls *)

(** [courseSelect] 'change', first listener, up to its [fetch] *)
Definition courseSelect_change_modules : JS form unit :=
  let* f := get in
  let selectedCourse := courseSelect_value (sel f) in
  with_sel (set_moduleSelect_placeholder "-- Selecione um Módulo --") ;;
  with_sel (set_newModuleInput_disabled (negb (nonempty selectedCourse))) ;;
  with_sel (set_moduleSelect_disabled (negb (nonempty selectedCourse))) ;;
  if negb (nonempty selectedCourse) then ret tt
  else issue (GetModules selectedCourse).

(** [courseSelect] 'change', second listener *)
Definition courseSelect_change_clear : JS form unit :=
  let* f := get in
  when (nonempty (courseSelect_value (sel f)))
       (with_sel (set_newCourseInput_value "")).

(** [moduleSelect] 'change' *)
Definition moduleSelect_change : JS form unit :=
  let* f := get in
  when (nonempty (moduleSelect_value (sel f)))
       (with_sel (set_newModuleInput_value "")).

(** [newCourseInput] 'input' *)
Definition newCourseInput_input : JS form unit :=
  let* f := get in
  when (nonempty (trim (newCourseInput_value (sel f)))) (
    with_sel (set_courseSelect_value "") ;;
    with_sel (set_moduleSelect_placeholder "-- Selecione um Curso Primeiro --") ;;
    with_sel (set_moduleSelect_disabled true) ;;
    with_sel (set_newModuleInput_disabled true) ;;
    with_sel (set_newModuleInput_value "")).

(** [newModuleInput] 'input' *)
Definition newModuleInput_input : JS form unit :=
  let* f := get in
  when (nonempty (trim (newModuleInput_value (sel f))))
       (with_sel (set_moduleSelect_value "")).

(** [courseSelect.dispatchEvent(new Event('change'))]: both listeners, in
    the order they were added. *)
Definition courseSelect_dispatch_change : JS form unit :=
  courseSelect_change_modules ;; courseSelect_change_clear.

(** *** What the user does to the four controls *)

(** A keystroke leaves a text field reading [text]; a choice leaves a
    dropdown on the option with the given value. The browser updates the
    control and then runs its listeners; a disabled control takes no input. *)
Inductive user_event : Type :=
  | TypeNewCourse (text : string)
  | TypeNewModule (text : string)
  | ChooseCourse (c : string)
  | ChooseModule (m : string).

Definition user_handler (ev : user_event) : JS form unit :=
  match ev with
  | TypeNewCourse text =>
      with_sel (set_newCourseInput_value text) ;; newCourseInput_input
  | TypeNewModule text =>
      let* f := get in
      if newModuleInput_disabled (sel f) then ret tt
      else with_sel (set_newModuleInput_value text) ;; newModuleInput_input
  | ChooseCourse c =>
      with_sel (set_courseSelect_value c) ;; courseSelect_dispatch_change
  | ChooseModule m =>
      let* f := get in
      if moduleSelect_disabled (sel f) then ret tt
      else with_sel (set_moduleSelect_value m) ;; moduleSelect_change
  end.

Definition user_step (f : form) (ev : user_event) : form :=
  fst (user_handler ev f).

(** *** The two listings *)

(** What a listing request gives; the endpoints answer with arrays of
    names. [body = None]: [response.json()] rejects. *)
Inductive listing : Type :=
  | ListingFailure
  | Listing (ok : bool) (status : nat) (body : option (list string)).

(** [loadCourses], after its [fetch] *)
Definition courses_settled (r : listing) : JS form unit :=
  try_catch
    (match r with
     | ListingFailure => throw TypeError
     | Listing ok status body =>
         if negb ok then
           if Nat.eqb status 404 then
             form_log (LogWarn "Endpoint /api/courses não encontrado. Populando manualmente.") ;;
             with_sel (set_courseSelect_value "")
           else throw (Error ("HTTP error! status: " ++ pretty status))
         else
           match body with
           | None => throw SyntaxError
           | Some courses => with_sel (set_courseSelect_value "")
           end
     end)
    (fun e =>
       form_log (LogError "Erro ao carregar cursos:") ;;
       showStructuredFeedback "Erro ao carregar lista de cursos." "danger").

(** The first [courseSelect] 'change' listener, after its [fetch] *)
Definition modules_settled (selectedCourse : string) (r : listing) : JS form unit :=
  try_catch
    (match r with
     | ListingFailure => throw TypeError
     | Listing ok status body =>
         if negb ok then
           if Nat.eqb status 404 then
             form_log (LogWarn ("Nenhum módulo encontrado para o curso " ++ selectedCourse
                                ++ " ou endpoint não disponível.")) ;;
             with_sel (set_moduleSelect_placeholder "-- Nenhum módulo encontrado --")
           else throw (Error ("HTTP error! status: " ++ pretty status))
         else
           match body with
           | None => throw SyntaxError
           | Some modules =>
               if bool_decide (0 < List.length modules)%nat
               then with_sel (append_module_options modules)
               else with_sel (set_moduleSelect_placeholder "-- Nenhum módulo encontrado --")
           end
     end)
    (fun e =>
       form_log (LogError ("Erro ao carregar módulos para " ++ selectedCourse ++ ":")) ;;
       showStructuredFeedback ("Erro ao carregar módulos para " ++ selectedCourse ++ ".")
                              "danger").

Section StructuredUpload.
Context {number : Type} `{JsNumber number}.

(** [new Error(errorData.detail || `Erro ${response.status}`)] *)
Definition upload_error (detail : value number) (status : nat) : exn :=
  Error (match detail with
         | Some j => if truthy detail then ToString j else "Erro " ++ pretty status
         | None => "Erro " ++ pretty status
         end).

(** One turn of the loop: [allSuccess] and [successCount] go in and out.
    [r] is what the request for this file gives. *)
Definition upload_one (r : @fetch_result number) (targetCourse targetModule : string)
    (total : nat) (f : file) (st : bool * nat) : JS form (bool * nat) :=
  let '(allSuccess, successCount) := st in
  try_catch
    (issue (PostUploadStructured f targetCourse targetModule) ;;
     match r with
     | NetworkFailure => throw TypeError
     | Response ok status body =>
         if negb ok then
           let* errorData := match body with
                             | None => throw SyntaxError
                             | Some j => ret (Some j)
                             end in
           let* detail := lift (prop errorData "detail") in
           throw (upload_error detail status)
         else
           let* data := match body with
                        | None => throw SyntaxError
                        | Some j => ret (Some j)
                        end in
           form_log (LogInfo ("Arquivo " ++ file_name f ++ " enviado com sucesso:")) ;;
           let successCount := S successCount in
           showStructuredFeedback
             ("Enviando: " ++ pretty successCount ++ "/" ++ pretty total ++ " arquivos...")
             "info" ;;
           ret (allSuccess, successCount)
     end)
    (fun error =>
       form_log (LogError ("Erro ao enviar " ++ file_name f ++ ":")) ;;
       showStructuredFeedback
         ("Erro ao enviar " ++ file_name f ++ ": " ++ message error) "danger" ;;
       ret (false, successCount)).

(** [for (let i = 0; i < files.length; i++)], from index [i] on; [server i]
    is what the request for [files[i]] gives. *)
Fixpoint upload_loop (server : nat -> @fetch_result number)
    (targetCourse targetModule : string) (total : nat)
    (fs : list file) (i : nat) (st : bool * nat) : JS form (bool * nat) :=
  match fs with
  | [] => ret st
  | f :: rest =>
      let* st' := upload_one (server i) targetCourse targetModule total f st in
      upload_loop server targetCourse targetModule total rest (S i) st'
  end.

(** The form's 'submit' listener *)
Definition submit (server : nat -> @fetch_result number) : JS form unit :=
  let* f := get in
  let selectedCourse := trim (courseSelect_value (sel f)) in
  let newCourse := trim (newCourseInput_value (sel f)) in
  let selectedModule := trim (moduleSelect_value (sel f)) in
  let newModule := trim (newModuleInput_value (sel f)) in
  let files := fileInput_files f in
  let targetCourse := str_or selectedCourse newCourse in
  let targetModule := str_or selectedModule newModule in
  if negb (nonempty targetCourse) then
    showStructuredFeedback
      "Por favor, selecione um curso existente ou digite o nome de um novo." "warning"
  else if negb (nonempty targetModule) then
    showStructuredFeedback
      "Por favor, selecione um módulo existente ou digite o nome de um novo." "warning"
  else if Nat.eqb (List.length files) 0 then
    showStructuredFeedback "Por favor, selecione pelo menos um arquivo." "warning"
  else
    set_submitBtn_disabled true ;;
    showStructuredFeedback "Enviando arquivos..." "info" ;;
    let* (allSuccess, successCount) :=
      upload_loop server targetCourse targetModule (List.length files) files 0 (true, 0) in
    (if allSuccess : bool then
       showStructuredFeedback
         (pretty successCount ++ " arquivo(s) enviado(s) com sucesso para '"
          ++ targetCourse ++ "' -> '" ++ targetModule ++ "'!") "success" ;;
       issue GetCourses ;;
       let* f' := get in
       when (String.eqb (courseSelect_value (sel f')) targetCourse)
            courseSelect_dispatch_change
     else
       showStructuredFeedback
         ("Alguns arquivos (" ++ pretty (List.length files - successCount)
          ++ " de " ++ pretty (List.length files)
          ++ ") não puderam ser enviados. Veja os erros acima.") "danger") ;;
    set_submitBtn_disabled false.
End StructuredUpload.

(** *** The loop and its traffic

    The form keeps the requests and the feedback lines in two lists, which
    do not tell in what order a request left and a line was shown. Here the
    same loop runs over the form and a journal of what happens, in order:
    a request leaves, a request settles ([await fetch(...)] returns or
    throws), a feedback line is shown. *)

Inductive traffic : Type :=
  | Sent (f : file)
  | Settled (f : file)
  | Shown (line : string * string).

(** A handler of the form, run on the form and the journal *)
Definition on_form {A} (m : JS form A) : JS (form * list traffic) A :=
  fun s => match m (fst s) with
           | (g, r) => ((g, snd s), r)
           end.
Definition note (e : traffic) : JS (form * list traffic) unit :=
  modify (fun s : form * list traffic => (fst s, (snd s ++ [e])%list)).
(** [showStructuredFeedback], noted *)
Definition show_line (msg type : string) : JS (form * list traffic) unit :=
  on_form (showStructuredFeedback msg type) ;; note (Shown (msg, type)).

Section StructuredUploadTraffic.
Context {number : Type} `{JsNumber number}.

(** One turn of the loop, as [upload_one] *)
Definition upload_one_traffic (r : @fetch_result number)
    (targetCourse targetModule : string) (total : nat) (f : file) (st : bool * nat)
  : JS (form * list traffic) (bool * nat) :=
  let '(allSuccess, successCount) := st in
  try_catch
    (on_form (issue (PostUploadStructured f targetCourse targetModule)) ;;
     note (Sent f) ;;
     note (Settled f) ;;
     match r with
     | NetworkFailure => throw TypeError
     | Response ok status body =>
         if negb ok then
           let* errorData := match body with
                             | None => throw SyntaxError
                             | Some j => ret (Some j)
                             end in
           let* detail := lift (prop errorData "detail") in
           throw (upload_error detail status)
         else
           let* data := match body with
                        | None => throw SyntaxError
                        | Some j => ret (Some j)
                        end in
           on_form (form_log (LogInfo ("Arquivo " ++ file_name f
                                       ++ " enviado com sucesso:"))) ;;
           let successCount := S successCount in
           show_line
             ("Enviando: " ++ pretty successCount ++ "/" ++ pretty total ++ " arquivos...")
             "info" ;;
           ret (allSuccess, successCount)
     end)
    (fun error =>
       on_form (form_log (LogError ("Erro ao enviar " ++ file_name f ++ ":"))) ;;
       show_line ("Erro ao enviar " ++ file_name f ++ ": " ++ message error) "danger" ;;
       ret (false, successCount)).

(** The loop, as [upload_loop] *)
Fixpoint upload_loop_traffic (server : nat -> @fetch_result number)
    (targetCourse targetModule : string) (total : nat)
    (fs : list file) (i : nat) (st : bool * nat)
  : JS (form * list traffic) (bool * nat) :=
  match fs with
  | [] => ret st
  | f :: rest =>
      let* st' := upload_one_traffic (server i) targetCourse targetModule total f st in
      upload_loop_traffic server targetCourse targetModule total rest (S i) st'
  end.
End StructuredUploadTraffic.

(** ** The React upload page ([UploadPage.jsx]) *)

Inductive upload_status : Type := StatusSuccess | StatusError.

Section UploadPage.
Context {number : Type} `{JsNumber number}.

(** One entry of [results] *)
Record upload_result : Type := mkResult {
  filename : string;
  status : upload_status;
  taskId : value number;
  result_message : value number
}.

(** The component state: [files], [uploading], [uploadResults], [error] *)
Record upload_page : Type := mkUploadPage {
  files : list file;
  uploading : bool;
  uploadResults : list upload_result;
  error : string
}.

Definition setFiles (v : list file) : JS upload_page unit :=
  modify (fun s => mkUploadPage v (uploading s) (uploadResults s) (error s)).
Definition setUploading (v : bool) : JS upload_page unit :=
  modify (fun s => mkUploadPage (files s) v (uploadResults s) (error s)).
Definition setUploadResults (v : list upload_result) : JS upload_page unit :=
  modify (fun s => mkUploadPage (files s) (uploading s) v (error s)).
Definition setError (v : string) : JS upload_page unit :=
  modify (fun s => mkUploadPage (files s) (uploading s) (uploadResults s) v).

(** What [await axios.post(...)] gives: a response with its [data], or a
    rejection whose error may carry a response ([None]: it carries none). *)
Inductive axios_result : Type :=
  | AxiosResolved (data : value number)
  | AxiosRejected (response_data : option (value number)).

(** [err.response?.data?.detail || 'Erro no upload'] *)
Definition error_detail (response_data : option (value number)) : value number :=
  let detail :=
    match response_data with
    | None => None
    | Some data => match opt_prop data "detail" with
                   | Ok d => d
                   | Throw _ => None
                   end
    end in
  or_else detail (Some (JStr "Erro no upload")).

(** The inner [try]/[catch] of the loop: the entry pushed for one file.
    Reading [response.data.task_id] of a missing body throws inside the
    [try]; that error carries no response. *)
Definition upload_entry (r : axios_result) (f : file) : upload_result :=
  match r with
  | AxiosResolved data =>
      match prop data "task_id", prop data "message" with
      | Ok t, Ok m => mkResult (file_name f) StatusSuccess t m
      | _, _ => mkResult (file_name f) StatusError None (error_detail None)
      end
  | AxiosRejected rd => mkResult (file_name f) StatusError None (error_detail rd)
  end.

(** [for (const file of files)], with [results] as built so far; [post i]
    is what the request for the i-th file gives. *)
Fixpoint upload_each (post : nat -> axios_result) (fs : list file) (i : nat)
    (results : list upload_result) : JS upload_page (list upload_result) :=
  match fs with
  | [] => ret results
  | f :: rest => upload_each post rest (S i) (results ++ [upload_entry (post i) f])
  end.

Definition handleUpload (post : nat -> axios_result) : JS upload_page unit :=
  let* s := get in
  if Nat.eqb (List.length (files s)) 0 then
    setError "Por favor, selecione pelo menos um arquivo"
  else
    setUploading true ;;
    setError "" ;;
    setUploadResults [] ;;
    try_finally
      (try_catch
         (let* results := upload_each post (files s) 0 [] in
          setUploadResults results)
         (fun err => setError ("Erro ao processar uploads: " ++ message err)))
      (setUploading false ;;
       setFiles []).
End UploadPage.
Arguments upload_result : clear implicits.
Arguments upload_page : clear implicits.
Arguments axios_result : clear implicits.

(** ** The metrics cards and the updates that reach them *)

Inductive metric : Type :=
  | SystemCpuPercent
  | SystemMemPercent
  | SystemMemUsedGb
  | SystemMemTotalGb
  | TotalTranscriptions
  | QueueWebSize
  | QueueGdriveSize.

Definition all_metrics : list metric :=
  [SystemCpuPercent; SystemMemPercent; SystemMemUsedGb; SystemMemTotalGb;
   TotalTranscriptions; QueueWebSize; QueueGdriveSize].

(** The element that shows a metric *)
Definition element_of (m : metric) : string :=
  match m with
  | SystemCpuPercent => "metric-cpu"
  | SystemMemPercent => "metric-ram"
  | SystemMemUsedGb => "metric-ram-used"
  | SystemMemTotalGb => "metric-ram-total"
  | TotalTranscriptions => "metric-total-transcriptions"
  | QueueWebSize => "metric-queue-web"
  | QueueGdriveSize => "metric-queue-gdrive"
  end.

Definition is_system (m : metric) : bool :=
  match m with
  | SystemCpuPercent | SystemMemPercent | SystemMemUsedGb | SystemMemTotalGb => true
  | _ => false
  end.

(** The key of a metric inside its group of a push event ([system],
    [queue]) *)
Definition push_key (m : metric) : string :=
  match m with
  | SystemCpuPercent => "cpu_percent"
  | SystemMemPercent => "memory_percent"
  | SystemMemUsedGb => "memory_used_gb"
  | SystemMemTotalGb => "memory_total_gb"
  | TotalTranscriptions => "total_transcriptions"
  | QueueWebSize => "web_size"
  | QueueGdriveSize => "gdrive_size"
  end.

(** Its key in a polled snapshot: inside [system], or at the top level *)
Definition poll_key (m : metric) : string :=
  match m with
  | TotalTranscriptions => "total_transcriptions"
  | QueueWebSize => "queue_web_size"
  | QueueGdriveSize => "queue_gdrive_size"
  | _ => push_key m
  end.

Definition digits (m : metric) : nat :=
  match m with
  | SystemMemUsedGb | SystemMemTotalGb => 2
  | _ => 1
  end.

Definition displayed (m : metric) (p : dashboard) : option string :=
  texts p !! element_of m.

(** Every metrics card exists in the document. *)
Definition all_present (p : dashboard) : Prop :=
  forall m, is_Some (displayed m p).

Section Updates.
Context {number : Type} `{JsNumber number}.

(** A metrics update: a push message that parsed, or the body of a
    successful poll. *)
Inductive update : Type :=
  | Realtime (data : json number)
  | Polled (data : json number).

Definition event_of (u : update) : @event number :=
  match u with
  | Realtime d => SseMessage (Some d)
  | Polled d => StatusSettled (Response true 200 (Some d))
  end.

Definition apply_update (p : dashboard) (u : update) : dashboard :=
  step p (event_of u).

Definition apply_updates (us : list update) (p : dashboard) : dashboard :=
  fold_left apply_update us p.

(** [v.k] when it can be read, [undefined] otherwise *)
Definition field (v : value number) (k : string) : value number :=
  match prop v k with
  | Ok x => x
  | Throw _ => None
  end.

(** The group of an update a metric lives in: [data.system], [data.queue],
    or the top level of a polled snapshot. *)
Definition group_of (u : update) (m : metric) : value number :=
  match u with
  | Realtime d => field (Some d) (if is_system m then "system" else "queue")
  | Polled d => if is_system m then field (Some d) "system" else Some d
  end.

Definition key_of (u : update) (m : metric) : string :=
  match u with
  | Realtime _ => push_key m
  | Polled _ => poll_key m
  end.

(** The value an update carries for a metric, if it sets it *)
Definition carried (u : update) (m : metric) : value number :=
  field (group_of u m) (key_of u m).

(** How a value is shown on the card of a metric *)
Definition rendered (m : metric) (j : json number) : string :=
  if is_system m then
    match call_toFixed (Some j) (digits m) with
    | Ok t => t
    | Throw _ => "--"
    end
  else text_of j.

(** *** Last write wins, as the specification words it

    Per field, the value of the most recent update that set the field;
    the initial content when no update set it. *)
Fixpoint last_carried (us : list update) (m : metric) : value number :=
  match us with
  | [] => None
  | u :: rest =>
      match last_carried rest m with
      | Some j => Some j
      | None => carried u m
      end
  end.

Definition claimed_display (us : list update) (m : metric) (p0 : dashboard)
  : option string :=
  match last_carried us m with
  | Some j => Some (rendered m j)
  | None => displayed m p0
  end.

(** *** What an update writes

    An update that carries [system] writes the four system cards, ['--']
    for a member it lacks; a push update that carries [queue] writes the
    queue cards; a polled snapshot writes each queue card it has a value
    for. *)
Definition written (u : update) (m : metric) : option string :=
  if is_system m then
    if truthy (group_of u m) then
      Some (match carried u m with
            | Some j => rendered m j
            | None => "--"
            end)
    else None
  else
    match u with
    | Realtime _ =>
        if truthy (group_of u m) then text_of <$> carried u m else None
    | Polled _ => text_of <$> carried u m
    end.

Fixpoint last_written (us : list update) (m : metric) : option string :=
  match us with
  | [] => None
  | u :: rest =>
      match last_written rest m with
      | Some s => Some s
      | None => written u m
      end
  end.

(** *** Well-formed updates *)

Definition number_or_absent (v : value number) : bool :=
  match v with
  | None | Some (JNum _) => true
  | _ => false
  end.

(** A [system] group whose members, where present, are numbers *)
Definition system_ok (system : value number) : bool :=
  negb (truthy system)
  || (number_or_absent (field system "cpu_percent")
      && number_or_absent (field system "memory_percent")
      && number_or_absent (field system "memory_used_gb")
      && number_or_absent (field system "memory_total_gb")).

(** A push [queue] group that carries its three counts *)
Definition queue_complete (queue : value number) : bool :=
  negb (truthy queue)
  || (bool_decide (is_Some (field queue "total_transcriptions"))
      && bool_decide (is_Some (field queue "web_size"))
      && bool_decide (is_Some (field queue "gdrive_size"))).

Definition number_or_null (j : json number) : bool :=
  match j with
  | JNull | JNum _ => true
  | _ => false
  end.

(** A [metrics] group whose per-model speeds are numbers or [null] and
    whose average time is a number, [null] or missing *)
Definition metrics_ok (metrics : value number) : bool :=
  negb (truthy metrics)
  || (forallb (fun kv => number_or_null (snd kv))
        (match or_else (field metrics "avg_transcription_speed_per_model")
                       (Some (JObj [])) with
         | Some j => entries j
         | None => []
         end)
      && match field metrics "avg_process_time_sec" with
         | None | Some JNull | Some (JNum _) => true
         | _ => false
         end).

Definition well_formed (u : update) : bool :=
  match u with
  | Realtime d =>
      system_ok (field (Some d) "system") && queue_complete (field (Some d) "queue")
  | Polled d =>
      match d with JNull => false | _ => true end
      && system_ok (field (Some d) "system")
      && metrics_ok (field (Some d) "metrics")
  end.

(** *** A partial update, as the specification words it: a field that is
    not present in the update *)
Definition absent_from (u : update) (m : metric) : Prop :=
  carried u m = None.

(** The group of the field is not in the update (for a queue field of a
    polled snapshot, whose group is the snapshot: the field itself). *)
Definition group_absent (u : update) (m : metric) : Prop :=
  match u with
  | Polled _ => if is_system m then truthy (group_of u m) = false
                else carried u m = None
  | Realtime _ => truthy (group_of u m) = false
  end.

(** What the polled path needs to run to its end: a well-formed snapshot
    and the seven cards. The push path needs nothing. *)
Definition poll_in_order (u : update) (p : dashboard) : Prop :=
  match u with
  | Realtime _ => True
  | Polled _ => well_formed u = true /\ all_present p
  end.
End Updates.
Arguments update : clear implicits.
(** ** The refresh timer against a slow endpoint

    [updateDashboardCards()] is called once at [DOMContentLoaded] (time 0)
    and then by [setInterval] every [interval] units; each request settles
    [latency] units after it left, with the result [r]. *)
Section Timer.
Context {number : Type} `{JsNumber number}.

Definition events_at (interval latency : nat) (r : @fetch_result number) (t : nat)
  : list (@event number) :=
  (if (latency <=? t)%nat && ((t - latency) mod interval =? 0)%nat
   then [StatusSettled r] else [])
  ++ (if (t mod interval =? 0)%nat then [TimerTick] else []).

(** Everything that happens from time 0 up to and including time [t] *)
Definition timeline (interval latency : nat) (r : @fetch_result number) (t : nat)
  : list (@event number) :=
  flat_map (events_at interval latency r) (seq 0 (S t)).
End Timer.

(** ** Integer-valued numbers

    For an integer [z] of ordinary size, [String(z)] is its decimal
    notation, [z.toFixed(d)] appends [d] zeros after a point, and only [0]
    is falsy. The concrete runs below use such numbers. *)
Definition Z_toFixed (z : Z) (d : nat) : string :=
  match d with
  | O => pretty z
  | S _ => pretty z ++ "." ++ string_of_list_ascii (replicate d "0"%char)
  end.

#[export] Instance Z_number : JsNumber Z := {
  toFixed := Z_toFixed;
  numToString := fun z => pretty z;
  numTruthy := fun z => negb (Z.eqb z 0)
}.

(** * Notions used by the statements *)

(** ** Relations that every step of a handler respects *)

(** Whatever the outcome, the final state is related to the initial one. *)
Definition stable {S A} (R : relation S) (m : JS S A) : Prop :=
  forall s, R s (fst (m s)).

(** The handler completes in every state. *)
Definition completes {S A} (m : JS S A) : Prop :=
  forall s, exists a, snd (m s) = Ok a.

(** [R] lets the element [id] be given the text [s]. *)
Definition may_write (R : relation dashboard) (id s : string) : Prop :=
  forall p, R p (mkDashboard (<[id := s]> (texts p)) (console p) (in_flight p)).

(** The card [k] reads the same. *)
Definition same_text (k : string) : relation dashboard :=
  fun p p' => texts p' !! k = texts p !! k.

(** The status line is kept, or shows one of the two worker summaries. *)
Definition status_kept_or_summary : relation dashboard :=
  fun p p' =>
    texts p' !! "system-status" = texts p !! "system-status"
    \/ texts p' !! "system-status" = Some "Operacional"
    \/ texts p' !! "system-status" = Some "Problemas".

(** A relation that looks at the texts only *)
Definition texts_only (R : relation dashboard) : Prop :=
  forall p p', texts p' = texts p -> R p p'.

(** ** What a block writes *)

(** The element [id] is given the text [s]. *)
Definition put (id s : string) (p : dashboard) : dashboard :=
  mkDashboard (<[id := s]> (texts p)) (console p) (in_flight p).

(** The same for a text that may be missing: with [None], nothing happens. *)
Definition put_opt (id : string) (o : option string) (p : dashboard) : dashboard :=
  match o with
  | Some s => put id s p
  | None => p
  end.

Section ReasoningAboutUpdates.
Context {number : Type} `{JsNumber number}.

(** The text a system card gets from a group that has or lacks the member *)
Definition shown_fixed (v : value number) (d : nat) : string :=
  match fixed_or_dash v d with
  | Ok t => t
  | Throw _ => "--"
  end.

(** What a [system] group writes on a system card: nothing when the group
    is missing *)
Definition system_text (system : value number) (k : string) (d : nat) : option string :=
  if truthy system then Some (shown_fixed (field system k) d) else None.

(** What a push [queue] group writes on a queue card *)
Definition queue_text (queue : value number) (k : string) : option string :=
  if truthy queue then Some (value_or_zero (field queue k)) else None.

(** The cards after a push message, as far as the metrics go *)
Definition after_push (d : json number) (p : dashboard) : dashboard :=
  let system := field (Some d) "system" in
  let queue := field (Some d) "queue" in
  put_opt "metric-queue-gdrive" (queue_text queue "gdrive_size")
    (put_opt "metric-queue-web" (queue_text queue "web_size")
       (put_opt "metric-total-transcriptions" (queue_text queue "total_transcriptions")
          (put_opt "metric-ram-total" (system_text system "memory_total_gb" 2)
             (put_opt "metric-ram-used" (system_text system "memory_used_gb" 2)
                (put_opt "metric-ram" (system_text system "memory_percent" 1)
                   (put_opt "metric-cpu" (system_text system "cpu_percent" 1) p)))))).

(** The cards after a successful poll, as far as the metrics go *)
Definition after_poll (d : json number) (p : dashboard) : dashboard :=
  let system := field (Some d) "system" in
  put_opt "metric-ram-total" (system_text system "memory_total_gb" 2)
    (put_opt "metric-ram-used" (system_text system "memory_used_gb" 2)
       (put_opt "metric-ram" (system_text system "memory_percent" 1)
          (put_opt "metric-cpu" (system_text system "cpu_percent" 1)
             (put_opt "metric-queue-gdrive"
                (text_of <$> field (Some d) "queue_gdrive_size")
                (put_opt "metric-queue-web"
                   (text_of <$> field (Some d) "queue_web_size")
                   (put_opt "metric-total-transcriptions"
                      (text_of <$> field (Some d) "total_transcriptions") p)))))).

End ReasoningAboutUpdates.

(** ** The course and module controls *)

(** The effective course (or module) as the specification words it: the
    selected one, else the trimmed typed one; the empty string when neither
    is given. *)
Definition effective (selected typed : string) : string :=
  if nonempty selected then selected else trim typed.

(** At each level, a selection and a typed name that is not blank do not
    coexist. *)
Definition exclusive (x : selection) : Prop :=
  (courseSelect_value x = "" \/ trim (newCourseInput_value x) = "")
  /\ (moduleSelect_value x = "" \/ trim (newModuleInput_value x) = "").

(** The same with "non-empty" taken literally *)
Definition exclusive_as_stated (x : selection) : Prop :=
  (courseSelect_value x = "" \/ newCourseInput_value x = "")
  /\ (moduleSelect_value x = "" \/ newModuleInput_value x = "").

(** The form before anything is chosen or typed *)
Definition empty_form : form :=
  mkForm (mkSelection "" "" "" [("", "-- Selecione um Curso Primeiro --")] true "" true)
         [] false [] [] [].

(** What a user event does besides keeping the selection exclusive *)
Definition listener_effect (ev : user_event) (before after : selection) : Prop :=
  match ev with
  | TypeNewCourse text =>
      trim text <> "" ->
      newCourseInput_value after = text
      /\ courseSelect_value after = ""
      /\ moduleSelect_value after = ""
      /\ moduleSelect_options after = [("", "-- Selecione um Curso Primeiro --")]
      /\ moduleSelect_disabled after = true
      /\ newModuleInput_disabled after = true
      /\ newModuleInput_value after = ""
  | ChooseCourse c =>
      c <> "" -> courseSelect_value after = c /\ newCourseInput_value after = ""
  | TypeNewModule text =>
      newModuleInput_disabled before = false -> trim text <> "" ->
      newModuleInput_value after = text /\ moduleSelect_value after = ""
  | ChooseModule m =>
      moduleSelect_disabled before = false -> m <> "" ->
      moduleSelect_value after = m /\ newModuleInput_value after = ""
  end.

(** The user chooses an existing course, then types a space into the
    new-course field. *)
Definition choose_then_type_blank : list user_event :=
  [ChooseCourse "Fisica"; TypeNewCourse " "].

(** The user chooses an existing course. *)
Definition choose_fisica : list user_event :=
  [ChooseCourse "Fisica"].

(** ** Batches *)

Definition is_upload (r : request) : bool :=
  match r with
  | PostUploadStructured _ _ _ => true
  | _ => false
  end.

Section ReasoningAboutBatches.
Context {number : Type} `{JsNumber number}.

(** The request for a file went through: a 2xx answer with a JSON body. *)
Definition succeeded (r : @fetch_result number) : bool :=
  match r with
  | Response true _ (Some _) => true
  | _ => false
  end.

(** The text of the error an error answer with a JSON body ends in: the
    server's [detail] when the body has a truthy one, 'Erro' and the status
    otherwise; reading the [detail] of [null] throws. *)
Definition server_error_text (j : json number) (status : nat) : string :=
  match j with
  | JNull => message TypeError
  | JObj kvs =>
      match assoc "detail" kvs with
      | Some d => if truthy (Some d) then ToString d else "Erro " ++ pretty status
      | None => "Erro " ++ pretty status
      end
  | _ => "Erro " ++ pretty status
  end.

(** The message of the error a failed request ends in *)
Definition failure_message (r : @fetch_result number) : string :=
  match r with
  | NetworkFailure => message TypeError
  | Response true _ _ => message SyntaxError
  | Response false _ None => message SyntaxError
  | Response false status (Some j) => server_error_text j status
  end.

(** The feedback line of one file, given how many went through before *)
Definition file_report (r : @fetch_result number) (total : nat) (f : file)
    (before : nat) : string * string :=
  if succeeded r
  then ("Enviando: " ++ pretty (S before) ++ "/" ++ pretty total ++ " arquivos...",
        "info")
  else ("Erro ao enviar " ++ file_name f ++ ": " ++ failure_message r, "danger").

(** The console line of one file *)
Definition file_log (r : @fetch_result number) (f : file) : log_entry :=
  if succeeded r
  then LogInfo ("Arquivo " ++ file_name f ++ " enviado com sucesso:")
  else LogError ("Erro ao enviar " ++ file_name f ++ ":").

(** How many of the requests [i], ..., [i + n - 1] went through *)
Definition successes (server : nat -> @fetch_result number) (i n : nat) : nat :=
  List.length (filter (fun j => succeeded (server j) = true) (seq i n)).

(** The feedback lines of the files from index [i] on *)
Fixpoint file_reports (server : nat -> @fetch_result number) (total : nat)
    (fs : list file) (i before : nat) : list (string * string) :=
  match fs with
  | [] => []
  | f :: rest =>
      file_report (server i) total f before
      :: file_reports server total rest (S i)
           (if succeeded (server i) then S before else before)
  end.

(** The console lines of the files from index [i] on *)
Fixpoint file_logs (server : nat -> @fetch_result number) (fs : list file) (i : nat)
  : list log_entry :=
  match fs with
  | [] => []
  | f :: rest => file_log (server i) f :: file_logs server rest (S i)
  end.

(** The last feedback line of a batch *)
Definition summary_line (targetCourse targetModule : string) (successCount total : nat)
  : string * string :=
  if Nat.eqb successCount total
  then (pretty successCount ++ " arquivo(s) enviado(s) com sucesso para '"
        ++ targetCourse ++ "' -> '" ++ targetModule ++ "'!", "success")
  else ("Alguns arquivos (" ++ pretty (total - successCount) ++ " de " ++ pretty total
        ++ ") não puderam ser enviados. Veja os erros acima.", "danger").

(** The outcome of a file, by its request and by its feedback line: a
    progress line is of type [info], an error line of type [danger]. *)
Definition outcome_of (r : @fetch_result number) : upload_status :=
  if succeeded r then StatusSuccess else StatusError.
Definition line_outcome (line : string * string) : upload_status :=
  if String.eqb (snd line) "info" then StatusSuccess else StatusError.

(** The aggregate as the specification words it: [successCount] out of
    the total *)
Definition claimed_aggregate (successCount total : nat) : string :=
  pretty successCount ++ "/" ++ pretty total.

(** The form when the loop starts: the button disabled, the first line
    shown *)
Definition sending (f : form) : form :=
  mkForm (sel f) (fileInput_files f) true
         (feedback f ++ [("Enviando arquivos...", "info")])
         (form_console f) (requests f).

(** The journal of the loop from the file of index [i] on: for each file in
    turn its request leaves, settles, and its line is shown. *)
Fixpoint expected_traffic (server : nat -> @fetch_result number) (total : nat)
    (fs : list file) (i before : nat) : list traffic :=
  match fs with
  | [] => []
  | f :: rest =>
      Sent f :: Settled f :: Shown (file_report (server i) total f before)
      :: expected_traffic server total rest (S i)
           (if succeeded (server i) then S before else before)
  end.

(** The entries of a batch, in the order of the files *)
Fixpoint upload_entries (post : nat -> axios_result number) (fs : list file) (i : nat)
  : list (upload_result number) :=
  match fs with
  | [] => []
  | f :: rest => upload_entry (post i) f :: upload_entries post rest (S i)
  end.

(** The request for a file gave a response whose body can be read. *)
Definition resolved (r : axios_result number) : bool :=
  match r with
  | AxiosResolved (Some JNull) | AxiosResolved None => false
  | AxiosResolved _ => true
  | AxiosRejected _ => false
  end.

End ReasoningAboutBatches.

(** ** Concrete pages, updates and batches (numbers are integers) *)

(** A dashboard page with its cards on their placeholders *)
Definition page0 : dashboard :=
  mkDashboard
    (list_to_map
       [("metric-cpu", "--"); ("metric-ram", "--"); ("metric-ram-used", "--");
        ("metric-ram-total", "--"); ("metric-total-transcriptions", "--");
        ("metric-queue-web", "--"); ("metric-queue-gdrive", "--");
        ("system-status", "Conectando..."); ("model-performance-list", "");
        ("avg-process-time", "-- segundos")])
    [] 0.

(** A status response with an empty object for a body *)
Definition empty_snapshot : @fetch_result Z := Response true 200 (Some (JObj [])).

(** A poll answers [{system: {memory_used_gb: 3}}], then a push event
    brings [{system: {cpu_percent: 40}}]. *)
Definition poll_then_push : list (update Z) :=
  [Polled (JObj [("system", JObj [("memory_used_gb", JNum 3%Z)])]);
   Realtime (JObj [("system", JObj [("cpu_percent", JNum 40%Z)])])].

(** A page whose CPU card shows a value *)
Definition page_cpu_12 : dashboard := put "metric-cpu" "12.0" page0.

(** A push event that brings the memory percentage only *)
Definition push_memory_only : update Z :=
  Realtime (JObj [("system", JObj [("memory_percent", JNum 50%Z)])]).

(** A snapshot with one queue size and no [system] group *)
Definition poll_queue_only : update Z :=
  Polled (JObj [("queue_web_size", JNum 4%Z)]).

(** A push event whose queue group has the web queue size only *)
Definition push_web_size_only : update Z :=
  Realtime (JObj [("queue", JObj [("web_size", JNum 2%Z)])]).

(** Both workers report [running]. *)
Definition push_workers_running : json Z :=
  JObj [("workers", JObj [("web", JObj [("status", JStr "running")]);
                          ("gdrive", JObj [("status", JStr "running")])])].

(** Both workers report [running]; the CPU load is [null]. *)
Definition push_workers_running_cpu_null : json Z :=
  JObj [("system", JObj [("cpu_percent", JNull)]);
        ("workers", JObj [("web", JObj [("status", JStr "running")]);
                          ("gdrive", JObj [("status", JStr "running")])])].

(** Five files; the requests for the second and the fourth fail. *)
Definition five_files : list file :=
  [mkFile "aula1.mp3"; mkFile "aula2.mp3"; mkFile "aula3.mp3"; mkFile "aula4.mp3";
   mkFile "aula5.mp3"].

Definition second_and_fourth_fail (i : nat) : @fetch_result Z :=
  match i with
  | 1 | 3 => Response false 500 (Some (JObj [("detail", JStr "falha")]))
  | _ => Response true 200 (Some (JObj [("filename", JStr "ok")]))
  end.

(** The same batch, as [axios.post] reports it *)
Definition second_and_fourth_rejected (i : nat) : axios_result Z :=
  match i with
  | 1 | 3 => AxiosRejected (Some (Some (JObj [("detail", JStr "falha")])))
  | _ => AxiosResolved (Some (JObj [("task_id", JStr "t"); ("message", JStr "ok")]))
  end.

(** The course [Fisica] is selected, the module [Aula 1] is typed. *)
Definition form_five_files : form :=
  mkForm (mkSelection "Fisica" "" "" [("", "-- Selecione um Módulo --")] false
                      " Aula 1 " false)
         five_files false [] [] [].

(** The React page with the same five files selected *)
Definition page_five_files : upload_page Z :=
  mkUploadPage five_files false [] "".

(** No course is selected and none is typed; a module and a file are
    given. *)
Definition form_without_course : form :=
  mkForm (mkSelection "" "  " "" [("", "-- Selecione um Curso Primeiro --")] true
                      "Aula 1" true)
         [mkFile "aula1.mp3"] false [] [] [].

(** * More of the dashboard *)

(** The elements the polled refresh can write: the seven cards and the two
    performance elements *)
Definition poll_elements : list string :=
  ["metric-total-transcriptions"; "metric-queue-web"; "metric-queue-gdrive";
   "metric-cpu"; "metric-ram"; "metric-ram-used"; "metric-ram-total";
   "model-performance-list"; "avg-process-time"].

(** The elements a push message can write: the seven cards and the status
    line *)
Definition push_elements : list string :=
  ["metric-cpu"; "metric-ram"; "metric-ram-used"; "metric-ram-total";
   "metric-total-transcriptions"; "metric-queue-web"; "metric-queue-gdrive";
   "system-status"].

(** The cards the [catch] block of the polled refresh writes *)
Definition error_cards : list string :=
  ["metric-total-transcriptions"; "metric-queue-web"; "metric-queue-gdrive";
   "metric-cpu"; "metric-ram"].

(** As many requests in flight *)
Definition same_in_flight : relation dashboard :=
  fun p p' => in_flight p' = in_flight p.

Section MoreDashboard.
Context {number : Type} `{JsNumber number}.

(** The request did not bring a snapshot: [fetch] rejected, the status was
    not 2xx, or the body was not JSON. *)
Definition poll_failed (r : @fetch_result number) : bool :=
  match r with
  | NetworkFailure => true
  | Response ok _ body => negb ok || bool_decide (body = None)
  end.

(** A push event, as opposed to a tick or a settled request *)
Definition is_push (ev : @event number) : bool :=
  match ev with
  | SseMessage _ | SseError => true
  | _ => false
  end.

(** One item of the performance list *)
Definition model_item (kv : string * json number) : string :=
  "<li><strong>" ++ fst kv ++ ":</strong> "
  ++ match snd kv with
     | JNull => "--"
     | JNum n => toFixed n 2
     | _ => ""
     end
  ++ " segundos por minuto de áudio</li>".

(** The per-model speeds of a [metrics] group, in enumeration order *)
Definition speed_entries (metrics : value number) : list (string * json number) :=
  match or_else (field metrics "avg_transcription_speed_per_model") (Some (JObj [])) with
  | Some j => entries j
  | None => []
  end.

(** The text of the average processing time *)
Definition average_text (metrics : value number) : string :=
  match field metrics "avg_process_time_sec" with
  | Some (JNum n) => toFixed n 2 ++ " segundos"
  | _ => "-- segundos"
  end.
(** The performance list: one item per model in the order of the answer,
    or the placeholder when there is none *)
Definition performance_html (es : list (string * json number)) : string :=
  match es with
  | [] => "<li>Nenhuma métrica de modelo disponível ainda.</li>"
  | _ => fold_right (fun kv html => model_item kv ++ html) "" es
  end.

(** The page after [updatePerformanceMetrics] ran to its end *)
Definition after_performance (metrics : value number) (p : dashboard) : dashboard :=
  if truthy metrics then
    put "avg-process-time" (average_text metrics)
      (put "model-performance-list" (performance_html (speed_entries metrics)) p)
  else
    mkDashboard (texts p)
      (console p
       ++ [LogWarn "Elementos de métricas de performance não encontrados no DOM."])
      (in_flight p).
End MoreDashboard.

(** The four cards of the [system] group *)
Definition system_cards : list string :=
  ["metric-cpu"; "metric-ram"; "metric-ram-used"; "metric-ram-total"].

(** A guarded write of a block: the element [id], looked up in the page
    [p0] the block started on, is given the text if it exists. *)
Definition put_found (p0 : dashboard) (id : string) (o : option string)
    (q : dashboard) : dashboard :=
  if bool_decide (is_Some (texts p0 !! id)) then put_opt id o q else q.

(** The two pages have the same elements. *)
Definition same_elements (p q : dashboard) : Prop :=
  forall k, is_Some (texts q !! k) <-> is_Some (texts p !! k).

(** The page has the five cards the [catch] block writes, and lacks the
    element [missing]. *)
Definition lacks (missing : string) (p : dashboard) : Prop :=
  texts p !! missing = None
  /\ Forall (fun id => is_Some (texts p !! id)) error_cards.

(** A property of the state that, once true, stays true *)
Definition keeps {S} (P : S -> Prop) : relation S := fun s s' => P s -> P s'.

(** From a state where [P] holds the handler throws, and [P] still holds. *)
Definition fails {S A} (P : S -> Prop) (m : JS S A) : Prop :=
  forall s, P s -> (exists e, snd (m s) = Throw e) /\ P (fst (m s)).

(** * The simple upload component ([setupUploadArea]) *)

(** The part of the page the component touches: the files of the file
    input; the feedback element (absent when the page has none), with the
    text and the class [showFeedback] gave it last; the submit button; the
    [dragover] mark of the drop area; the console; the files posted to
    [/api/upload], oldest first; and how many times a reload of the list of
    transcriptions was scheduled. *)
Record upload_area : Type := mkUploadArea {
  fileInput_selected : list file;
  upload_feedback : option (string * string);
  submitBtn_display : string;
  submitBtn_off : bool;
  submitBtn_text : string;
  uploadArea_dragover : bool;
  area_console : list log_entry;
  posted : list file;
  reloads_scheduled : nat
}.

(** [showFeedback(message, type)], on its default target *)
Definition showFeedback (msg type : string) : JS upload_area unit :=
  modify (fun a =>
    mkUploadArea (fileInput_selected a)
      (match upload_feedback a with
       | Some _ => Some (msg, "alert alert-" ++ type)
       | None => None
       end)
      (submitBtn_display a) (submitBtn_off a) (submitBtn_text a)
      (uploadArea_dragover a) (area_console a) (posted a) (reloads_scheduled a)).

Definition set_fileInput_selected (fs : list file) : JS upload_area unit :=
  modify (fun a =>
    mkUploadArea fs (upload_feedback a) (submitBtn_display a) (submitBtn_off a)
      (submitBtn_text a) (uploadArea_dragover a) (area_console a) (posted a)
      (reloads_scheduled a)).
Definition set_submitBtn_display (v : string) : JS upload_area unit :=
  modify (fun a =>
    mkUploadArea (fileInput_selected a) (upload_feedback a) v (submitBtn_off a)
      (submitBtn_text a) (uploadArea_dragover a) (area_console a) (posted a)
      (reloads_scheduled a)).
Definition set_submitBtn_off (b : bool) : JS upload_area unit :=
  modify (fun a =>
    mkUploadArea (fileInput_selected a) (upload_feedback a) (submitBtn_display a) b
      (submitBtn_text a) (uploadArea_dragover a) (area_console a) (posted a)
      (reloads_scheduled a)).
Definition set_submitBtn_text (v : string) : JS upload_area unit :=
  modify (fun a =>
    mkUploadArea (fileInput_selected a) (upload_feedback a) (submitBtn_display a)
      (submitBtn_off a) v (uploadArea_dragover a) (area_console a) (posted a)
      (reloads_scheduled a)).
Definition set_dragover (b : bool) : JS upload_area unit :=
  modify (fun a =>
    mkUploadArea (fileInput_selected a) (upload_feedback a) (submitBtn_display a)
      (submitBtn_off a) (submitBtn_text a) b (area_console a) (posted a)
      (reloads_scheduled a)).
Definition area_log (e : log_entry) : JS upload_area unit :=
  modify (fun a =>
    mkUploadArea (fileInput_selected a) (upload_feedback a) (submitBtn_display a)
      (submitBtn_off a) (submitBtn_text a) (uploadArea_dragover a)
      (area_console a ++ [e]) (posted a) (reloads_scheduled a)).
(** [fetch('/api/upload', {method: 'POST', body: formData})] is called. *)
Definition post_upload (f : file) : JS upload_area unit :=
  modify (fun a =>
    mkUploadArea (fileInput_selected a) (upload_feedback a) (submitBtn_display a)
      (submitBtn_off a) (submitBtn_text a) (uploadArea_dragover a)
      (area_console a) (posted a ++ [f]) (reloads_scheduled a)).
(** [setTimeout(loadCompletedTranscriptions, 1000)] *)
Definition schedule_reload : JS upload_area unit :=
  modify (fun a =>
    mkUploadArea (fileInput_selected a) (upload_feedback a) (submitBtn_display a)
      (submitBtn_off a) (submitBtn_text a) (uploadArea_dragover a)
      (area_console a) (posted a) (S (reloads_scheduled a))).

(** The 'change' listener of the file input *)
Definition fileInput_change : JS upload_area unit :=
  let* a := get in
  match fileInput_selected a with
  | f :: _ =>
      showFeedback ("Arquivo selecionado: " ++ file_name f) "info" ;;
      set_submitBtn_display "block"
  | [] =>
      showFeedback "" "info" ;;
      set_submitBtn_display "none"
  end.

(** [handleDrop]; [fs] is [e.dataTransfer.files]. *)
Definition handleDrop (fs : list file) : JS upload_area unit :=
  when (negb (Nat.eqb (List.length fs) 0)) (
    set_fileInput_selected fs ;;
    fileInput_change).

Section SimpleUpload.
Context {number : Type} `{JsNumber number}.

(** What the upload request gives: [fetch] rejects, or a response with its
    [ok] flag, its [statusText] and its body ([None]: [response.json()]
    rejects). *)
Inductive upload_reply : Type :=
  | UploadRejected
  | UploadResponse (ok : bool) (statusText : string) (body : option (json number)).

(** A value inside a template literal *)
Definition template (v : value number) : string :=
  match v with
  | None => "undefined"
  | Some j => ToString j
  end.

(** The 'click' listener of the submit button; [r] is what its request
    gives. *)
Definition submitBtn_click (r : upload_reply) : JS upload_area unit :=
  let* a := get in
  match fileInput_selected a with
  | [] => showFeedback "Nenhum arquivo selecionado." "error"
  | f :: _ =>
      set_submitBtn_off true ;;
      set_submitBtn_text "Enviando..." ;;
      showFeedback "Enviando arquivo..." "info" ;;
      try_finally
        (try_catch
           (post_upload f ;;
            match r with
            | UploadRejected => throw TypeError
            | UploadResponse ok statusText body =>
                if ok then
                  let* data := match body with
                               | None => throw SyntaxError
                               | Some j => ret (Some j)
                               end in
                  let* filename := lift (prop data "filename") in
                  showFeedback ("Upload bem-sucedido: " ++ template filename) "success" ;;
                  set_fileInput_selected [] ;;
                  set_submitBtn_display "none" ;;
                  schedule_reload
                else
                  let* errorData := match body with
                                    | None => throw SyntaxError
                                    | Some j => ret (Some j)
                                    end in
                  let* detail := lift (prop errorData "detail") in
                  showFeedback
                    ("Erro no upload: "
                     ++ (if truthy detail then template detail else statusText))
                    "error"
            end)
           (fun error =>
              area_log (LogError "Erro durante o upload:") ;;
              showFeedback ("Erro de rede: " ++ message error) "error"))
        (set_submitBtn_off false ;;
         set_submitBtn_text "Enviar Arquivo")
  end.

(** What happens to the component: the user picks files in the dialog (the
    browser sets [files] and fires 'change'), drags something over the
    area or away from it, drops files on it, or clicks the submit
    button. *)
Inductive area_event : Type :=
  | PickFiles (fs : list file)
  | DragOver
  | DragLeave
  | DropFiles (fs : list file)
  | ClickSubmit (r : upload_reply).

Definition area_handler (ev : area_event) : JS upload_area unit :=
  match ev with
  | PickFiles fs => set_fileInput_selected fs ;; fileInput_change
  | DragOver => set_dragover true
  | DragLeave => set_dragover false
  | DropFiles fs => set_dragover false ;; handleDrop fs
  | ClickSubmit r => submitBtn_click r
  end.

Definition area_step (a : upload_area) (ev : area_event) : upload_area :=
  fst (area_handler ev a).

(** The upload went through: a 2xx answer whose body is JSON and not
    [null]. *)
Definition upload_accepted (r : upload_reply) : bool :=
  match r with
  | UploadResponse true _ (Some JNull) => false
  | UploadResponse true _ (Some _) => true
  | _ => false
  end.

(** What the feedback element shows after an upload *)
Definition upload_report (r : upload_reply) : string * string :=
  match r with
  | UploadRejected => ("Erro de rede: " ++ message TypeError, "alert alert-error")
  | UploadResponse _ _ None =>
      ("Erro de rede: " ++ message SyntaxError, "alert alert-error")
  | UploadResponse _ _ (Some JNull) =>
      ("Erro de rede: " ++ message TypeError, "alert alert-error")
  | UploadResponse true _ (Some j) =>
      ("Upload bem-sucedido: " ++ template (field (Some j) "filename"),
       "alert alert-success")
  | UploadResponse false statusText (Some j) =>
      ("Erro no upload: "
       ++ (if truthy (field (Some j) "detail")
           then template (field (Some j) "detail") else statusText),
       "alert alert-error")
  end.
End SimpleUpload.
Arguments upload_reply : clear implicits.
Arguments area_event : clear implicits.

(** The submit button is shown exactly when a file is selected. *)
Definition button_follows_selection (a : upload_area) : Prop :=
  submitBtn_display a = match fileInput_selected a with
                        | [] => "none"
                        | _ => "block"
                        end.

(** * More of the structured upload form *)

Section FormEvents.
Context {number : Type} `{JsNumber number}.

(** Everything that happens to the form: the user acts on a control, a
    listing request settles, the form is submitted ([server i] is what the
    request for the i-th file gives). *)
Inductive form_event : Type :=
  | UserEvent (ev : user_event)
  | CoursesSettled (r : listing)
  | ModulesSettled (selectedCourse : string) (r : listing)
  | Submitted (server : nat -> @fetch_result number).

Definition form_handler (ev : form_event) : JS form unit :=
  match ev with
  | UserEvent ev => user_handler ev
  | CoursesSettled r => courses_settled r
  | ModulesSettled selectedCourse r => modules_settled selectedCourse r
  | Submitted server => submit server
  end.

Definition form_step (f : form) (ev : form_event) : form :=
  fst (form_handler ev f).

(** Every file of the batch went through. *)
Definition all_succeeded (server : nat -> @fetch_result number) (n : nat) : bool :=
  Nat.eqb (successes server 0 n) n.
End FormEvents.
Arguments form_event : clear implicits.

(** While the new-course field holds a name, no module is selected or
    typed and both module controls are disabled. *)
Definition new_course_blocks_module (x : selection) : Prop :=
  trim (newCourseInput_value x) <> "" ->
  moduleSelect_value x = "" /\ newModuleInput_value x = ""
  /\ moduleSelect_disabled x = true /\ newModuleInput_disabled x = true.

(** The requests other than uploads *)
Definition is_listing (r : request) : bool := negb (is_upload r).

(** The options of the module dropdown once the modules of a course
    arrived *)
Definition module_options (names : list string) : list (string * string) :=
  match names with
  | [] => [("", "-- Nenhum módulo encontrado --")]
  | _ => ("", "-- Selecione um Módulo --") :: map (fun m => (m, m)) names
  end.

(** * More of the React pages *)

Section MoreUploadPage.
Context {number : Type} `{JsNumber number}.

(** [removeFile] of [UploadPage.jsx] *)
Definition removeFile (fileName : string) : JS (upload_page number) unit :=
  let* s := get in
  setFiles (filter (fun file => file_name file <> fileName) (files s)).
End MoreUploadPage.

(** ** [TranscriptionsPage.jsx] *)

Module TranscriptionsPage.
Section Page.
Context {number : Type} `{JsNumber number}.

(** The component state: [transcriptions], [loading], [error] *)
Record page : Type := mkPage {
  transcriptions : value number;
  loading : bool;
  error : string
}.

Definition setTranscriptions (v : value number) : JS page unit :=
  modify (fun s => mkPage v (loading s) (error s)).
Definition setLoading (v : bool) : JS page unit :=
  modify (fun s => mkPage (transcriptions s) v (error s)).
Definition setError (v : string) : JS page unit :=
  modify (fun s => mkPage (transcriptions s) (loading s) v).

(** What [await axios.get(...)] gives: a response with its [data], or a
    rejection whose error has a [message] and may carry a response. *)
Inductive get_result : Type :=
  | GetResolved (data : value number)
  | GetRejected (response_data : option (value number)) (err_message : string).

(** [err.response?.data?.detail || err.message], as appended to a string *)
Definition detail_or_message (response_data : option (value number))
    (err_message : string) : string :=
  let detail :=
    match response_data with
    | None => None
    | Some data => match opt_prop data "detail" with
                   | Ok d => d
                   | Throw _ => None
                   end
    end in
  match detail with
  | Some j => if truthy detail then ToString j else err_message
  | None => err_message
  end.

(** [fetchTranscriptions]; [r] is what its request gives. The request is
    the only statement of the [try] block that can throw: when it rejects,
    the [catch] block runs on its error. *)
Definition fetchTranscriptions (r : get_result) : JS page unit :=
  try_finally
    (setLoading true ;;
     match r with
     | GetResolved data =>
         setTranscriptions data ;;
         setError ""
     | GetRejected response_data err_message =>
         setError ("Erro ao carregar transcrições: "
                   ++ detail_or_message response_data err_message)
     end)
    (setLoading false).

(** The alert is dismissed, or the list is fetched again. *)
Inductive page_event : Type :=
  | DismissError
  | Fetched (r : get_result).

Definition page_step (s : page) (ev : page_event) : page :=
  match ev with
  | DismissError => fst (setError "" s)
  | Fetched r => fst (fetchTranscriptions r s)
  end.

(** The data of the last fetch that resolved, if any *)
Fixpoint last_resolved (evs : list page_event) : option (value number) :=
  match evs with
  | [] => None
  | ev :: rest =>
      match last_resolved rest with
      | Some d => Some d
      | None => match ev with
                | Fetched (GetResolved d) => Some d
                | _ => None
                end
      end
  end.
End Page.
Arguments page : clear implicits.
Arguments get_result : clear implicits.
Arguments page_event : clear implicits.
End TranscriptionsPage.

(** * The list of completed transcriptions ([loadCompletedTranscriptions]) *)

(** The double quote and the line feed *)
Definition quot : string := String (ascii_of_nat 34) EmptyString.
Definition lf : string := String (ascii_of_nat 10) EmptyString.

(** A table body of one cell spanning the three columns *)
Definition message_row (cls text : string) : string :=
  "<tr><td colspan=" ++ quot ++ "3" ++ quot ++ " class=" ++ quot ++ cls ++ quot ++ ">"
  ++ text ++ "</td></tr>".

Section CompletedTranscriptions.
Context {number : Type} `{JsNumber number}.

(** [formatBytes] computes in floating point and never throws;
    [encodeURIComponent] is the platform's, and throws on a malformed
    string. Both are left open. *)
Context (formatBytes : value number -> string).
Context (encodeURIComponent : value number -> outcome string).

(** [transcriptions.length === 0]. A number parsed from JSON is [0]
    exactly when it is falsy. *)
Definition length_is_zero (v : value number) : outcome bool :=
  match v with
  | None | Some JNull => Throw TypeError
  | Some (JArr xs) => Ok (Nat.eqb (List.length xs) 0)
  | Some (JStr s) => Ok (String.eqb s "")
  | Some (JObj kvs) =>
      Ok (match assoc "length" kvs with
          | Some (JNum n) => negb (numTruthy n)
          | _ => false
          end)
  | Some _ => Ok false
  end.

(** The items [transcriptions.forEach] visits: only an array has the
    method. *)
Definition forEach_items (v : value number) : outcome (list (json number)) :=
  match v with
  | Some (JArr xs) => Ok xs
  | _ => Throw TypeError
  end.

(** The table row of one item *)
Definition transcription_row (item : json number) : outcome string :=
  match prop (Some item) "name" with
  | Throw e => Throw e
  | Ok name =>
      match prop (Some item) "size" with
      | Throw e => Throw e
      | Ok size =>
          match prop (Some item) "path" with
          | Throw e => Throw e
          | Ok path =>
              match encodeURIComponent path with
              | Throw e => Throw e
              | Ok href =>
                  Ok (lf ++ "                <tr>"
                      ++ lf ++ "                    <td>" ++ template name ++ "</td>"
                      ++ lf ++ "                    <td>" ++ formatBytes size ++ "</td>"
                      ++ lf ++ "                    <td><a href=" ++ quot
                      ++ "/api/download/" ++ href ++ quot
                      ++ " target=" ++ quot ++ "_blank" ++ quot
                      ++ " class=" ++ quot ++ "btn btn-outline-primary btn-sm" ++ quot
                      ++ ">Baixar</a></td>"
                      ++ lf ++ "                </tr>"
                      ++ lf ++ "            ")
              end
          end
      end
  end.

(** The body of [forEach], item after item, with [html] as built so far *)
Fixpoint transcription_rows (items : list (json number)) (html : string)
  : outcome string :=
  match items with
  | [] => Ok html
  | item :: rest =>
      match transcription_row item with
      | Throw e => Throw e
      | Ok row => transcription_rows rest (html ++ row)
      end
  end.

(** [loadCompletedTranscriptions]; [r] is what its request gives. *)
Definition loadCompletedTranscriptions (r : @fetch_result number) : JS dashboard unit :=
  let* tbody := getElementById "completed-transcriptions-body" in
  match tbody with
  | None => console_warn "Elemento 'completed-transcriptions-body' não encontrado."
  | Some _ =>
      set_text tbody (message_row "text-center" "Carregando...") ;;
      try_catch
        (let* transcriptions :=
           match r with
           | NetworkFailure => throw TypeError
           | Response ok status body =>
               if negb ok then throw (Error ("HTTP error! status: " ++ pretty status))
               else match body with
                    | None => throw SyntaxError
                    | Some d => ret (Some d)
                    end
           end in
         let* empty := lift (length_is_zero transcriptions) in
         if empty : bool then
           set_text tbody (message_row "text-center" "Nenhuma transcrição encontrada.")
         else
           let* items := lift (forEach_items transcriptions) in
           let* html := lift (transcription_rows items "") in
           set_text tbody html)
        (fun error =>
           console_error "Erro ao carregar transcrições:" ;;
           set_text tbody
             (message_row "text-center text-danger"
                          ("Erro ao carregar: " ++ message error)))
  end.

(** Every item of the listing gives a row: none is [null], every path
    can be encoded. *)
Definition listing_ok (items : list (json number)) : bool :=
  forallb (fun item =>
             match transcription_row item with Ok _ => true | Throw _ => false end)
          items.

(** The rows of a listing, in its order *)
Definition rows_html (items : list (json number)) : string :=
  fold_right (fun item html =>
                match transcription_row item with
                | Ok row => row ++ html
                | Throw _ => html
                end) "" items.

(** The answer can be shown: a 2xx answer whose body is an empty listing
    (or anything else whose [length] is [0]), or an array whose items all
    give a row. *)
Definition listing_usable (r : @fetch_result number) : bool :=
  match r with
  | Response true _ (Some j) =>
      match length_is_zero (Some j) with
      | Ok true => true
      | Ok false => match j with JArr items => listing_ok items | _ => false end
      | Throw _ => false
      end
  | _ => false
  end.

End CompletedTranscriptions.

(** * Changing the model ([applyModelBtn.onclick]) *)

(** The model dropdown by its [value]; the feedback element (absent when
    the page has none) by its text, its class and its [style.display]; the
    console; the models posted to [/api/config/model], oldest first. *)
Record model_panel : Type := mkModelPanel {
  modelSelect_value : string;
  modelFeedback : option (string * string * string);
  panel_console : list log_entry;
  model_posts : list string
}.

Definition panel_log (e : log_entry) : JS model_panel unit :=
  modify (fun s => mkModelPanel (modelSelect_value s) (modelFeedback s)
                                (panel_console s ++ [e]) (model_posts s)).
(** [fetch('/api/config/model', {method: 'POST', ...})] is called. *)
Definition post_model (model : string) : JS model_panel unit :=
  modify (fun s => mkModelPanel (modelSelect_value s) (modelFeedback s)
                                (panel_console s) (model_posts s ++ [model])).
(** [if (modelFeedback) modelFeedback.textContent = text] *)
Definition feedback_text (text : string) : JS model_panel unit :=
  modify (fun s =>
    mkModelPanel (modelSelect_value s)
      (match modelFeedback s with
       | Some (_, cls, display) => Some (text, cls, display)
       | None => None
       end)
      (panel_console s) (model_posts s)).
(** The three assignments of a guarded block: text, class, [display] *)
Definition feedback_alert (text cls : string) : JS model_panel unit :=
  modify (fun s =>
    mkModelPanel (modelSelect_value s)
      (match modelFeedback s with
       | Some _ => Some (text, cls, "block")
       | None => None
       end)
      (panel_console s) (model_posts s)).

Section ModelChange.
Context {number : Type} `{JsNumber number}.

(** What [el.textContent = v] stores: [undefined] and [null] clear the
    text. *)
Definition text_of_value (v : value number) : string :=
  match v with
  | None => ""
  | Some j => text_of j
  end.

(** [await response.json()] *)
Definition response_json (body : option (json number)) : JS model_panel (value number) :=
  match body with
  | None => throw SyntaxError
  | Some j => ret (Some j)
  end.

(** The 'click' handler of the apply button; [r] is what its request
    gives. *)
Definition applyModelBtn_onclick (r : @fetch_result number) : JS model_panel unit :=
  let* s := get in
  let selectedModel := modelSelect_value s in
  if negb (nonempty selectedModel) then
    feedback_text "Por favor, selecione um modelo."
  else
    try_catch
      (post_model selectedModel ;;
       match r with
       | NetworkFailure => throw TypeError
       | Response ok status body =>
           (if negb ok then
              let* errorData := response_json body in
              let* detail := lift (prop errorData "detail") in
              throw (upload_error detail status)
            else ret tt) ;;
           let* result := response_json body in
           panel_log (LogInfo "Modelo definido:") ;;
           let* s' := get in
           match modelFeedback s' with
           | None => ret tt
           | Some _ =>
               let* msg := lift (prop result "message") in
               feedback_alert (text_of_value msg) "alert alert-warning"
           end
       end)
      (fun error =>
         panel_log (LogError "Erro ao definir modelo:") ;;
         feedback_alert ("Erro: " ++ message error) "alert alert-danger").
End ModelChange.

(** * More concrete pages and answers (numbers are integers) *)

(** A page that has the CPU card and no other *)
Definition page_cpu_only : dashboard :=
  mkDashboard (list_to_map [("metric-cpu", "--")]) [] 0.

(** A page with the five main cards and neither memory-size card *)
Definition page_five_cards : dashboard :=
  mkDashboard
    (list_to_map
       [("metric-total-transcriptions", "--"); ("metric-queue-web", "--");
        ("metric-queue-gdrive", "--"); ("metric-cpu", "--"); ("metric-ram", "--")])
    [] 0.

(** A [system] group with the CPU load only, and the message and the
    snapshot that carry it *)
Definition system_cpu_40 : value Z := Some (JObj [("cpu_percent", JNum 40%Z)]).
Definition data_cpu_40 : json Z := JObj [("system", JObj [("cpu_percent", JNum 40%Z)])].

(** Metrics for two models, one of them without a speed yet *)
Definition metrics_two_models : value Z :=
  Some (JObj [("avg_transcription_speed_per_model",
               JObj [("base", JNum 3%Z); ("small", JNull)]);
              ("avg_process_time_sec", JNum 12%Z)]).

(** The simple upload component before and after a file is picked *)
Definition area_empty : upload_area :=
  mkUploadArea [] (Some ("", "")) "none" false "Enviar Arquivo" false [] [] 0.
Definition area_one_file : upload_area :=
  mkUploadArea [mkFile "aula1.mp3"]
    (Some ("Arquivo selecionado: aula1.mp3", "alert alert-info"))
    "block" false "Enviar Arquivo" false [] [] 0.

(** An upload that went through *)
Definition upload_went_through : upload_reply Z :=
  UploadResponse true "OK" (Some (JObj [("filename", JStr "aula1.mp3")])).

(** A file is picked and sent. *)
Definition pick_and_send : list (area_event Z) :=
  [PickFiles [mkFile "aula1.mp3"]; ClickSubmit upload_went_through].

(** A course is chosen, its modules arrive, the form is submitted. *)
Definition choose_list_submit : list (form_event Z) :=
  [UserEvent (ChooseCourse "Fisica");
   ModulesSettled "Fisica" (Listing true 200 (Some ["Aula 1"; "Aula 2"]));
   Submitted second_and_fourth_fail].

(** A new course is typed. *)
Definition type_quimica : list (form_event Z) :=
  [UserEvent (TypeNewCourse "Quimica")].

(** A page with the table of completed transcriptions, and a listing of
    one file *)
Definition page_with_table : dashboard :=
  mkDashboard (list_to_map [("completed-transcriptions-body", "")]) [] 0.
Definition one_transcription : list (json Z) :=
  [JObj [("name", JStr "aula1.txt"); ("size", JNum 2048%Z); ("path", JStr "aula1.txt")]].

(** Stand-ins for the two platform functions: sizes shown as they come,
    paths that need no escaping *)
Definition size_as_text (v : value Z) : string := template v.
Definition path_as_is (v : value Z) : outcome string := Ok (template v).

(** * Reasoning about handlers *)

(** ** Relations that every step of a handler respects *)

Section Stable.
Context {S : Type} (R : relation S) `{!PreOrder R}.

Lemma stable_ret {A} (a : A) : stable R (ret a).
Proof. intros s. reflexivity. Qed.

Lemma stable_throw {A} (e : exn) : stable R (@throw S A e).
Proof. intros s. reflexivity. Qed.

Lemma stable_lift {A} (r : outcome A) : stable R (@lift S A r).
Proof. intros s. reflexivity. Qed.

Lemma stable_get : stable R (@get S).
Proof. intros s. reflexivity. Qed.

Lemma stable_bind {A B} (m : JS S A) (k : A -> JS S B) :
  stable R m -> (forall a, stable R (k a)) -> stable R (bind m k).
Proof.
  intros Hm Hk s. unfold bind. specialize (Hm s).
  destruct (m s) as [s' [a|e]]; simpl in *; [|done].
  etransitivity; [exact Hm | apply Hk].
Qed.

(** A pure step that may throw: what follows runs on its result only. *)
Lemma stable_bind_lift {A B} (r : outcome A) (k : A -> JS S B) :
  (forall a, r = Ok a -> stable R (k a)) -> stable R (bind (lift r) k).
Proof.
  intros Hk s. unfold bind, lift. destruct r as [a|e]; [by apply Hk | reflexivity].
Qed.

Lemma stable_try_catch {A} (m : JS S A) (h : exn -> JS S A) :
  stable R m -> (forall e, stable R (h e)) -> stable R (try_catch m h).
Proof.
  intros Hm Hh s. unfold try_catch. specialize (Hm s).
  destruct (m s) as [s' [a|e]]; simpl in *; [done|].
  etransitivity; [exact Hm | apply Hh].
Qed.

Lemma stable_try_finally {A} (m : JS S A) (f : JS S unit) :
  stable R m -> stable R f -> stable R (try_finally m f).
Proof.
  intros Hm Hf s. unfold try_finally. specialize (Hm s).
  destruct (m s) as [s' r]; simpl in *. specialize (Hf s').
  destruct (f s') as [s'' [[]|e]]; simpl in *; etransitivity; eauto.
Qed.

Lemma stable_when (c : bool) (m : JS S unit) : stable R m -> stable R (when c m).
Proof. intros Hm. destruct c; [exact Hm | apply stable_ret]. Qed.

Lemma stable_modify (f : S -> S) : (forall s, R s (f s)) -> stable R (modify f).
Proof. intros Hf s. apply Hf. Qed.
End Stable.

(** The outcome of a sequence whose first part completes *)
Lemma bind_ok {S A B} (m : JS S A) (k : A -> JS S B) s s' a :
  m s = (s', Ok a) -> bind m k s = k a s'.
Proof. intros E. unfold bind. by rewrite E. Qed.

Lemma bind_ret {S A B} (a : A) (k : A -> JS S B) : bind (ret a) k = k a.
Proof. done. Qed.

Lemma bind_lift_ok {S A B} (a : A) (k : A -> JS S B) : bind (lift (Ok a)) k = k a.
Proof. done. Qed.

(** ** Relations on the dashboard *)

#[export] Instance same_text_preorder k : PreOrder (same_text k).
Proof.
  split; [done|]. intros p q r Hpq Hqr. unfold same_text in *. congruence.
Qed.

#[export] Instance status_kept_or_summary_preorder : PreOrder status_kept_or_summary.
Proof.
  split; [by left|]. intros p q r Hpq Hqr. unfold status_kept_or_summary in *.
  destruct Hqr as [E|[E|E]]; rewrite E; auto.
Qed.

Lemma same_text_texts_only k : texts_only (same_text k).
Proof. intros p p' E. unfold same_text. by rewrite E. Qed.
Lemma status_texts_only : texts_only status_kept_or_summary.
Proof. intros p p' E. left. by rewrite E. Qed.

Section DashboardSteps.
Context (R : relation dashboard) `{!PreOrder R} (Htexts : texts_only R).

Lemma stable_console_write e : stable R (console_write e).
Proof. intros p. by apply Htexts. Qed.

(** [getElementById id] yields the element [id] or [null]. *)
Lemma stable_getElementById {B} id (k : option string -> JS dashboard B) :
  stable R (k None) -> stable R (k (Some id)) ->
  stable R (bind (getElementById id) k).
Proof.
  intros HN HS p. unfold bind, getElementById.
  destruct (texts p !! id); [apply HS | apply HN].
Qed.

Lemma stable_set_text id s : may_write R id s -> stable R (set_text (Some id) s).
Proof. intros Hw p. apply Hw. Qed.

Lemma stable_set_text_null s : stable R (set_text None s).
Proof. intros p. reflexivity. Qed.

Lemma stable_if_el el m : stable R m -> stable R (if_el el m).
Proof. intros Hm. destruct el; [exact Hm | by apply stable_ret]. Qed.
End DashboardSteps.

Lemma may_write_same_text k id s : id <> k -> may_write (same_text k) id s.
Proof. intros Hne p. unfold same_text. simpl. by rewrite lookup_insert_ne. Qed.

Lemma may_write_status_other id s :
  id <> "system-status" -> may_write status_kept_or_summary id s.
Proof. intros Hne p. left. simpl. by rewrite lookup_insert_ne. Qed.

(** Taking a handler apart along its sequencing *)
Ltac stable_step :=
  lazymatch goal with
  | |- stable _ (bind (getElementById _) _) => apply stable_getElementById
  | |- stable _ (bind (ret _) _) => rewrite bind_ret
  | |- stable _ (bind (lift _) _) => apply stable_bind_lift; [| intros ? ?]
  | |- stable _ (bind _ _) => apply stable_bind; [| | intros ?]
  | |- stable _ (when _ _) => apply stable_when
  | |- stable _ (if_el _ _) => apply stable_if_el
  | |- stable _ (ret _) => apply stable_ret
  | |- stable _ (throw _) => apply stable_throw
  | |- stable _ (lift _) => apply stable_lift
  | |- stable _ get => apply stable_get
  | |- stable _ (try_catch _ _) => apply stable_try_catch; [| | intros ?]
  | |- stable _ (console_log _) => apply stable_console_write
  | |- stable _ (console_warn _) => apply stable_console_write
  | |- stable _ (console_error _) => apply stable_console_write
  | |- stable _ (set_text None _) => apply stable_set_text_null
  | |- stable _ (set_text (Some _) _) => apply stable_set_text
  | |- stable _ (match ?x with _ => _ end) => destruct x
  | |- PreOrder _ => assumption || apply _
  | |- texts_only _ =>
      first [assumption | apply same_text_texts_only | apply status_texts_only]
  end.

Section Frames.
Context {number : Type} `{JsNumber number}.
Context (R : relation dashboard) `{!PreOrder R} (Htexts : texts_only R).

Lemma stable_sse_system_block (system : value number) :
  (forall s, may_write R "metric-cpu" s) ->
  (forall s, may_write R "metric-ram" s) ->
  (forall s, may_write R "metric-ram-used" s) ->
  (forall s, may_write R "metric-ram-total" s) ->
  stable R (sse_system_block system).
Proof.
  intros W1 W2 W3 W4. unfold sse_system_block.
  repeat stable_step; auto.
Qed.

Lemma stable_sse_queue_block (queue : value number) :
  (forall s, may_write R "metric-total-transcriptions" s) ->
  (forall s, may_write R "metric-queue-web" s) ->
  (forall s, may_write R "metric-queue-gdrive" s) ->
  stable R (sse_queue_block queue).
Proof.
  intros W1 W2 W3. unfold sse_queue_block.
  repeat stable_step; auto.
Qed.
End Frames.

(** ** Handlers that complete *)

Lemma completes_ret {S A} (a : A) : completes (@ret S A a).
Proof. intros s. by exists a. Qed.

Lemma completes_bind {S A B} (m : JS S A) (k : A -> JS S B) :
  completes m -> (forall a, completes (k a)) -> completes (bind m k).
Proof.
  intros Hm Hk s. unfold bind. destruct (Hm s) as [a Ea].
  destruct (m s) as [s' r]; simpl in *; subst r. apply Hk.
Qed.

Lemma completes_when {S} (c : bool) (m : JS S unit) : completes m -> completes (when c m).
Proof. intros Hm. destruct c; [exact Hm | apply completes_ret]. Qed.

Lemma completes_modify {S} (f : S -> S) : completes (modify f).
Proof. intros s. by exists tt. Qed.

Lemma completes_get {S} : completes (@get S).
Proof. intros s. by exists s. Qed.

Lemma completes_lift {S A} (a : A) : completes (@lift S A (Ok a)).
Proof. intros s. by exists a. Qed.

Lemma completes_try_catch {S A} (m : JS S A) (h : exn -> JS S A) :
  (forall e, completes (h e)) -> completes (try_catch m h).
Proof.
  intros Hh s. unfold try_catch. destruct (m s) as [s' [a|e]]; simpl; [by exists a|].
  apply Hh.
Qed.

Lemma completes_getElementById {B} id (k : option string -> JS dashboard B) :
  completes (k None) -> completes (k (Some id)) -> completes (bind (getElementById id) k).
Proof.
  intros HN HS p. unfold bind, getElementById.
  destruct (texts p !! id); [apply HS | apply HN].
Qed.

Lemma completes_console_write e : completes (console_write e).
Proof. apply completes_modify. Qed.

Lemma completes_set_text id s : completes (set_text (Some id) s).
Proof. apply completes_modify. Qed.

Lemma completes_if_el_some id (m : JS dashboard unit) :
  completes m -> completes (if_el (Some id) m).
Proof. done. Qed.

Lemma completes_if_el_null (m : JS dashboard unit) : completes (if_el None m).
Proof. apply completes_ret. Qed.

Ltac completes_step :=
  lazymatch goal with
  | |- completes (bind (getElementById _) _) => apply completes_getElementById
  | |- completes (bind _ _) => apply completes_bind; [| intros ?]
  | |- completes (when _ _) => apply completes_when
  | |- completes (if_el None _) => apply completes_if_el_null
  | |- completes (if_el (Some _) _) => apply completes_if_el_some
  | |- completes (ret _) => apply completes_ret
  | |- completes (lift (Ok _)) => apply completes_lift
  | |- completes get => apply completes_get
  | |- completes (modify _) => apply completes_modify
  | |- completes (try_catch _ _) => apply completes_try_catch; intros ?
  | |- completes (console_log _) => apply completes_console_write
  | |- completes (console_warn _) => apply completes_console_write
  | |- completes (console_error _) => apply completes_console_write
  | |- completes (set_text (Some _) _) => apply completes_set_text
  end.

Section Reading.
Context {number : Type} `{JsNumber number}.

(** A truthy value is neither [undefined] nor [null]: its properties can
    be read. *)
Lemma prop_truthy (v : value number) k : truthy v = true -> prop v k = Ok (field v k).
Proof. unfold field. by destruct v as [[]|]. Qed.

Lemma prop_object kvs k : prop (Some (JObj kvs)) k = Ok (field (Some (@JObj number kvs)) k).
Proof. done. Qed.

(** Only an object has a truthy member. *)
Lemma truthy_field_object (d : json number) k :
  truthy (field (Some d) k) = true -> exists kvs, d = JObj kvs.
Proof. destruct d; try done. eauto. Qed.

Lemma opt_prop_field (v : value number) k : opt_prop v k = Ok (field v k).
Proof. unfold field. by destruct v as [[]|]. Qed.

Lemma overall_status_truthy (workers : value number) :
  truthy workers = true ->
  overall_status workers =
    Ok (if is_running (field (field workers "web") "status")
           && is_running (field (field workers "gdrive") "status")
        then "Operacional" else "Problemas").
Proof.
  intros Ht. unfold overall_status. rewrite !prop_truthy by done.
  rewrite !opt_prop_field. f_equal.
  assert (forall v : value number,
             is_running (or_else v (Some (JStr "Desconhecido"))) = is_running v) as E.
  { intros v. unfold or_else. destruct (truthy v) eqn:Ev; [done|].
    destruct v as [[]|]; try done. simpl in Ev.
    apply negb_false_iff, String.eqb_eq in Ev. by subst. }
  by rewrite !E.
Qed.

Lemma is_running_iff (v : value number) : is_running v = true <-> v = Some (JStr "running").
Proof.
  destruct v as [[]|]; simpl; try (split; [done | congruence]).
  rewrite String.eqb_eq. split; [by intros -> | congruence].
Qed.

Lemma fixed_or_dash_ok (v : value number) d :
  number_or_absent v = true -> exists t, fixed_or_dash v d = Ok t.
Proof. destruct v as [[]|]; try done; simpl; eauto. Qed.

Lemma completes_system_field {S} (system : value number) k d (w : string -> JS S unit) :
  truthy system = true -> number_or_absent (field system k) = true ->
  (forall t, completes (w t)) ->
  completes (let* v := lift (prop system k) in
             let* t := lift (fixed_or_dash v d) in
             w t).
Proof.
  intros Ht Hn Hw. rewrite prop_truthy by done.
  destruct (fixed_or_dash_ok (field system k) d Hn) as [t Et].
  intros s. unfold bind, lift. rewrite Et. apply Hw.
Qed.

Lemma completes_sse_system_block (system : value number) :
  system_ok system = true -> completes (sse_system_block system).
Proof.
  intros Hok. unfold sse_system_block, when.
  destruct (truthy system) eqn:Ht; [|apply completes_ret].
  unfold system_ok in Hok. rewrite Ht in Hok. simpl in Hok.
  repeat (apply andb_prop in Hok as [Hok ?]).
  repeat first [ apply completes_system_field; [done | done | intros ?]
               | completes_step ].
Qed.

Lemma completes_sse_queue_block (queue : value number) : completes (sse_queue_block queue).
Proof.
  unfold sse_queue_block, when. destruct (truthy queue) eqn:Ht; [|apply completes_ret].
  repeat first [ rewrite prop_truthy by done | completes_step ].
Qed.
End Reading.

Section PushChannel.
Context {number : Type} `{JsNumber number}.

Lemma overall_status_cases (workers : value number) t :
  overall_status workers = Ok t -> t = "Operacional" \/ t = "Problemas".
Proof.
  unfold overall_status. intros E.
  repeat match type of E with
         | match ?x with _ => _ end = _ => destruct x; try done
         end.
  all: injection E as <-;
    match goal with |- context [if ?c then _ else _] => destruct c end; auto.
Qed.

Lemma may_write_status_summary t :
  t = "Operacional" \/ t = "Problemas" ->
  may_write status_kept_or_summary "system-status" t.
Proof.
  intros Ht p. right. simpl. rewrite lookup_insert_eq. destruct Ht as [->| ->]; auto.
Qed.

Lemma stable_sse_status_block_summary (data : value number) :
  stable status_kept_or_summary (sse_status_block data).
Proof.
  unfold sse_status_block.
  repeat stable_step; try apply status_texts_only.
  by eapply may_write_status_summary, overall_status_cases.
Qed.

(** The status block writes no card but the status line. *)
Lemma stable_sse_status_block (data : value number) k :
  k <> "system-status" -> stable (same_text k) (sse_status_block data).
Proof.
  intros Hk. unfold sse_status_block.
  repeat stable_step; try apply same_text_texts_only.
  by apply may_write_same_text.
Qed.

Lemma stable_onmessage_status parsed :
  stable status_kept_or_summary (onmessage (number:=number) parsed).
Proof.
  unfold onmessage, onmessage_try.
  repeat first [ apply stable_sse_status_block_summary
               | apply stable_sse_system_block
               | apply stable_sse_queue_block
               | stable_step ];
    try apply status_texts_only; try apply _;
    intros; by apply may_write_status_other.
Qed.
End PushChannel.

(** ** The push channel *)

Section PushChannelClaims.
Context {number : Type} `{JsNumber number}.

(** C8. A push message whose payload does not parse is logged and
    dropped: the handler returns normally, only the console changes; no
    push message, parsed or not, makes the handler throw, and none can put
    the connection-error text on the status line: after a message the
    status line reads as before or shows one of the two worker summaries.
    The connection-error text is written by the transport error handler,
    on the status line when it exists, and nowhere else. *)
Theorem malformed_push_message_is_logged_and_dropped :
  (forall p : dashboard,
      onmessage (number:=number) None p
      = (mkDashboard (texts p)
           (console p ++ [LogError "Erro ao processar evento SSE:"]) (in_flight p),
         Ok tt))
  /\ (forall (parsed : option (json number)) p, snd (onmessage parsed p) = Ok tt)
  /\ (forall (parsed : option (json number)) p,
        let shown := texts (fst (onmessage parsed p)) !! "system-status" in
        shown = texts p !! "system-status"
        \/ shown = Some "Operacional" \/ shown = Some "Problemas")
  /\ (forall p : dashboard,
        snd (onerror p) = Ok tt
        /\ texts (fst (onerror p))
           = match texts p !! "system-status" with
             | Some _ => <["system-status" := "Erro na conexão"]> (texts p)
             | None => texts p
             end).
Proof.
  split; [done|]. split; [|split].
  - intros parsed p. unfold onmessage, try_catch.
    by destruct (onmessage_try parsed p) as [p' [[]|e]].
  - intros parsed p. apply (stable_onmessage_status parsed p).
  - intros p. unfold onerror, bind, getElementById, console_error, console_write,
      modify, if_el, set_text. simpl.
    by destruct (texts p !! "system-status").
Qed.
End PushChannelClaims.

Section StatusLine.
Context {number : Type} `{JsNumber number}.

Lemma run_block {S} (R : relation S) (m : JS S unit) s :
  stable R m -> completes m -> exists s', m s = (s', Ok tt) /\ R s s'.
Proof.
  intros Hs Hc. specialize (Hs s). destruct (Hc s) as [[] E].
  destruct (m s) as [s' r]; simpl in *; subst. eauto.
Qed.

(** The two blocks before the status block leave the status line alone
    and, on a well-typed [system] group, complete. *)
Lemma status_block_reached (d : json number) kvs p :
  d = JObj kvs -> system_ok (field (Some d) "system") = true ->
  exists p',
    texts p' !! "system-status" = texts p !! "system-status"
    /\ onmessage_try (Some d) p = sse_status_block (Some d) p'.
Proof.
  intros -> Hok. unfold onmessage_try.
  set (p1 := mkDashboard (texts p) (console p ++ [LogInfo "Evento SSE recebido:"])
                         (in_flight p)).
  destruct (run_block (same_text "system-status")
              (sse_system_block (field (Some (JObj kvs)) "system")) p1)
    as (p2 & E2 & R2).
  { apply stable_sse_system_block; try apply same_text_texts_only; try apply _;
      intros; by apply may_write_same_text. }
  { by apply completes_sse_system_block. }
  destruct (run_block (same_text "system-status")
              (sse_queue_block (field (Some (JObj kvs)) "queue")) p2)
    as (p3 & E3 & R3).
  { apply stable_sse_queue_block; try apply same_text_texts_only; try apply _;
      intros; by apply may_write_same_text. }
  { apply completes_sse_queue_block. }
  exists p3. split; [unfold same_text in *; simpl in *; congruence|].
  rewrite bind_ret. rewrite (bind_ok _ _ p p1 tt) by done.
  rewrite prop_object, bind_lift_ok. rewrite (bind_ok _ _ _ _ _ E2).
  rewrite prop_object, bind_lift_ok. by rewrite (bind_ok _ _ _ _ _ E3).
Qed.
End StatusLine.

Section WorkerStatusClaim.
Context {number : Type} `{JsNumber number}.

End WorkerStatusClaim.

(** ** What the blocks write, exactly *)

Lemma lookup_put_opt id o p k :
  texts (put_opt id o p) !! k
  = match o with
    | Some s => if String.eqb id k then Some s else texts p !! k
    | None => texts p !! k
    end.
Proof.
  destruct o as [s|]; [|done]. simpl.
  destruct (String.eqb_spec id k) as [->|Hne];
    [apply lookup_insert_eq | by apply lookup_insert_ne].
Qed.

Lemma present_put_opt id o p k :
  is_Some (texts p !! k) -> is_Some (texts (put_opt id o p) !! k).
Proof.
  intros Hk. rewrite lookup_put_opt. destruct o; [|done]. by destruct (String.eqb id k).
Qed.

Lemma getElementById_present id p :
  is_Some (texts p !! id) -> getElementById id p = (p, Ok (Some id)).
Proof. intros [x Hx]. unfold getElementById. by rewrite Hx. Qed.

Section Exact.
Context {number : Type} `{JsNumber number}.

Lemma fixed_or_dash_shown (v : value number) d :
  number_or_absent v = true -> fixed_or_dash v d = Ok (shown_fixed v d).
Proof. unfold shown_fixed. by destruct v as [[]|]. Qed.

Lemma sse_system_write (system : value number) k d id p :
  truthy system = true -> number_or_absent (field system k) = true ->
  (let* v := lift (prop system k) in
   let* t := lift (fixed_or_dash v d) in
   set_text (Some id) t) p
  = (put id (shown_fixed (field system k) d) p, Ok tt).
Proof.
  intros Ht Hn. rewrite prop_truthy, bind_lift_ok by done.
  by rewrite fixed_or_dash_shown, bind_lift_ok by done.
Qed.

Lemma system_ok_truthy (system : value number) :
  system_ok system = true -> truthy system = true ->
  number_or_absent (field system "cpu_percent") = true
  /\ number_or_absent (field system "memory_percent") = true
  /\ number_or_absent (field system "memory_used_gb") = true
  /\ number_or_absent (field system "memory_total_gb") = true.
Proof.
  unfold system_ok. intros Hok Ht. rewrite Ht in Hok. simpl in Hok.
  repeat (apply andb_prop in Hok as [Hok ?]). done.
Qed.

Lemma sse_system_block_exact (system : value number) p :
  system_ok system = true ->
  is_Some (texts p !! "metric-cpu") -> is_Some (texts p !! "metric-ram") ->
  is_Some (texts p !! "metric-ram-used") -> is_Some (texts p !! "metric-ram-total") ->
  sse_system_block system p
  = (put_opt "metric-ram-total" (system_text system "memory_total_gb" 2)
       (put_opt "metric-ram-used" (system_text system "memory_used_gb" 2)
          (put_opt "metric-ram" (system_text system "memory_percent" 1)
             (put_opt "metric-cpu" (system_text system "cpu_percent" 1) p))),
     Ok tt).
Proof.
  intros Hok P1 P2 P3 P4. unfold sse_system_block, system_text, when.
  destruct (truthy system) eqn:Ht; [|done].
  destruct (system_ok_truthy _ Hok Ht) as (N1 & N2 & N3 & N4).
  rewrite (bind_ok _ _ _ _ _ (getElementById_present _ p P1)).
  rewrite (bind_ok _ _ _ _ _ (getElementById_present _ p P2)).
  rewrite (bind_ok _ _ _ _ _ (getElementById_present _ p P3)).
  rewrite (bind_ok _ _ _ _ _ (getElementById_present _ p P4)).
  unfold if_el.
  rewrite (bind_ok _ _ _ _ _ (sse_system_write system _ _ _ _ Ht N1)).
  rewrite (bind_ok _ _ _ _ _ (sse_system_write system _ _ _ _ Ht N2)).
  rewrite (bind_ok _ _ _ _ _ (sse_system_write system _ _ _ _ Ht N3)).
  by rewrite (sse_system_write system _ _ _ _ Ht N4).
Qed.

Lemma sse_queue_block_exact (queue : value number) p :
  is_Some (texts p !! "metric-total-transcriptions") ->
  is_Some (texts p !! "metric-queue-web") ->
  is_Some (texts p !! "metric-queue-gdrive") ->
  sse_queue_block queue p
  = (put_opt "metric-queue-gdrive" (queue_text queue "gdrive_size")
       (put_opt "metric-queue-web" (queue_text queue "web_size")
          (put_opt "metric-total-transcriptions"
             (queue_text queue "total_transcriptions") p)),
     Ok tt).
Proof.
  intros P1 P2 P3. unfold sse_queue_block, queue_text, when.
  destruct (truthy queue) eqn:Ht; [|done].
  rewrite (bind_ok _ _ _ _ _ (getElementById_present _ p P1)).
  rewrite (bind_ok _ _ _ _ _ (getElementById_present _ p P2)).
  rewrite (bind_ok _ _ _ _ _ (getElementById_present _ p P3)).
  unfold if_el. by rewrite !prop_truthy, !bind_lift_ok by done.
Qed.

Lemma poll_queue_field_exact (v : value number) id p :
  is_Some (texts p !! id) ->
  poll_queue_field v id p = (put_opt id (text_of <$> v) p, Ok tt).
Proof.
  intros Hp. unfold poll_queue_field. destruct v as [j|]; [|done].
  by rewrite (bind_ok _ _ _ _ _ (getElementById_present _ p Hp)).
Qed.

Lemma poll_system_field_exact (system : value number) k id d p :
  truthy system = true -> number_or_absent (field system k) = true ->
  is_Some (texts p !! id) ->
  poll_system_field system k id d p = (put id (shown_fixed (field system k) d) p, Ok tt).
Proof.
  intros Ht Hn Hp. unfold poll_system_field.
  rewrite (bind_ok _ _ _ _ _ (getElementById_present _ p Hp)).
  by apply sse_system_write.
Qed.

Lemma poll_system_block_exact (system : value number) p :
  system_ok system = true ->
  is_Some (texts p !! "metric-cpu") -> is_Some (texts p !! "metric-ram") ->
  is_Some (texts p !! "metric-ram-used") -> is_Some (texts p !! "metric-ram-total") ->
  poll_system_block system p
  = (put_opt "metric-ram-total" (system_text system "memory_total_gb" 2)
       (put_opt "metric-ram-used" (system_text system "memory_used_gb" 2)
          (put_opt "metric-ram" (system_text system "memory_percent" 1)
             (put_opt "metric-cpu" (system_text system "cpu_percent" 1) p))),
     Ok tt).
Proof.
  intros Hok P1 P2 P3 P4. unfold poll_system_block, system_text, when.
  destruct (truthy system) eqn:Ht; [|done].
  destruct (system_ok_truthy _ Hok Ht) as (N1 & N2 & N3 & N4).
  rewrite (bind_ok _ _ _ _ _ (poll_system_field_exact system _ _ _ p Ht N1 P1)).
  erewrite bind_ok;
    [|apply poll_system_field_exact; [done | done | by apply (present_put_opt _ (Some _))]].
  erewrite bind_ok;
    [|apply poll_system_field_exact;
      [done | done | by do 2 apply (present_put_opt _ (Some _))]].
  rewrite poll_system_field_exact;
    [done | done | done | by do 3 apply (present_put_opt _ (Some _))].
Qed.
End Exact.

Section Performance.
Context {number : Type} `{JsNumber number}.

(** [updatePerformanceMetrics] writes the performance list and the
    average time, nothing else. *)
Lemma stable_updatePerformanceMetrics (metrics modelsInOutput : value number) k :
  k <> "model-performance-list" -> k <> "avg-process-time" ->
  stable (same_text k) (updatePerformanceMetrics metrics modelsInOutput).
Proof.
  intros K1 K2. unfold updatePerformanceMetrics.
  repeat first [ stable_step | progress cbv zeta ];
    try apply same_text_texts_only; by apply may_write_same_text.
Qed.

Lemma model_items_ok (es : list (string * json number)) html :
  forallb (fun kv => number_or_null (snd kv)) es = true ->
  exists r, model_items es html = Ok r.
Proof.
  revert html. induction es as [|[model v] es IH]; intros html Hes; simpl in *.
  - eauto.
  - apply andb_prop in Hes as [Hv Hes].
    destruct v; try done; simpl; by apply IH.
Qed.

Lemma completes_updatePerformanceMetrics (metrics modelsInOutput : value number) :
  metrics_ok metrics = true ->
  completes (updatePerformanceMetrics metrics modelsInOutput).
Proof.
  intros Hok. unfold updatePerformanceMetrics.
  apply completes_getElementById; apply completes_getElementById;
    try (rewrite (bool_decide_eq_true_2 (None = None)) by done;
         rewrite ?orb_true_r, ?orb_true_l; by completes_step).
  rewrite !bool_decide_eq_false_2 by done. rewrite !orb_false_r.
  unfold metrics_ok in Hok.
  destruct (truthy metrics) eqn:Ht; simpl in *; [|completes_step].
  apply andb_prop in Hok as [Hes Havg].
  rewrite prop_truthy, bind_lift_ok by done. cbv zeta.
  apply completes_bind.
  - case_bool_decide; [|completes_step].
    destruct (model_items_ok _ "" Hes) as [r ->]. rewrite bind_lift_ok. completes_step.
  - intros _. rewrite prop_truthy, bind_lift_ok by done.
    destruct (field metrics "avg_process_time_sec") as [[]|]; try done;
      simpl; repeat completes_step.
Qed.
End Performance.

Section OneUpdate.
Context {number : Type} `{JsNumber number}.

Lemma prop_some_nonnull (d : json number) k :
  d <> JNull -> prop (Some d) k = Ok (field (Some d) k).
Proof. unfold field. by destruct d. Qed.

Lemma onmessage_metrics (d : json number) p m :
  system_ok (field (Some d) "system") = true -> all_present p ->
  displayed m (step p (SseMessage (Some d))) = displayed m (after_push d p).
Proof.
  intros Hok Hp. unfold step, handler, onmessage, try_catch, onmessage_try.
  rewrite bind_ret.
  set (p1 := mkDashboard (texts p) (console p ++ [LogInfo "Evento SSE recebido:"])
                         (in_flight p)).
  rewrite (bind_ok _ _ p p1 tt) by done.
  assert (d = JNull \/ d <> JNull) as [->|Hd] by (destruct d; auto); [done|].
  rewrite prop_some_nonnull, bind_lift_ok by done.
  assert (forall k, is_Some (texts p !! k) -> is_Some (texts p1 !! k)) as Hp1 by done.
  rewrite (bind_ok _ _ _ _ _
             (sse_system_block_exact _ p1 Hok
                (Hp1 _ (Hp SystemCpuPercent)) (Hp1 _ (Hp SystemMemPercent))
                (Hp1 _ (Hp SystemMemUsedGb)) (Hp1 _ (Hp SystemMemTotalGb)))).
  rewrite prop_some_nonnull, bind_lift_ok by done.
  erewrite bind_ok;
    [|apply sse_queue_block_exact; do 4 apply present_put_opt; apply Hp1;
      [apply (Hp TotalTranscriptions) | apply (Hp QueueWebSize)
       | apply (Hp QueueGdriveSize)]].
  match goal with
  | |- displayed m (fst match sse_status_block ?x ?q with _ => _ end) = _ =>
      pose proof (stable_sse_status_block x (element_of m)
                    ltac:(by destruct m) q) as Hs;
      destruct (sse_status_block x q) as [p' [[]|e]]
  end; unfold same_text in Hs; simpl in Hs; unfold displayed; simpl; rewrite Hs;
    unfold after_push; by rewrite !lookup_put_opt.
Qed.

Lemma settle_metrics (d : json number) p m :
  d <> JNull ->
  system_ok (field (Some d) "system") = true ->
  metrics_ok (field (Some d) "metrics") = true ->
  all_present p ->
  displayed m (step p (StatusSettled (Response true 200 (Some d))))
  = displayed m (after_poll d p).
Proof.
  intros Hd Hok Hmet Hp.
  unfold step, handler, updateDashboardCards_settle, try_catch, updateDashboardCards_try.
  set (p0 := mkDashboard (texts p) (console p) (pred (in_flight p))).
  rewrite (bind_ok _ _ p p0 tt) by done. simpl negb. cbv iota. rewrite bind_ret.
  set (p1 := mkDashboard (texts p) (console p ++ [LogInfo "Dados detalhados recebidos:"])
                         (pred (in_flight p))).
  rewrite (bind_ok _ _ p0 p1 tt) by done.
  assert (forall k, is_Some (texts p !! k) -> is_Some (texts p1 !! k)) as Hp1 by done.
  rewrite prop_some_nonnull, bind_lift_ok by done.
  erewrite bind_ok;
    [|apply poll_queue_field_exact, Hp1, (Hp TotalTranscriptions)].
  rewrite prop_some_nonnull, bind_lift_ok by done.
  erewrite bind_ok;
    [|apply poll_queue_field_exact, present_put_opt, Hp1, (Hp QueueWebSize)].
  rewrite prop_some_nonnull, bind_lift_ok by done.
  erewrite bind_ok;
    [|apply poll_queue_field_exact; do 2 apply present_put_opt;
      apply Hp1, (Hp QueueGdriveSize)].
  rewrite prop_some_nonnull, bind_lift_ok by done.
  erewrite bind_ok;
    [|apply poll_system_block_exact; [done|..]; do 3 apply present_put_opt; apply Hp1;
      [apply (Hp SystemCpuPercent) | apply (Hp SystemMemPercent)
       | apply (Hp SystemMemUsedGb) | apply (Hp SystemMemTotalGb)]].
  rewrite prop_some_nonnull, bind_lift_ok by done.
  rewrite prop_some_nonnull, bind_lift_ok by done.
  match goal with
  | |- displayed m (fst match updatePerformanceMetrics ?x ?y ?q with _ => _ end) = _ =>
      destruct (run_block (same_text (element_of m)) (updatePerformanceMetrics x y) q)
        as (p' & -> & Hs);
      [ apply stable_updatePerformanceMetrics; by destruct m
      | by apply completes_updatePerformanceMetrics | ]
  end.
  unfold same_text in Hs. unfold displayed. simpl. rewrite Hs.
  unfold after_poll. by rewrite !lookup_put_opt.
Qed.

Lemma well_formed_push d :
  well_formed (Realtime d) = true ->
  system_ok (field (Some d) "system") = true
  /\ queue_complete (field (Some d) "queue") = true.
Proof. intros Hwf. by apply andb_prop in Hwf. Qed.

Lemma well_formed_poll d :
  well_formed (Polled d) = true ->
  d <> JNull
  /\ system_ok (field (Some d) "system") = true
  /\ metrics_ok (field (Some d) "metrics") = true.
Proof.
  intros Hwf. simpl in Hwf. apply andb_prop in Hwf as [Hwf ?].
  apply andb_prop in Hwf as [Hwf ?]. by destruct d.
Qed.

Lemma queue_complete_truthy (queue : value number) :
  queue_complete queue = true -> truthy queue = true ->
  is_Some (field queue "total_transcriptions")
  /\ is_Some (field queue "web_size")
  /\ is_Some (field queue "gdrive_size").
Proof.
  unfold queue_complete. intros Hq Ht. rewrite Ht in Hq. simpl in Hq.
  repeat (apply andb_prop in Hq as [Hq ?]).
  repeat match goal with
         | H : bool_decide _ = true |- _ => apply bool_decide_eq_true_1 in H
         end.
  done.
Qed.

(** One well-formed update: every card shows what the update wrote on it,
    or what it showed before. *)
Lemma update_display (u : update number) p m :
  well_formed u = true -> all_present p ->
  displayed m (apply_update p u)
  = match written u m with
    | Some s => Some s
    | None => displayed m p
    end.
Proof.
  intros Hwf Hp. destruct u as [d|d]; unfold apply_update, event_of.
  - destruct (well_formed_push d Hwf) as [Hok Hq].
    rewrite onmessage_metrics by done.
    unfold displayed, after_push, written, carried, group_of, key_of.
    rewrite !lookup_put_opt. unfold system_text, queue_text.
    pose proof (queue_complete_truthy _ Hq) as Hc.
    destruct (truthy (field (Some d) "queue")) eqn:Ht;
      [destruct (Hc eq_refl) as ([? E1] & [? E2] & [? E3])|];
      destruct (truthy (field (Some d) "system")) eqn:Hs;
      destruct m; simpl; rewrite ?Ht, ?Hs, ?E1, ?E2, ?E3; try done;
      unfold shown_fixed, rendered; simpl;
      by match goal with |- context [fixed_or_dash ?v _] => destruct v end.
  - destruct (well_formed_poll d Hwf) as (Hd & Hok & Hmet).
    rewrite settle_metrics by done.
    unfold displayed, after_poll, written, carried, group_of, key_of.
    rewrite !lookup_put_opt. unfold system_text.
    destruct (truthy (field (Some d) "system")) eqn:Hs;
      destruct m; simpl; rewrite ?Hs; try done;
      try (unfold shown_fixed, rendered; simpl;
           by match goal with |- context [fixed_or_dash ?v _] => destruct v end);
      by repeat match goal with
                | |- context [text_of <$> ?x] => destruct x; simpl
                end.
Qed.

Lemma update_present (u : update number) p :
  well_formed u = true -> all_present p -> all_present (apply_update p u).
Proof.
  intros Hwf Hp m. rewrite update_display by done.
  destruct (written u m); [done | apply Hp].
Qed.
End OneUpdate.

Section PushFrame.
Context {number : Type} `{JsNumber number}.

Lemma prop_ok_field (v : value number) k a : prop v k = Ok a -> a = field v k.
Proof. unfold field. by intros ->. Qed.

(** A push message leaves alone every card whose group it lacks, whatever
    else it carries and whatever becomes of its processing. *)
Lemma onmessage_frame (d : json number) m :
  truthy (field (Some d) (if is_system m then "system" else "queue")) = false ->
  stable (same_text (element_of m)) (onmessage (Some d)).
Proof.
  intros Hg. unfold onmessage, onmessage_try.
  repeat first
    [ lazymatch goal with
      | |- stable _ (sse_system_block _) => idtac
      | |- stable _ (sse_queue_block _) => idtac
      | |- stable _ (sse_status_block _) => idtac
      end;
      repeat match goal with
             | E : prop _ _ = Ok _ |- _ => apply prop_ok_field in E; subst
             end
    | stable_step ].
  - destruct (is_system m) eqn:Hm.
    + unfold sse_system_block. rewrite Hg. apply stable_ret, _.
    + apply stable_sse_system_block; try apply _; try apply same_text_texts_only;
        intros; apply may_write_same_text; by destruct m.
  - destruct (is_system m) eqn:Hm.
    + apply stable_sse_queue_block; try apply _; try apply same_text_texts_only;
        intros; apply may_write_same_text; by destruct m.
    + unfold sse_queue_block. rewrite Hg. apply stable_ret, _.
  - apply stable_sse_status_block. by destruct m.
Qed.
End PushFrame.

(** ** Two channels, one set of cards *)

Section Reconciliation.
Context {number : Type} `{JsNumber number}.

Lemma apply_updates_cons (u : update number) us p :
  apply_updates (u :: us) p = apply_updates us (apply_update p u).
Proof. done. Qed.

(** C1, amended. For every interleaved sequence of well-formed push and
    polled updates on a page that has the seven metric cards, each card
    holds what the most recently applied update that wrote it wrote, by
    arrival order and whatever the channel: an update that carries the
    [system] group writes the four system cards (the value of a member,
    ['--'] for a member it lacks), a push update that carries the [queue]
    group writes the three queue cards, a polled snapshot writes each
    queue card it has a value for. A card that no update wrote keeps its
    initial content. *)
Theorem last_write_wins (us : list (update number)) (p : dashboard) (m : metric) :
  Forall (fun u => well_formed u = true) us ->
  all_present p ->
  displayed m (apply_updates us p)
  = match last_written us m with
    | Some s => Some s
    | None => displayed m p
    end.
Proof.
  intros Hus. revert p. induction Hus as [|u us Hu Hus IH]; intros p Hp; [done|].
  rewrite apply_updates_cons, IH by by apply update_present.
  simpl. destruct (last_written us m); [done|]. by apply update_display.
Qed.

(** C5, amended. A push update leaves every card whose group ([system],
    [queue]) it lacks as it was; a well-formed polled snapshot, on a page
    that has the seven cards, leaves as it was every queue card it has no
    value for and, when it has no [system] group, the system cards. *)
Theorem absent_group_keeps_card (u : update number) (p : dashboard) (m : metric) :
  group_absent u m ->
  poll_in_order u p ->
  displayed m (apply_update p u) = displayed m p.
Proof.
  intros Hg Hin. destruct u as [d|d].
  - apply (onmessage_frame d m). unfold group_absent, group_of in Hg.
    by destruct (is_system m).
  - destruct Hin as [Hwf Hp]. rewrite update_display by done.
    unfold group_absent in Hg. unfold written.
    destruct (is_system m); [by rewrite Hg | by rewrite Hg].
Qed.
End Reconciliation.

(** ** The course and module controls *)

Arguments trim : simpl never.
Arguments nonempty : simpl never.

Lemma nonempty_false s : nonempty s = false <-> s = "".
Proof.
  unfold nonempty. rewrite negb_false_iff. apply String.eqb_eq.
Qed.

Lemma trim_empty : trim "" = "".
Proof. done. Qed.

Lemma nonempty_true s : nonempty s = true <-> s <> "".
Proof.
  unfold nonempty. rewrite negb_true_iff. apply String.eqb_neq.
Qed.

Ltac run_listener :=
  unfold user_step, user_handler, newCourseInput_input, newModuleInput_input,
    courseSelect_dispatch_change, courseSelect_change_modules,
    courseSelect_change_clear, moduleSelect_change;
  unfold when, with_sel, issue, bind, get, modify, ret; simpl.

Ltac exclusive_side :=
  first [ assumption | by left | by right
        | right; by apply nonempty_false | left; by apply nonempty_false ].

Lemma user_step_exclusive f ev : exclusive (sel f) -> exclusive (sel (user_step f ev)).
Proof.
  intros [Hc Hm]. destruct f as [x fs sb fb co rq]. simpl in *.
  destruct ev as [text|text|c|m]; run_listener.
  - destruct (nonempty (trim text)) eqn:E; simpl; split; exclusive_side.
  - destruct (newModuleInput_disabled x); simpl; [done|].
    destruct (nonempty (trim text)) eqn:E; simpl; split; exclusive_side.
  - destruct (nonempty c) eqn:E; simpl; rewrite ?E; simpl; split; exclusive_side.
  - destruct (moduleSelect_disabled x); simpl; [done|].
    destruct (nonempty m) eqn:E; simpl; split; exclusive_side.
Qed.

Lemma user_step_effect f ev : listener_effect ev (sel f) (sel (user_step f ev)).
Proof.
  destruct f as [x fs sb fb co rq].
  destruct ev as [text|text|c|m]; simpl.
  - intros Ht%nonempty_true. run_listener. by rewrite Ht.
  - intros Hd Ht%nonempty_true. run_listener. rewrite Hd. simpl. by rewrite Ht.
  - intros Hc%nonempty_true. run_listener. rewrite Hc. simpl. by rewrite Hc.
  - intros Hd Hm%nonempty_true. run_listener. rewrite Hd. simpl. by rewrite Hm.
Qed.

(** C6, amended. After every keystroke and every dropdown change the
    selection satisfies the mutual exclusion, with "non-empty" read as "not
    blank" for the typed names: at each level a selected option and a typed
    name that is not blank do not coexist. Typing a name that is not blank
    into the new-course field leaves the course dropdown on its empty
    option, the module dropdown reset to its placeholder and disabled, and
    the new-module field disabled and cleared; choosing a course clears the
    new-course text; and likewise for the module controls when enabled. *)
Theorem selection_stays_exclusive (f : form) (evs : list user_event) (ev : user_event) :
  exclusive (sel f) ->
  let g := fold_left user_step evs f in
  exclusive (sel (user_step g ev))
  /\ listener_effect ev (sel g) (sel (user_step g ev)).
Proof.
  intros Hf g. split; [|apply user_step_effect].
  apply user_step_exclusive. subst g. revert f Hf.
  induction evs as [|e evs IH]; intros f Hf; [done|].
  simpl. by apply IH, user_step_exclusive.
Qed.

(** A course is chosen, then a new course is typed: the dropdown is back on
    its empty option. *)
Lemma selection_stays_exclusive_witness :
  exclusive (sel empty_form)
  /\ exclusive (sel (user_step (fold_left user_step choose_fisica empty_form)
                               (TypeNewCourse "Quimica")))
  /\ listener_effect (TypeNewCourse "Quimica")
       (sel (fold_left user_step choose_fisica empty_form))
       (sel (user_step (fold_left user_step choose_fisica empty_form)
                       (TypeNewCourse "Quimica"))).
Proof.
  assert (exclusive (sel empty_form)) as H0 by (split; by left).
  split; [exact H0|].
  exact (selection_stays_exclusive empty_form choose_fisica
           (TypeNewCourse "Quimica") H0).
Defined.

(** C6 as stated fails: with a course selected, a space typed into the
    new-course field leaves both the selection and the typed text
    non-empty. *)
Lemma blank_text_keeps_selection_counterexample :
  exclusive_as_stated (sel empty_form)
  /\ courseSelect_value (sel (fold_left user_step choose_then_type_blank empty_form))
     = "Fisica"
  /\ newCourseInput_value (sel (fold_left user_step choose_then_type_blank empty_form))
     = " "
  /\ ~ exclusive_as_stated (sel (fold_left user_step choose_then_type_blank empty_form)).
Proof.
  vm_compute. repeat split; auto. intros [[?|?] _]; discriminate.
Qed.

(** ** The structured upload *)

Section Batch.
Context {number : Type} `{JsNumber number}.

Lemma upload_one_spec (r : @fetch_result number) c m total f a k g :
  upload_one r c m total f (a, k) g
  = (mkForm (sel g) (fileInput_files g) (submitBtn_disabled g)
       (feedback g ++ [file_report r total f k])
       (form_console g ++ [file_log r f])
       (requests g ++ [PostUploadStructured f c m]),
     Ok (a && succeeded r, if succeeded r then S k else k)).
Proof.
  unfold upload_one, file_report, file_log, failure_message, succeeded.
  destruct g as [x fs sb fb co rq].
  destruct r as [|[] status [j|]];
    unfold try_catch, bind, issue, modify, lift, ret, throw, form_log,
      showStructuredFeedback; simpl;
    rewrite ?andb_true_r, ?andb_false_r; try done.
  destruct j as [| | | | |kvs]; try done.
  simpl. by destruct (assoc "detail" kvs) as [d|].
Qed.

Lemma successes_cons (server : nat -> @fetch_result number) i n :
  successes server i (S n)
  = (if succeeded (server i) then 1 else 0) + successes server (S i) n.
Proof.
  unfold successes. simpl. rewrite filter_cons.
  destruct (succeeded (server i)); by case_decide.
Qed.

Lemma upload_loop_spec (server : nat -> @fetch_result number) c m total fs :
  forall i a k g,
    upload_loop server c m total fs i (a, k) g
    = (mkForm (sel g) (fileInput_files g) (submitBtn_disabled g)
         (feedback g ++ file_reports server total fs i k)
         (form_console g ++ file_logs server fs i)
         (requests g ++ map (fun f => PostUploadStructured f c m) fs),
       Ok (a && bool_decide (successes server i (List.length fs) = List.length fs),
           k + successes server i (List.length fs))).
Proof.
  induction fs as [|f fs IH]; intros i a k g.
  - destruct g. simpl. unfold ret. rewrite !app_nil_r, andb_true_r.
    unfold successes. simpl. by rewrite Nat.add_0_r.
  - cbn [upload_loop]. rewrite (bind_ok _ _ _ _ _ (upload_one_spec _ c m total f a k g)).
    rewrite IH. simpl. rewrite <- !app_assoc. simpl. f_equal. f_equal.
    rewrite successes_cons.
    assert (successes server (S i) (List.length fs) <= List.length fs) as Hle.
    { unfold successes. etransitivity; [apply length_filter|]. by rewrite length_seq. }
    destruct (succeeded (server i)); simpl; f_equal; try lia.
    + rewrite andb_true_r. f_equal. apply bool_decide_ext. lia.
    + rewrite andb_false_r. symmetry. rewrite andb_false_iff. right.
      apply bool_decide_eq_false_2. lia.
Qed.

(** The loop with its journal does to the form what the loop does, and
    notes, for each file in turn: sent, settled, line shown. *)
Lemma upload_one_traffic_spec (r : @fetch_result number) c m total f a k g t :
  upload_one_traffic r c m total f (a, k) (g, t)
  = ((fst (upload_one r c m total f (a, k) g),
      (t ++ [Sent f; Settled f; Shown (file_report r total f k)])%list),
     Ok (a && succeeded r, if succeeded r then S k else k)).
Proof.
  rewrite upload_one_spec.
  unfold upload_one_traffic, file_report, file_log, failure_message, succeeded.
  destruct g as [x fs sb fb co rq].
  destruct r as [|[] status [j|]];
    unfold try_catch, bind, on_form, show_line, note, issue, modify, lift, ret, throw,
      form_log, showStructuredFeedback; simpl;
    rewrite ?andb_true_r, ?andb_false_r, <- ?app_assoc; try done.
  destruct j as [| | | | |kvs]; simpl; rewrite <- ?app_assoc; try done.
  by destruct (assoc "detail" kvs) as [d|].
Qed.

Lemma upload_loop_traffic_spec (server : nat -> @fetch_result number) c m total fs :
  forall i a k g t,
    upload_loop_traffic server c m total fs i (a, k) (g, t)
    = ((fst (upload_loop server c m total fs i (a, k) g),
        (t ++ expected_traffic server total fs i k)%list),
       snd (upload_loop server c m total fs i (a, k) g)).
Proof.
  induction fs as [|f fs IH]; intros i a k g t.
  - simpl. unfold ret. simpl. by rewrite app_nil_r.
  - cbn [upload_loop_traffic upload_loop expected_traffic].
    rewrite (bind_ok _ _ _ _ _ (upload_one_traffic_spec _ c m total f a k g t)).
    rewrite (bind_ok _ _ _ _ _ (upload_one_spec _ c m total f a k g)).
    rewrite upload_one_spec. cbn [fst snd]. rewrite IH.
    by rewrite <- app_assoc.
Qed.

Lemma line_outcome_report (r : @fetch_result number) total f k :
  line_outcome (file_report r total f k) = outcome_of r.
Proof. unfold line_outcome, file_report, outcome_of. by destruct (succeeded r). Qed.

Lemma file_reports_outcomes (server : nat -> @fetch_result number) total fs :
  forall i k,
    map line_outcome (file_reports server total fs i k)
    = map (fun j => outcome_of (server j)) (seq i (List.length fs)).
Proof.
  induction fs as [|f fs IH]; intros i k; [done|].
  simpl. by rewrite line_outcome_report, IH.
Qed.

Lemma effective_empty selected typed :
  effective selected typed = "" -> str_or (trim selected) (trim typed) = "".
Proof.
  unfold effective, str_or. destruct (nonempty selected) eqn:E.
  - intros ->. done.
  - apply nonempty_false in E as ->. rewrite trim_empty. done.
Qed.

(** C7. A submission whose effective course (the selected course, else
    the trimmed new course) is empty, or whose effective module is empty,
    or that has no file, is rejected before any request is issued: the
    handler returns after one warning, and the requests, the selection
    and the submit button are as before. In particular no upload leaves
    when both the course dropdown and the new-course field are empty,
    whatever the module and the files. *)
Theorem invalid_submission_issues_no_request
    (server : nat -> @fetch_result number) (f : form) :
  effective (courseSelect_value (sel f)) (newCourseInput_value (sel f)) = ""
  \/ effective (moduleSelect_value (sel f)) (newModuleInput_value (sel f)) = ""
  \/ fileInput_files f = [] ->
  requests (fst (submit server f)) = requests f
  /\ snd (submit server f) = Ok tt
  /\ sel (fst (submit server f)) = sel f
  /\ submitBtn_disabled (fst (submit server f)) = submitBtn_disabled f
  /\ exists msg,
      feedback (fst (submit server f)) = (feedback f ++ [(msg, "warning")])%list.
Proof.
  intros Hbad. unfold submit. rewrite (bind_ok _ _ f f f) by done.
  destruct (nonempty (str_or (trim (courseSelect_value (sel f)))
                             (trim (newCourseInput_value (sel f))))) eqn:Ec;
    simpl; [|by eauto 10].
  destruct (nonempty (str_or (trim (moduleSelect_value (sel f)))
                             (trim (newModuleInput_value (sel f))))) eqn:Em;
    simpl; [|by eauto 10].
  destruct (Nat.eqb (List.length (fileInput_files f)) 0) eqn:En; simpl; [by eauto 10|].
  exfalso. destruct Hbad as [Hb|[Hb|Hb]].
  - apply effective_empty in Hb. by rewrite Hb in Ec.
  - apply effective_empty in Hb. by rewrite Hb in Em.
  - by rewrite Hb in En.
Qed.

Lemma dispatch_change_spec g :
  exists g',
    courseSelect_dispatch_change g = (g', Ok tt)
    /\ feedback g' = feedback g
    /\ fileInput_files g' = fileInput_files g
    /\ filter (fun r => is_upload r = true) (requests g')
       = filter (fun r => is_upload r = true) (requests g).
Proof.
  destruct g as [x fs sb fb co rq].
  unfold courseSelect_dispatch_change, courseSelect_change_modules,
    courseSelect_change_clear.
  unfold when, with_sel, issue, bind, get, modify, ret. simpl.
  destruct (nonempty (courseSelect_value x)) eqn:E; simpl; rewrite ?E; simpl;
    eexists; repeat split.
  simpl. rewrite filter_app. rewrite filter_cons. case_decide; [done|].
  by rewrite filter_nil, app_nil_r.
Qed.

Lemma file_reports_length (server : nat -> @fetch_result number) total fs :
  forall i k, List.length (file_reports server total fs i k) = List.length fs.
Proof. induction fs as [|f fs IH]; intros i k; simpl; [done | by rewrite IH]. Qed.

Lemma file_reports_lookup (server : nat -> @fetch_result number) total fs :
  forall i k j file,
    fs !! j = Some file ->
    file_reports server total fs i k !! j
    = Some (file_report (server (i + j)) total file (k + successes server i j)).
Proof.
  induction fs as [|f fs IH]; intros i k j file Hj; [done|].
  destruct j as [|j]; simpl in *.
  - injection Hj as ->. unfold successes. simpl. by rewrite !Nat.add_0_r.
  - rewrite (IH _ _ _ _ Hj). rewrite successes_cons.
    replace (i + S j) with (S i + j) by lia.
    f_equal. f_equal. destruct (succeeded (server i)); lia.
Qed.

(** The submit handler on a valid submission *)
Lemma submit_valid (server : nat -> @fetch_result number) (f : form) c m :
  c = str_or (trim (courseSelect_value (sel f))) (trim (newCourseInput_value (sel f))) ->
  m = str_or (trim (moduleSelect_value (sel f))) (trim (newModuleInput_value (sel f))) ->
  c <> "" -> m <> "" -> fileInput_files f <> [] ->
  let fs := fileInput_files f in
  let n := List.length fs in
  exists f',
    submit server f = (f', Ok tt)
    /\ filter (fun r => is_upload r = true) (requests f')
       = (filter (fun r => is_upload r = true) (requests f)
          ++ map (fun file => PostUploadStructured file c m) fs)%list
    /\ feedback f'
       = (feedback f ++ ("Enviando arquivos...", "info")
            :: file_reports server n fs 0 0
            ++ [summary_line c m (successes server 0 n) n])%list
    /\ submitBtn_disabled f' = false.
Proof.
  intros Hc Hm Hcne Hmne Hfs fs n. unfold submit.
  rewrite (bind_ok _ _ f f f) by done. rewrite <- Hc, <- Hm.
  apply nonempty_true in Hcne, Hmne. rewrite Hcne, Hmne. simpl.
  destruct (Nat.eqb (List.length (fileInput_files f)) 0) eqn:En.
  { apply Nat.eqb_eq in En. by destruct (fileInput_files f). }
  unfold set_submitBtn_disabled at 1. unfold showStructuredFeedback at 1.
  unfold bind at 1. unfold bind at 1. unfold modify at 1 2. simpl.
  unfold bind at 1. rewrite upload_loop_spec. simpl.
  fold fs n. unfold summary_line.
  assert (filter (fun r => is_upload r = true)
            (map (fun file => PostUploadStructured file c m) fs)
          = map (fun file => PostUploadStructured file c m) fs) as Hup.
  { clear. induction fs as [|x fs IH]; [done|].
    simpl. rewrite filter_cons. case_decide; [by rewrite IH | done]. }
  case_bool_decide as Hall.
  - rewrite (proj2 (Nat.eqb_eq _ _) Hall).
    unfold showStructuredFeedback, issue, bind, modify, get, when, ret,
      set_submitBtn_disabled. simpl.
    match goal with
    | |- context [if ?b then courseSelect_dispatch_change else _] => destruct b
    end.
    + match goal with
      | |- context [courseSelect_dispatch_change ?g] =>
          destruct (dispatch_change_spec g) as (g' & -> & Hfb & _ & Hrq)
      end.
      simpl in *. eexists; split; [done|]. simpl. rewrite Hfb, Hrq.
      rewrite !filter_app, Hup. simpl. rewrite filter_cons. case_decide; [done|].
      rewrite filter_nil, app_nil_r. split; [done|]. split; [|done].
      by rewrite <- !app_assoc.
    + eexists; split; [done|]. simpl.
      rewrite !filter_app, Hup. simpl. rewrite filter_cons. case_decide; [done|].
      rewrite filter_nil, app_nil_r. split; [done|]. split; [|done].
      by rewrite <- !app_assoc.
  - apply Nat.eqb_neq in Hall. rewrite Hall.
    unfold showStructuredFeedback, issue, bind, modify, get, when, ret,
      set_submitBtn_disabled. simpl.
    eexists; split; [done|]. simpl. rewrite !filter_app, Hup.
    split; [done|]. split; [|done]. by rewrite <- !app_assoc.
Qed.
End Batch.

(** ** The React upload page *)

Section ReactPage.
Context {number : Type} `{JsNumber number}.

Lemma upload_each_spec (post : nat -> axios_result number) fs :
  forall i results (s : upload_page number),
    upload_each post fs i results s
    = (s, Ok (results ++ upload_entries post fs i)%list).
Proof.
  induction fs as [|f fs IH]; intros i results s; simpl.
  - by rewrite app_nil_r.
  - by rewrite IH, <- app_assoc.
Qed.

Lemma upload_entries_length (post : nat -> axios_result number) fs :
  forall i, List.length (upload_entries post fs i) = List.length fs.
Proof. induction fs as [|f fs IH]; intros i; simpl; [done | by rewrite IH]. Qed.

Lemma upload_entries_lookup (post : nat -> axios_result number) fs :
  forall i j f,
    fs !! j = Some f ->
    upload_entries post fs i !! j = Some (upload_entry (post (i + j)) f).
Proof.
  induction fs as [|x fs IH]; intros i j f Hj; [done|].
  destruct j as [|j]; simpl in *.
  - injection Hj as ->. by rewrite Nat.add_0_r.
  - rewrite (IH _ _ _ Hj). by replace (i + S j) with (S i + j) by lia.
Qed.

Lemma upload_entry_status (r : axios_result number) f :
  filename (upload_entry r f) = file_name f
  /\ status (upload_entry r f) = if resolved r then StatusSuccess else StatusError.
Proof. by destruct r as [[[]|]|]. Qed.

Lemma handleUpload_batch (post : nat -> axios_result number) (s : upload_page number) :
  files s <> [] ->
  handleUpload post s
  = (mkUploadPage [] false (upload_entries post (files s) 0) "", Ok tt).
Proof.
  intros Hfs. unfold handleUpload. rewrite (bind_ok _ _ s s s) by done.
  destruct (Nat.eqb (List.length (files s)) 0) eqn:En.
  { apply Nat.eqb_eq in En. by destruct (files s). }
  unfold try_finally, try_catch, bind, setUploading, setError, setUploadResults,
    setFiles, modify. simpl.
  by rewrite upload_each_spec.
Qed.

Lemma upload_entries_statuses (post : nat -> axios_result number) fs :
  forall i,
    map status (upload_entries post fs i)
    = map (fun j => if resolved (post j) then StatusSuccess else StatusError)
          (seq i (List.length fs))
    /\ map filename (upload_entries post fs i) = map file_name fs.
Proof.
  induction fs as [|f fs IH]; intros i; [done|].
  simpl. destruct (IH (S i)) as [-> ->].
  by destruct (upload_entry_status (post i) f) as [-> ->].
Qed.

(** C10. On the React upload page, when a batch upload completes the list
    of selected files is empty, whatever the outcomes of the requests;
    the results of the batch, one entry per file and in the order of the
    files, stay in [uploadResults]. *)
Theorem files_cleared_results_kept
    (post : nat -> axios_result number) (s : upload_page number) :
  files s <> [] ->
  let s' := fst (handleUpload post s) in
  snd (handleUpload post s) = Ok tt
  /\ files s' = []
  /\ uploading s' = false
  /\ uploadResults s' = upload_entries post (files s) 0
  /\ List.length (uploadResults s') = List.length (files s)
  /\ forall j f, files s !! j = Some f ->
       exists r, uploadResults s' !! j = Some r
                 /\ filename r = file_name f
                 /\ status r = if resolved (post j) then StatusSuccess else StatusError.
Proof.
  intros Hfs s'. subst s'. rewrite handleUpload_batch by done. simpl.
  repeat split; [apply upload_entries_length|].
  intros j f Hj. eexists. split; [by apply upload_entries_lookup|].
  apply upload_entry_status.
Qed.
End ReactPage.

Section BatchClaim.
Context {number : Type} `{JsNumber number}.

End BatchClaim.

(** ** The refresh timer *)

Section TimerClaim.
Context {number : Type} `{JsNumber number}.

Lemma run_app (evs1 evs2 : list (@event number)) p :
  run (evs1 ++ evs2) p = run evs2 (run evs1 p).
Proof. apply fold_left_app. Qed.

Lemma timeline_succ interval latency (r : @fetch_result number) t :
  timeline interval latency r (S t)
  = (timeline interval latency r t ++ events_at interval latency r (S t))%list.
Proof.
  unfold timeline. rewrite (seq_S (S t)), flat_map_app. simpl. by rewrite app_nil_r.
Qed.

(** Before the first request settles, the timeline consists of ticks. *)
Lemma events_at_before_settling interval latency (r : @fetch_result number) t :
  t < latency ->
  events_at interval latency r t
  = if bool_decide (t mod interval = 0) then [TimerTick] else [].
Proof.
  intros Ht. unfold events_at.
  replace (latency <=? t)%nat with false by (symmetry; apply Nat.leb_gt; lia).
  simpl. case_bool_decide as Hm.
  - by rewrite (proj2 (Nat.eqb_eq _ _) Hm).
  - by rewrite (proj2 (Nat.eqb_neq _ _) Hm).
Qed.

(** C3, amended. The refresh timer issues a status request at time 0 and at
    every interval tick, whether or not earlier requests are still in
    flight: a tick adds one request in flight and changes no card, and as
    long as no request has settled (up to any time [t] before the latency
    of the endpoint) the requests in flight are as many as the ticks so
    far. No tick is skipped. *)
Theorem every_tick_issues_a_request
    (interval latency t : nat) (r : @fetch_result number) (p : dashboard) :
  0 < interval -> t < latency ->
  in_flight (run (timeline interval latency r t) p)
  = in_flight p + List.length (filter (fun k => k mod interval = 0) (seq 0 (S t)))
  /\ forall q : dashboard,
       in_flight (step (number:=number) q TimerTick) = S (in_flight q)
       /\ texts (step (number:=number) q TimerTick) = texts q.
Proof.
  intros Hi Ht. split; [|done].
  induction t as [|t IH].
  - unfold timeline. simpl. rewrite app_nil_r, events_at_before_settling by done.
    rewrite filter_cons, filter_nil, Nat.Div0.mod_0_l.
    rewrite bool_decide_eq_true_2 by done. rewrite decide_True by done.
    simpl. lia.
  - rewrite timeline_succ, run_app, events_at_before_settling by done.
    rewrite (seq_S (S t)), filter_app, length_app.
    change (0 + S t) with (S t). rewrite (filter_cons _ (S t) []), filter_nil.
    specialize (IH ltac:(lia)).
    set (q := run (timeline interval latency r t) p) in *.
    case_bool_decide; case_decide; try done; simpl in *; lia.
Qed.
End TimerClaim.

(** * Concrete runs *)

Lemma page0_all_present : all_present page0.
Proof. intros m. destruct m; vm_compute; eauto. Qed.

(** C1 as stated fails: the memory card was set to 3 by the poll and is not
    set by the push event, yet after the push event it shows ['--'], not
    the value of the most recent update that set it. *)
Lemma stale_value_replaced_counterexample :
  all_present page0
  /\ last_carried poll_then_push SystemMemUsedGb = Some (JNum 3%Z)
  /\ claimed_display poll_then_push SystemMemUsedGb page0 = Some "3.00"
  /\ displayed SystemMemUsedGb (apply_updates poll_then_push page0) = Some "--".
Proof. split; [apply page0_all_present | by vm_compute]. Qed.

(** The same two updates are well formed: the memory card shows what the
    push event, the last to write it, wrote. *)
Lemma last_write_wins_witness :
  Forall (fun u => well_formed u = true) poll_then_push
  /\ all_present page0
  /\ displayed SystemMemUsedGb (apply_updates poll_then_push page0)
     = match last_written poll_then_push SystemMemUsedGb with
       | Some s => Some s
       | None => displayed SystemMemUsedGb page0
       end.
Proof.
  assert (Forall (fun u : update Z => well_formed u = true) poll_then_push) as Hwf
    by (repeat constructor).
  split; [exact Hwf|]. split; [exact page0_all_present|].
  exact (last_write_wins poll_then_push page0 SystemMemUsedGb Hwf page0_all_present).
Defined.

(** C5 as stated fails: the CPU field is not present in the update, and the
    CPU card goes from its value to ['--']. *)
Lemma absent_field_reset_counterexample :
  absent_from push_memory_only SystemCpuPercent
  /\ displayed SystemCpuPercent page_cpu_12 = Some "12.0"
  /\ displayed SystemCpuPercent (apply_update page_cpu_12 push_memory_only) = Some "--".
Proof. by vm_compute. Qed.

(** A poll that fails is no update: the [catch] block writes 'Erro' on five
    cards and leaves the other two. *)
Example failed_poll_shows_error :
  map (fun m => displayed m (step page_cpu_12 (StatusSettled (@NetworkFailure Z))))
      all_metrics
  = [Some "Erro"; Some "Erro"; Some "--"; Some "--";
     Some "Erro"; Some "Erro"; Some "Erro"].
Proof. by vm_compute. Qed.

(** A snapshot without a [system] group leaves the CPU card alone. *)
Lemma absent_group_keeps_card_witness :
  group_absent poll_queue_only SystemCpuPercent
  /\ poll_in_order poll_queue_only page_cpu_12
  /\ displayed SystemCpuPercent (apply_update page_cpu_12 poll_queue_only)
     = displayed SystemCpuPercent page_cpu_12.
Proof.
  assert (group_absent poll_queue_only SystemCpuPercent) as Hg by reflexivity.
  assert (poll_in_order poll_queue_only page_cpu_12) as Hin.
  { split; [reflexivity|]. intros m. destruct m; vm_compute; eauto. }
  split; [exact Hg|]. split; [exact Hin|].
  exact (absent_group_keeps_card poll_queue_only page_cpu_12 SystemCpuPercent Hg Hin).
Defined.

(** C4: the code at the failing input. The total of transcriptions is absent
    from the event and the card, which showed the placeholder, shows [0]. *)
Theorem absent_queue_count_shown_as_zero :
  absent_from push_web_size_only TotalTranscriptions
  /\ displayed TotalTranscriptions page0 = Some "--"
  /\ displayed TotalTranscriptions (apply_update page0 push_web_size_only) = Some "0"
  /\ displayed QueueGdriveSize (apply_update page0 push_web_size_only) = Some "0".
Proof. by vm_compute. Qed.



(** Interval 100, a fetch that takes 150: at time 100 the request of time 0
    is still in flight and the tick issues another one. C3 as stated
    fails. *)
Lemma slow_endpoint_overlap_counterexample :
  in_flight (run (timeline 100 150 empty_snapshot 99) page0) = 1
  /\ in_flight (run (timeline 100 150 empty_snapshot 100) page0) = 2
  /\ ~ (in_flight (run (timeline 100 150 empty_snapshot 100) page0) <= 1).
Proof. vm_compute. repeat split; lia. Qed.

(** The same run, counted by the amended statement: two ticks so far, two
    requests in flight. *)
Lemma every_tick_issues_a_request_witness :
  0 < 100 /\ 100 < 150
  /\ in_flight (run (timeline 100 150 empty_snapshot 100) page0)
     = in_flight page0
       + List.length (filter (fun k => k mod 100 = 0) (seq 0 101)).
Proof.
  assert (0 < 100) as Hi by lia. assert (100 < 150) as Ht by lia.
  split; [exact Hi|]. split; [exact Ht|].
  exact (proj1 (every_tick_issues_a_request 100 150 100 empty_snapshot page0 Hi Ht)).
Defined.

(** The run of the specification: outcomes S, F, S, F, S; the last progress
    line reads 3/5 and the summary counts the 2 of 5 that failed. *)
Example five_files_two_failures :
  let f' := fst (submit second_and_fourth_fail form_five_files) in
  requests f' = map (fun f => PostUploadStructured f "Fisica" "Aula 1") five_files
  /\ map (fun i => succeeded (second_and_fourth_fail i)) (seq 0 5)
     = [true; false; true; false; true]
  /\ successes second_and_fourth_fail 0 5 = 3
  /\ feedback f'
     = [("Enviando arquivos...", "info");
        ("Enviando: 1/5 arquivos...", "info");
        ("Erro ao enviar aula2.mp3: falha", "danger");
        ("Enviando: 2/5 arquivos...", "info");
        ("Erro ao enviar aula4.mp3: falha", "danger");
        ("Enviando: 3/5 arquivos...", "info");
        ("Alguns arquivos (2 de 5) não puderam ser enviados. Veja os erros acima.",
         "danger")]
  /\ map status (uploadResults (fst (handleUpload second_and_fourth_rejected
                                       page_five_files)))
     = [StatusSuccess; StatusError; StatusSuccess; StatusError; StatusSuccess].
Proof. by vm_compute. Qed.



(** Neither a selected nor a typed course: nothing is sent. *)
Lemma invalid_submission_issues_no_request_witness :
  (effective (courseSelect_value (sel form_without_course))
             (newCourseInput_value (sel form_without_course)) = ""
   \/ effective (moduleSelect_value (sel form_without_course))
                (newModuleInput_value (sel form_without_course)) = ""
   \/ fileInput_files form_without_course = [])
  /\ requests (fst (submit second_and_fourth_fail form_without_course)) = []
  /\ snd (submit second_and_fourth_fail form_without_course) = Ok tt.
Proof.
  assert (effective (courseSelect_value (sel form_without_course))
                    (newCourseInput_value (sel form_without_course)) = ""
          \/ effective (moduleSelect_value (sel form_without_course))
                       (newModuleInput_value (sel form_without_course)) = ""
          \/ fileInput_files form_without_course = []) as Hbad by (left; reflexivity).
  split; [exact Hbad|].
  destruct (invalid_submission_issues_no_request second_and_fourth_fail
              form_without_course Hbad) as (Hrq & Hok & _).
  split; [exact Hrq | exact Hok].
Defined.

(** The batch of five on the React page: no file left selected, five
    results kept. *)
Lemma files_cleared_results_kept_witness :
  files page_five_files <> []
  /\ files (fst (handleUpload second_and_fourth_rejected page_five_files)) = []
  /\ List.length (uploadResults (fst (handleUpload second_and_fourth_rejected
                                        page_five_files))) = 5.
Proof.
  assert (files page_five_files <> []) as Hfs by discriminate.
  split; [exact Hfs|].
  destruct (files_cleared_results_kept second_and_fourth_rejected page_five_files Hfs)
    as (_ & Hfiles & _ & _ & Hlen & _).
  split; [exact Hfiles | exact Hlen].
Defined.

(** * More of the dashboard *)

Lemma not_elem_of_cons_ne (k x : string) (l : list string) :
  k ∉ x :: l -> x <> k /\ k ∉ l.
Proof. intros Hk. split; [intros -> | intros Hl]; apply Hk; set_solver. Qed.

(** From [k ∉ [a; b; ...]], the facts [a <> k], [b <> k], ... *)
Ltac split_not_elem_of H :=
  repeat (apply not_elem_of_cons_ne in H as [? H]).

#[export] Instance same_in_flight_preorder : PreOrder same_in_flight.
Proof. split; [done|]. intros p q r Hpq Hqr. unfold same_in_flight in *. congruence. Qed.

Section PollFrame.
Context {number : Type} `{JsNumber number}.

Lemma stable_poll_queue_field (R : relation dashboard) `{!PreOrder R}
    (v : value number) id :
  (forall s, may_write R id s) -> stable R (poll_queue_field v id).
Proof. intros Hw. unfold poll_queue_field. repeat stable_step. apply Hw. Qed.

Lemma stable_poll_system_block (R : relation dashboard) `{!PreOrder R}
    (system : value number) :
  (forall s, may_write R "metric-cpu" s) ->
  (forall s, may_write R "metric-ram" s) ->
  (forall s, may_write R "metric-ram-used" s) ->
  (forall s, may_write R "metric-ram-total" s) ->
  stable R (poll_system_block system).
Proof.
  intros W1 W2 W3 W4. unfold poll_system_block, poll_system_field.
  repeat stable_step; auto.
Qed.

Lemma stable_catch (R : relation dashboard) `{!PreOrder R} (Ht : texts_only R) e :
  (forall id s, In id error_cards -> may_write R id s) ->
  stable R (updateDashboardCards_catch e).
Proof.
  intros Hw. unfold updateDashboardCards_catch.
  repeat stable_step; apply Hw; simpl; auto 10.
Qed.

Lemma stable_updateDashboardCards_settle_text (r : @fetch_result number) k :
  k ∉ poll_elements -> stable (same_text k) (updateDashboardCards_settle r).
Proof.
  intros Hk. unfold poll_elements in Hk. split_not_elem_of Hk.
  unfold updateDashboardCards_settle.
  apply stable_try_catch; [apply _ | | intros e].
  - unfold updateDashboardCards_try.
    repeat first
      [ apply stable_poll_queue_field; [apply _ | intros; by apply may_write_same_text]
      | apply stable_poll_system_block;
        [apply _ | intros; by apply may_write_same_text ..]
      | apply stable_updatePerformanceMetrics; by apply not_eq_sym
      | lazymatch goal with
        | |- stable _ (modify _) => apply stable_modify; by intros ?
        end
      | stable_step ].
  - apply stable_catch; [apply _ | apply same_text_texts_only |].
    intros id s Hid. apply may_write_same_text. simpl in Hid.
    intuition (subst; done).
Qed.

(** X1. The polled refresh writes the seven cards and the two performance
    elements and nothing else: whatever the request gave, every other
    element of the page, the status line among them, reads as before. *)
Theorem poll_writes_only_its_elements (r : @fetch_result number) (p : dashboard) (k : string) :
  k ∉ poll_elements ->
  texts (step p (StatusSettled r)) !! k = texts p !! k.
Proof. intros Hk. apply (stable_updateDashboardCards_settle_text r k Hk p). Qed.
End PollFrame.

(** ** Requests in flight *)

Lemma stable_console_flight e : stable same_in_flight (console_write e).
Proof. by intros p. Qed.

Lemma may_write_flight id s : may_write same_in_flight id s.
Proof. by intros p. Qed.

Ltac flight_step :=
  first [ apply stable_console_flight
        | apply stable_set_text, may_write_flight
        | progress cbv zeta
        | stable_step ].

Section InFlight.
Context {number : Type} `{JsNumber number}.

Lemma stable_flight_onmessage (parsed : option (json number)) :
  stable same_in_flight (onmessage parsed).
Proof.
  unfold onmessage, onmessage_try, sse_system_block, sse_queue_block, sse_status_block.
  repeat flight_step.
Qed.

Lemma stable_flight_onerror : stable same_in_flight onerror.
Proof. unfold onerror. repeat flight_step. Qed.

Lemma push_in_flight (ev : @event number) p :
  is_push ev = true -> in_flight (step p ev) = in_flight p.
Proof.
  destruct ev as [parsed| | |r]; try done; intros _.
  - apply (stable_flight_onmessage parsed p).
  - apply (stable_flight_onerror p).
Qed.
End InFlight.

(** ** What the push channel leaves alone *)

Section PushWrites.
Context {number : Type} `{JsNumber number}.

Lemma stable_onmessage_text (parsed : option (json number)) k :
  k ∉ push_elements -> stable (same_text k) (onmessage parsed).
Proof.
  intros Hk. unfold push_elements in Hk. split_not_elem_of Hk.
  unfold onmessage, onmessage_try.
  repeat first
    [ apply stable_sse_system_block; [apply _ | intros; by apply may_write_same_text ..]
    | apply stable_sse_queue_block; [apply _ | intros; by apply may_write_same_text ..]
    | apply stable_sse_status_block; by apply not_eq_sym
    | stable_step ].
Qed.

Lemma stable_onerror_text k :
  k <> "system-status" -> stable (same_text k) onerror.
Proof.
  intros Hk. unfold onerror. repeat stable_step.
  apply may_write_same_text. by apply not_eq_sym.
Qed.

(** X2. A push message or a transport error of the push connection writes
    the seven cards and the status line and nothing else: the performance
    list, the average time and every other element read as before, and no
    status request is issued or settled. *)
Theorem push_writes_only_its_elements (ev : @event number) (p : dashboard) :
  is_push ev = true ->
  in_flight (step p ev) = in_flight p
  /\ forall k, k ∉ push_elements -> texts (step p ev) !! k = texts p !! k.
Proof.
  intros Hev. split; [by apply push_in_flight|]. intros k Hk.
  destruct ev as [parsed| | |r]; try done.
  - apply (stable_onmessage_text parsed k Hk p).
  - apply (stable_onerror_text k).
    intros ->. apply Hk. unfold push_elements. set_solver.
Qed.
End PushWrites.

(** ** A poll that fails *)

Lemma write_present id s p :
  is_Some (texts p !! id) ->
  (let* el := getElementById id in set_text el s) p = (put id s p, Ok tt).
Proof. intros Hid. by rewrite (bind_ok _ _ _ _ _ (getElementById_present _ _ Hid)). Qed.

Lemma catch_exact e p :
  Forall (fun id => is_Some (texts p !! id)) error_cards ->
  updateDashboardCards_catch e p
  = (put "metric-ram" "Erro"
       (put "metric-cpu" "Erro"
          (put "metric-queue-gdrive" "Erro"
             (put "metric-queue-web" "Erro"
                (put "metric-total-transcriptions" "Erro"
                   (mkDashboard (texts p)
                      (console p
                       ++ [LogError "Erro ao buscar/atualizar dados do dashboard:"])
                      (in_flight p)))))),
     Ok tt).
Proof.
  intros Hp. repeat (apply Forall_cons in Hp as [? Hp]). clear Hp.
  unfold updateDashboardCards_catch. erewrite bind_ok by done.
  repeat (erewrite bind_ok;
          [|apply write_present; repeat apply (present_put_opt _ (Some _)); done]).
  apply write_present; repeat apply (present_put_opt _ (Some _)); done.
Qed.

Lemma lookup_after_catch (t : gmap string string) k :
  <["metric-ram" := "Erro"]>
    (<["metric-cpu" := "Erro"]>
       (<["metric-queue-gdrive" := "Erro"]>
          (<["metric-queue-web" := "Erro"]>
             (<["metric-total-transcriptions" := "Erro"]> t)))) !! k
  = if bool_decide (k ∈ error_cards) then Some "Erro" else t !! k.
Proof.
  unfold error_cards.
  repeat match goal with
  | |- <[?id := _]> _ !! k = _ =>
      destruct (decide (id = k)) as [Hid|?];
      [by rewrite <- Hid, lookup_insert_eq | rewrite lookup_insert_ne by done]
  end.
  rewrite bool_decide_eq_false_2; [done|]. intros Hin.
  repeat (apply elem_of_cons in Hin; destruct Hin as [Hin|Hin]; [congruence|]).
  by apply elem_of_nil in Hin.
Qed.

Section FailedPoll.
Context {number : Type} `{JsNumber number}.

(** X3. When the status request fails (network failure, a status that is not
    2xx, a body that is not JSON) on a page that has the five cards of the
    [catch] block, the refresh ends normally with 'Erro' on those five
    cards; the two memory-size cards and everything else read as before,
    and one error is logged. *)
Theorem failed_poll_marks_cards (r : @fetch_result number) (p : dashboard) :
  poll_failed r = true ->
  Forall (fun id => is_Some (texts p !! id)) error_cards ->
  snd (updateDashboardCards_settle r p) = Ok tt
  /\ (forall k, texts (step p (StatusSettled r)) !! k
                = if bool_decide (k ∈ error_cards) then Some "Erro" else texts p !! k)
  /\ console (step p (StatusSettled r))
     = (console p ++ [LogError "Erro ao buscar/atualizar dados do dashboard:"])%list.
Proof.
  intros Hr Hp.
  set (p0 := mkDashboard (texts p) (console p) (pred (in_flight p))).
  assert (exists e, updateDashboardCards_try r p = (p0, Throw e)) as [e Etry].
  { unfold updateDashboardCards_try. rewrite (bind_ok _ _ p p0 tt) by done.
    destruct r as [|[] status [d|]]; try done; unfold bind, throw; simpl; eauto. }
  unfold step, handler, updateDashboardCards_settle, try_catch.
  rewrite Etry. simpl. rewrite (catch_exact e p0 Hp). simpl.
  split; [done|]. split; [|done]. intros k. apply lookup_after_catch.
Qed.
End FailedPoll.

(** ** The two channels on the system cards *)

Section ChannelsAgree.
Context {number : Type} `{JsNumber number}.

(** One guarded write of the push handler, on an element that exists:
    the text is written, or formatting throws and nothing is. *)
Lemma sse_system_write_cases (system : value number) k d id p :
  truthy system = true ->
  let w := (let* v := lift (prop system k) in
            let* t := lift (fixed_or_dash v d) in
            set_text (Some id) t) in
  (exists t, w p = (put id t p, Ok tt)) \/ (exists e, w p = (p, Throw e)).
Proof.
  intros Ht w. subst w. rewrite prop_truthy, bind_lift_ok by done.
  destruct (fixed_or_dash (field system k) d) as [t|e] eqn:E.
  - left. exists t. by rewrite bind_lift_ok.
  - right. exists e. done.
Qed.

Lemma poll_system_field_guarded (system : value number) k id d p :
  is_Some (texts p !! id) ->
  poll_system_field system k id d p
  = (let* v := lift (prop system k) in
     let* t := lift (fixed_or_dash v d) in
     set_text (Some id) t) p.
Proof.
  intros Hp. unfold poll_system_field.
  by rewrite (bind_ok _ _ _ _ _ (getElementById_present _ p Hp)).
Qed.

Lemma bind_throw {S A B} (m : JS S A) (k : A -> JS S B) s s' e :
  m s = (s', Throw e) -> bind m k s = (s', Throw e).
Proof. intros E. unfold bind. by rewrite E. Qed.

(** X4. On a page that has the four system cards, the push handler and the
    polled refresh treat a [system] group in exactly the same way, whatever
    the group holds: the same texts are written in the same order, and when
    a member is not a number both stop at the same card with the same
    error. *)
Theorem channels_agree_on_system_cards (system : value number) (p : dashboard) :
  Forall (fun id => is_Some (texts p !! id)) system_cards ->
  sse_system_block system p = poll_system_block system p.
Proof.
  intros Hp. repeat (apply Forall_cons in Hp as [? Hp]). clear Hp.
  unfold sse_system_block, poll_system_block, when.
  destruct (truthy system) eqn:Ht; [|done].
  rewrite (bind_ok _ _ _ _ _ (getElementById_present "metric-cpu" p ltac:(done))).
  rewrite (bind_ok _ _ _ _ _ (getElementById_present "metric-ram" p ltac:(done))).
  rewrite (bind_ok _ _ _ _ _ (getElementById_present "metric-ram-used" p ltac:(done))).
  rewrite (bind_ok _ _ _ _ _ (getElementById_present "metric-ram-total" p ltac:(done))).
  unfold if_el.
  destruct (sse_system_write_cases system "cpu_percent" 1 "metric-cpu" p Ht)
    as [[t1 E1]|[e E1]];
    [|by rewrite (bind_throw _ _ _ _ _ E1),
         (bind_throw _ _ p p e) by by rewrite poll_system_field_guarded].
  rewrite (bind_ok _ _ _ _ _ E1), (bind_ok _ _ p (put "metric-cpu" t1 p) tt)
    by by rewrite poll_system_field_guarded.
  set (p1 := put "metric-cpu" t1 p).
  assert (forall k, is_Some (texts p !! k) -> is_Some (texts p1 !! k)) as P1
      by (intros k; apply (present_put_opt _ (Some _))).
  destruct (sse_system_write_cases system "memory_percent" 1 "metric-ram" p1 Ht)
    as [[t2 E2]|[e E2]];
    [|by rewrite (bind_throw _ _ _ _ _ E2),
         (bind_throw _ _ p1 p1 e) by (rewrite poll_system_field_guarded; auto)].
  rewrite (bind_ok _ _ _ _ _ E2), (bind_ok _ _ p1 (put "metric-ram" t2 p1) tt)
    by (rewrite poll_system_field_guarded; auto).
  set (p2 := put "metric-ram" t2 p1).
  assert (forall k, is_Some (texts p !! k) -> is_Some (texts p2 !! k)) as P2
      by (intros k ?; apply (present_put_opt _ (Some _)); auto).
  destruct (sse_system_write_cases system "memory_used_gb" 2 "metric-ram-used" p2 Ht)
    as [[t3 E3]|[e E3]];
    [|by rewrite (bind_throw _ _ _ _ _ E3),
         (bind_throw _ _ p2 p2 e) by (rewrite poll_system_field_guarded; auto)].
  rewrite (bind_ok _ _ _ _ _ E3), (bind_ok _ _ p2 (put "metric-ram-used" t3 p2) tt)
    by (rewrite poll_system_field_guarded; auto).
  rewrite poll_system_field_guarded; [done|].
  apply (present_put_opt _ (Some _)); auto.
Qed.
End ChannelsAgree.

(** ** The push handler on a page that lacks some cards *)

Lemma getElementById_found id p :
  getElementById id p
  = (p, Ok (if bool_decide (is_Some (texts p !! id)) then Some id else None)).
Proof.
  unfold getElementById. destruct (texts p !! id) eqn:E.
  - by rewrite bool_decide_eq_true_2.
  - rewrite bool_decide_eq_false_2; [done|]. by intros [??].
Qed.

Lemma lookup_put_found p0 id o q k :
  texts (put_found p0 id o q) !! k
  = if String.eqb id k
    then if bool_decide (is_Some (texts p0 !! id))
         then match o with Some s => Some s | None => texts q !! k end
         else texts q !! k
    else texts q !! k.
Proof.
  unfold put_found. case_bool_decide; simpl; [|by destruct (String.eqb id k)].
  rewrite lookup_put_opt. by destruct o, (String.eqb id k).
Qed.

Lemma lookup_put_opt_eqb id o p k :
  texts (put_opt id o p) !! k
  = if String.eqb id k
    then match o with Some s => Some s | None => texts p !! k end
    else texts p !! k.
Proof. rewrite lookup_put_opt. by destruct o, (String.eqb id k). Qed.

Lemma lookup_put_opt_ne id o p k :
  id <> k -> texts (put_opt id o p) !! k = texts p !! k.
Proof.
  intros Hne. rewrite lookup_put_opt_eqb. by rewrite (proj2 (String.eqb_neq id k) Hne).
Qed.

Lemma lookup_put_opt_same k o p :
  texts (put_opt k o p) !! k = match o with Some s => Some s | None => texts p !! k end.
Proof. by rewrite lookup_put_opt_eqb, String.eqb_refl. Qed.

Lemma lookup_put_found_ne p0 id o q k :
  id <> k -> texts (put_found p0 id o q) !! k = texts q !! k.
Proof.
  intros Hne. rewrite lookup_put_found. by rewrite (proj2 (String.eqb_neq id k) Hne).
Qed.

Lemma lookup_put_found_same p0 k o q :
  is_Some (texts p0 !! k) ->
  texts (put_found p0 k o q) !! k
  = match o with Some s => Some s | None => texts q !! k end.
Proof.
  intros Hk. by rewrite lookup_put_found, String.eqb_refl, bool_decide_eq_true_2.
Qed.

Lemma put_found_same p0 q0 id o q :
  same_elements p0 q0 -> put_found q0 id o q = put_found p0 id o q.
Proof. intros Hs. unfold put_found. by rewrite (bool_decide_ext _ _ (Hs id)). Qed.

Lemma same_elements_put_found p0 id o q :
  same_elements p0 q -> same_elements p0 (put_found p0 id o q).
Proof.
  intros Hs k. rewrite lookup_put_found.
  destruct (String.eqb_spec id k) as [->|?]; [|apply Hs].
  case_bool_decide as Hk; [|apply Hs].
  destruct o; [|apply Hs]. split; [done|by eauto].
Qed.

Section MissingCards.
Context {number : Type} `{JsNumber number}.

Lemma if_el_system_write (system : value number) k d id p0 q :
  truthy system = true -> number_or_absent (field system k) = true ->
  let el := if bool_decide (is_Some (texts p0 !! id)) then Some id else None in
  if_el el
    (let* v := lift (prop system k) in
     let* t := lift (fixed_or_dash v d) in
     set_text el t) q
  = (put_found p0 id (system_text system k d) q, Ok tt).
Proof.
  intros Ht Hn el. subst el. unfold put_found, system_text. rewrite Ht.
  case_bool_decide; [|done]. by apply sse_system_write.
Qed.

Lemma sse_system_block_found (system : value number) p :
  system_ok system = true ->
  sse_system_block system p
  = (put_found p "metric-ram-total" (system_text system "memory_total_gb" 2)
       (put_found p "metric-ram-used" (system_text system "memory_used_gb" 2)
          (put_found p "metric-ram" (system_text system "memory_percent" 1)
             (put_found p "metric-cpu" (system_text system "cpu_percent" 1) p))),
     Ok tt).
Proof.
  intros Hok. unfold sse_system_block, when.
  destruct (truthy system) eqn:Ht.
  - destruct (system_ok_truthy _ Hok Ht) as (N1 & N2 & N3 & N4).
    rewrite !(bind_ok _ _ _ _ _ (getElementById_found _ p)).
    rewrite (bind_ok _ _ _ _ _ (if_el_system_write system _ _ _ p p Ht N1)).
    rewrite (bind_ok _ _ _ _ _ (if_el_system_write system _ _ _ p _ Ht N2)).
    rewrite (bind_ok _ _ _ _ _ (if_el_system_write system _ _ _ p _ Ht N3)).
    by rewrite (if_el_system_write system _ _ _ p _ Ht N4).
  - unfold put_found, system_text. rewrite Ht. simpl.
    by repeat case_bool_decide.
Qed.

Lemma if_el_queue_write (queue : value number) k id p0 q :
  truthy queue = true ->
  let el := if bool_decide (is_Some (texts p0 !! id)) then Some id else None in
  if_el el
    (let* v := lift (prop queue k) in
     set_text el (value_or_zero v)) q
  = (put_found p0 id (queue_text queue k) q, Ok tt).
Proof.
  intros Ht el. subst el. unfold put_found, queue_text. rewrite Ht.
  case_bool_decide; [|done]. simpl. by rewrite prop_truthy, bind_lift_ok.
Qed.

Lemma sse_queue_block_found (queue : value number) p :
  sse_queue_block queue p
  = (put_found p "metric-queue-gdrive" (queue_text queue "gdrive_size")
       (put_found p "metric-queue-web" (queue_text queue "web_size")
          (put_found p "metric-total-transcriptions"
             (queue_text queue "total_transcriptions") p)),
     Ok tt).
Proof.
  unfold sse_queue_block, when. destruct (truthy queue) eqn:Ht.
  - rewrite !(bind_ok _ _ _ _ _ (getElementById_found _ p)).
    rewrite (bind_ok _ _ _ _ _ (if_el_queue_write queue _ _ p p Ht)).
    rewrite (bind_ok _ _ _ _ _ (if_el_queue_write queue _ _ p _ Ht)).
    by rewrite (if_el_queue_write queue _ _ p _ Ht).
  - unfold put_found, queue_text. rewrite Ht. simpl.
    by repeat case_bool_decide.
Qed.

Lemma displayed_after_push (d : json number) (p : dashboard) (m : metric) :
  displayed m (after_push d p)
  = match (if is_system m
           then system_text (field (Some d) "system") (push_key m) (digits m)
           else queue_text (field (Some d) "queue") (push_key m)) with
    | Some s => Some s
    | None => displayed m p
    end.
Proof.
  unfold displayed, after_push.
  destruct m; cbn [element_of is_system push_key digits];
    repeat first [ rewrite lookup_put_opt_ne by done
                 | rewrite lookup_put_opt_same ];
    done.
Qed.

End MissingCards.

(** ** The polled refresh on a page that lacks a memory-size card *)

#[export] Instance keeps_preorder {S} (P : S -> Prop) : PreOrder (keeps P).
Proof.
  split; [intros s Hs; exact Hs|]. intros s1 s2 s3 H12 H23 Hs. apply H23, H12, Hs.
Qed.

Lemma fails_bind_l {S A B} (P : S -> Prop) (m : JS S A) (k : A -> JS S B) :
  fails P m -> fails P (bind m k).
Proof.
  intros Hm s Hs. destruct (Hm s Hs) as [[e He] HP]. unfold bind.
  destruct (m s) as [s' r]; simpl in *; subst. eauto.
Qed.

Lemma fails_bind_r {S A B} (P : S -> Prop) (m : JS S A) (k : A -> JS S B) :
  stable (keeps P) m -> (forall a, fails P (k a)) -> fails P (bind m k).
Proof.
  intros Hm Hk s Hs. specialize (Hm s Hs). unfold bind.
  destruct (m s) as [s' [a|e]]; simpl in *; [by apply Hk | eauto].
Qed.

Lemma fails_bind_lift {S A B} (P : S -> Prop) (r : outcome A) (k : A -> JS S B) :
  (forall a, r = Ok a -> fails P (k a)) -> fails P (bind (lift r) k).
Proof.
  intros Hk s Hs. unfold bind, lift. destruct r as [a|e]; [by apply Hk | eauto].
Qed.

Lemma keeps_lacks_texts_only missing : texts_only (keeps (lacks missing)).
Proof. intros p p' Ht [Hm Hp]. unfold lacks. by rewrite Ht. Qed.

Lemma may_write_lacks missing id s :
  id <> missing -> may_write (keeps (lacks missing)) id s.
Proof.
  intros Hne p [Hm Hp]. split; simpl.
  - by rewrite lookup_insert_ne.
  - eapply Forall_impl; [exact Hp|]. intros k Hk. simpl in Hk.
    destruct (decide (id = k)) as [->|?];
      [by rewrite lookup_insert_eq | by rewrite lookup_insert_ne].
Qed.

Section MissingMemoryCard.
Context {number : Type} `{JsNumber number}.

(** An unguarded write to an element that is missing throws. *)
Lemma fails_poll_system_field (system : value number) k d missing :
  fails (lacks missing) (poll_system_field system k missing d).
Proof.
  intros p Hp. pose proof Hp as [Hm _]. unfold poll_system_field.
  unfold bind at 1. unfold getElementById. rewrite Hm.
  unfold bind, lift, set_text, throw.
  destruct (prop system k) as [v|e]; simpl; [|by eauto].
  destruct (fixed_or_dash v d) as [t|e]; simpl; rewrite ?Hm; simpl; by eauto.
Qed.

Lemma stable_lacks_poll_system_field (system : value number) k id d missing :
  id <> missing -> stable (keeps (lacks missing)) (poll_system_field system k id d).
Proof.
  intros Hne. unfold poll_system_field.
  repeat stable_step; by apply may_write_lacks.
Qed.

Lemma fails_poll_system_block (system : value number) missing :
  truthy system = true ->
  missing = "metric-ram-used" \/ missing = "metric-ram-total" ->
  fails (lacks missing) (poll_system_block system).
Proof.
  intros Ht Hm. unfold poll_system_block, when. rewrite Ht.
  apply fails_bind_r; [apply stable_lacks_poll_system_field; by destruct Hm as [->| ->]|].
  intros _.
  apply fails_bind_r; [apply stable_lacks_poll_system_field; by destruct Hm as [->| ->]|].
  intros _. destruct Hm as [->| ->].
  - apply fails_bind_l, fails_poll_system_field.
  - apply fails_bind_r; [by apply stable_lacks_poll_system_field|].
    intros _. apply fails_poll_system_field.
Qed.

(** X6. The polled refresh does not guard its writes. On a page that has
    the five main cards but lacks one of the two memory-size cards, every
    answered status request that carries a [system] group ends in 'Erro' on
    the five main cards, although the request succeeded. *)
Theorem poll_needs_the_memory_size_cards
    (d : json number) (code : nat) (missing : string) (p : dashboard) :
  missing = "metric-ram-used" \/ missing = "metric-ram-total" ->
  truthy (field (Some d) "system") = true ->
  lacks missing p ->
  snd (updateDashboardCards_settle (Response true code (Some d)) p) = Ok tt
  /\ Forall (fun id => texts (step p (StatusSettled (Response true code (Some d)))) !! id
                       = Some "Erro") error_cards.
Proof.
  intros Hm Ht Hp.
  assert (d <> JNull) as Hd by (by intros ->).
  assert (fails (lacks missing) (updateDashboardCards_try (Response true code (Some d))))
    as Htry.
  { unfold updateDashboardCards_try.
    apply fails_bind_r; [apply stable_modify; by intros ? [??]|]. intros _.
    simpl negb. cbv iota. rewrite bind_ret.
    apply fails_bind_r;
      [apply stable_console_write; try apply _; apply keeps_lacks_texts_only|].
    intros _.
    rewrite prop_some_nonnull, bind_lift_ok by done.
    apply fails_bind_r;
      [apply stable_poll_queue_field; [apply _|];
       intros s; apply may_write_lacks; by destruct Hm as [->| ->]|].
    intros _. rewrite prop_some_nonnull, bind_lift_ok by done.
    apply fails_bind_r;
      [apply stable_poll_queue_field; [apply _|];
       intros s; apply may_write_lacks; by destruct Hm as [->| ->]|].
    intros _. rewrite prop_some_nonnull, bind_lift_ok by done.
    apply fails_bind_r;
      [apply stable_poll_queue_field; [apply _|];
       intros s; apply may_write_lacks; by destruct Hm as [->| ->]|].
    intros _. rewrite prop_some_nonnull, bind_lift_ok by done.
    by apply fails_bind_l, fails_poll_system_block. }
  destruct (Htry p Hp) as [[e He] [_ Hcards]].
  unfold step, handler, updateDashboardCards_settle, try_catch.
  destruct (updateDashboardCards_try (Response true code (Some d)) p) as [q r].
  simpl in He, Hcards. subst r. rewrite (catch_exact e q Hcards). simpl.
  split; [done|]. unfold error_cards.
  repeat (apply Forall_cons; split; [by rewrite lookup_after_catch|]).
  apply Forall_nil_2.
Qed.
End MissingMemoryCard.

(** ** The performance list *)

Lemma string_app_assoc (a b c : string) : (a ++ b) ++ c = a ++ (b ++ c).
Proof.
  induction a as [|x a IH]; [done|].
  change (String x ((a ++ b) ++ c) = String x (a ++ b ++ c)). by f_equal.
Qed.

Lemma string_app_nil_r (a : string) : a ++ "" = a.
Proof.
  induction a as [|x a IH]; [done|].
  change (String x (a ++ "") = String x a). by f_equal.
Qed.

Section PerformanceList.
Context {number : Type} `{JsNumber number}.

(** The loop appends one item per entry, in order. *)
Lemma model_items_fold (es : list (string * json number)) : forall html,
  forallb (fun kv => number_or_null (snd kv)) es = true ->
  model_items es html
  = Ok (html ++ fold_right (fun kv html => model_item kv ++ html) "" es).
Proof.
  induction es as [|[model v] es IH]; intros html Hes; simpl in *.
  - by rewrite string_app_nil_r.
  - apply andb_prop in Hes as [Hv Hes].
    unfold model_item. simpl.
    destruct v; try done; simpl; rewrite IH by done;
      by rewrite !string_app_assoc.
Qed.

(** X7. On a page that has the performance list and the average-time
    element, [updatePerformanceMetrics] given well-typed metrics shows one
    list item per model, in the order of the answer (['--'] for a speed
    that is [null]), or the placeholder item when there is no model, and
    the average time with two decimals, or ['-- segundos'] when it is
    [null] or missing; given no metrics at all it changes no element and
    logs one warning. It never throws. *)
Theorem performance_list_shows_each_model
    (metrics modelsInOutput : value number) (p : dashboard) :
  metrics_ok metrics = true ->
  is_Some (texts p !! "model-performance-list") ->
  is_Some (texts p !! "avg-process-time") ->
  updatePerformanceMetrics metrics modelsInOutput p = (after_performance metrics p, Ok tt).
Proof.
  intros Hok Hl Ha. unfold updatePerformanceMetrics, after_performance.
  rewrite (bind_ok _ _ _ _ _ (getElementById_present _ p Hl)).
  rewrite (bind_ok _ _ _ _ _ (getElementById_present _ p Ha)).
  rewrite !bool_decide_eq_false_2 by done. rewrite !orb_false_r.
  destruct (truthy metrics) eqn:Ht; simpl; [|done].
  unfold metrics_ok in Hok. rewrite Ht in Hok. simpl in Hok.
  apply andb_prop in Hok as [Hes Havg].
  rewrite prop_truthy, bind_lift_ok by done. cbv zeta.
  fold (speed_entries metrics) in *.
  set (p1 := put "model-performance-list" (performance_html (speed_entries metrics)) p).
  rewrite (bind_ok _ _ p p1 tt).
  - rewrite prop_truthy, bind_lift_ok by done. unfold average_text.
    destruct (field metrics "avg_process_time_sec") as [[]|]; try done.
  - unfold p1, performance_html. case_bool_decide as Hn.
    + rewrite model_items_fold, bind_lift_ok by done.
      destruct (speed_entries metrics); [simpl in Hn; lia | done].
    + destruct (speed_entries metrics); [done | simpl in Hn; lia].
Qed.
End PerformanceList.

(** * The simple upload component *)

(** Handlers of the component run on a page given field by field. *)
Ltac run_area := vm_compute; repeat split.

Section SimpleUploadProofs.
Context {number : Type} `{JsNumber number}.

(** X8. A click on the submit button never throws and posts at most one
    file: the first of the selected files, once, and nothing when no file
    is selected. When a file is selected the button ends enabled and
    reading 'Enviar Arquivo', whatever the request gave; when none is, the
    button is left as it was. *)
Theorem upload_click_posts_first_file_once (r : upload_reply number) (a : upload_area) :
  let a' := fst (submitBtn_click r a) in
  snd (submitBtn_click r a) = Ok tt
  /\ posted a' = (posted a ++ take 1 (fileInput_selected a))%list
  /\ match fileInput_selected a with
     | [] => submitBtn_off a' = submitBtn_off a /\ submitBtn_text a' = submitBtn_text a
     | _ => submitBtn_off a' = false /\ submitBtn_text a' = "Enviar Arquivo"
     end.
Proof.
  destruct a as [fs fb dp off tx dg co ps rl]. destruct fs as [|f fs].
  - simpl. by rewrite app_nil_r.
  - destruct r as [|[] statusText [j|]]; try (by run_area);
      destruct j; by run_area.
Qed.


Lemma area_step_follows (ev : area_event number) (a : upload_area) :
  button_follows_selection a -> button_follows_selection (area_step a ev).
Proof.
  unfold button_follows_selection, area_step.
  destruct a as [fs fb dp off tx dg co ps rl]. simpl. intros ->.
  destruct ev as [gs| | |gs|r]; simpl.
  - by destruct gs.
  - done.
  - done.
  - by destruct gs as [|g gs].
  - destruct fs as [|f fs]; [done|].
    destruct r as [|[] statusText [j|]]; try (by run_area);
      destruct j; by run_area.
Qed.

(** X10. The submit button is shown exactly when a file is selected. If
    that holds of the page as loaded, it holds after any sequence of
    picking files, dragging, dropping and clicking, whatever the requests
    give: a successful upload clears the selection and hides the button
    together, a failed one keeps both. *)
Theorem upload_button_shown_iff_file_selected
    (evs : list (area_event number)) (a : upload_area) :
  button_follows_selection a ->
  button_follows_selection (fold_left area_step evs a).
Proof.
  revert a. induction evs as [|ev evs IH]; intros a Ha; [done|].
  simpl. by apply IH, area_step_follows.
Qed.
End SimpleUploadProofs.

(** * More of the structured upload form *)

Section FormInvariants.
Context {number : Type} `{JsNumber number}.

Lemma upload_loop_sel (server : nat -> @fetch_result number) c m total fs i st g :
  sel (fst (upload_loop server c m total fs i st g)) = sel g
  /\ fileInput_files (fst (upload_loop server c m total fs i st g)) = fileInput_files g.
Proof. destruct st as [a k]. by rewrite upload_loop_spec. Qed.

(** What [submit] does to the selection: nothing, or what a 'change' of
    the course dropdown does; the files stay. *)
Lemma submit_cases (server : nat -> @fetch_result number) (f : form) :
  exists f',
    submit server f = (f', Ok tt)
    /\ fileInput_files f' = fileInput_files f
    /\ (sel f' = sel f
        \/ (courseSelect_value (sel f) <> ""
            /\ sel f' = sel (fst (courseSelect_dispatch_change f)))).
Proof.
  unfold submit. rewrite (bind_ok _ _ f f f) by done.
  set (c := str_or (trim (courseSelect_value (sel f))) (trim (newCourseInput_value (sel f)))).
  set (m := str_or (trim (moduleSelect_value (sel f))) (trim (newModuleInput_value (sel f)))).
  destruct (nonempty c) eqn:Ec; simpl; [|by eauto].
  destruct (nonempty m) eqn:Em; simpl; [|by eauto].
  destruct (Nat.eqb (List.length (fileInput_files f)) 0) eqn:En; [by eauto|].
  unfold set_submitBtn_disabled at 1. unfold showStructuredFeedback at 1.
  unfold bind at 1. unfold bind at 1. unfold modify at 1 2. simpl.
  unfold bind at 1. rewrite upload_loop_spec. simpl.
  match goal with
  | |- context [bool_decide ?P] => destruct (bool_decide P)
  end; [| unfold showStructuredFeedback, set_submitBtn_disabled, bind, modify; simpl;
          by eauto].
  unfold showStructuredFeedback, issue, bind, modify, get, when, ret,
    set_submitBtn_disabled. simpl.
  destruct (String.eqb (courseSelect_value (sel f)) c) eqn:Eq; [|by eauto].
  apply String.eqb_eq in Eq.
  assert (courseSelect_value (sel f) <> "") as Hne.
  { rewrite Eq. by apply nonempty_true. }
  apply nonempty_true in Hne.
  destruct f as [x fs sb fb co rq]. simpl in *.
  run_listener. rewrite Hne. simpl. rewrite Hne. simpl.
  eexists. split; [done|]. split; [done|]. right. split; [by apply nonempty_true | done].
Qed.

Lemma submit_sel (server : nat -> @fetch_result number) (f : form) :
  fileInput_files (fst (submit server f)) = fileInput_files f
  /\ (sel (fst (submit server f)) = sel f
      \/ (courseSelect_value (sel f) <> ""
          /\ sel (fst (submit server f)) = sel (fst (courseSelect_dispatch_change f)))).
Proof. by destruct (submit_cases server f) as (f' & -> & ? & ?). Qed.

Lemma user_step_blocks f ev :
  new_course_blocks_module (sel f) -> new_course_blocks_module (sel (user_step f ev)).
Proof.
  unfold new_course_blocks_module. destruct f as [x fs sb fb co rq]. simpl.
  intros Hx. destruct ev as [text|text|c|m]; run_listener.
  - destruct (nonempty (trim text)) eqn:E; simpl; [done|].
    apply nonempty_false in E. intros Ht. by rewrite E in Ht.
  - destruct (newModuleInput_disabled x) eqn:Ed; simpl;
      [|destruct (nonempty (trim text)) eqn:E; simpl];
      intros Ht; destruct (Hx Ht) as (? & ? & ? & ?); repeat split; congruence.
  - destruct (nonempty c) eqn:E; simpl; rewrite ?E; simpl.
    + intros Ht. by rewrite trim_empty in Ht.
    + intros Ht. by destruct (Hx Ht) as (_ & -> & _ & _).
  - destruct (moduleSelect_disabled x) eqn:Ed; simpl;
      [|destruct (nonempty m) eqn:E; simpl];
      intros Ht; destruct (Hx Ht) as (? & ? & ? & ?); repeat split; congruence.
Qed.

Lemma dispatch_change_sel (f : form) :
  courseSelect_value (sel f) <> "" ->
  sel (fst (courseSelect_dispatch_change f))
  = mkSelection (courseSelect_value (sel f)) "" ""
      [("", "-- Selecione um Módulo --")] false
      (newModuleInput_value (sel f)) false.
Proof.
  intros Hne%nonempty_true. destruct f as [x fs sb fb co rq]. simpl in *.
  run_listener. rewrite Hne. simpl. by rewrite Hne.
Qed.

Lemma courses_settled_sel (r : listing) (f : form) :
  snd (courses_settled r f) = Ok tt
  /\ requests (fst (courses_settled r f)) = requests f
  /\ fileInput_files (fst (courses_settled r f)) = fileInput_files f
  /\ (sel (fst (courses_settled r f)) = sel f
      \/ sel (fst (courses_settled r f)) = set_courseSelect_value "" (sel f)).
Proof.
  destruct f as [x fs sb fb co rq].
  destruct r as [|[] status [names|]];
    unfold courses_settled, try_catch, bind, throw, form_log, showStructuredFeedback,
      with_sel, modify; simpl; auto.
  - destruct (Nat.eqb status 404); simpl; auto.
  - destruct (Nat.eqb status 404); simpl; auto.
Qed.

Lemma modules_settled_sel (c : string) (r : listing) (f : form) :
  snd (modules_settled c r f) = Ok tt
  /\ requests (fst (modules_settled c r f)) = requests f
  /\ fileInput_files (fst (modules_settled c r f)) = fileInput_files f
  /\ (sel (fst (modules_settled c r f)) = sel f
      \/ (exists text, sel (fst (modules_settled c r f))
                       = set_moduleSelect_placeholder text (sel f))
      \/ (exists names, sel (fst (modules_settled c r f))
                        = append_module_options names (sel f))).
Proof.
  destruct f as [x fs sb fb co rq].
  destruct r as [|[] status [names|]];
    unfold modules_settled, try_catch, bind, throw, form_log, showStructuredFeedback,
      with_sel, modify; simpl; auto.
  - case_bool_decide; simpl; eauto 10.
  - destruct (Nat.eqb status 404); simpl; eauto 10.
  - destruct (Nat.eqb status 404); simpl; eauto 10.
Qed.

Lemma form_step_exclusive (ev : form_event number) (f : form) :
  exclusive (sel f) -> exclusive (sel (form_step f ev)).
Proof.
  intros Hx. destruct ev as [ev|r|c r|server]; unfold form_step; simpl.
  - by apply user_step_exclusive.
  - destruct (courses_settled_sel r f) as (_ & _ & _ & [-> | ->]); [done|].
    destruct Hx as [_ Hm]. split; [by left | done].
  - destruct (modules_settled_sel c r f) as (_ & _ & _ & [-> | [[text ->] | [names ->]]]);
      [done | | done].
    destruct Hx as [Hc _]. split; [done | by left].
  - destruct (submit_sel server f) as (_ & [-> | [Hne ->]]); [done|].
    rewrite dispatch_change_sel by done. split; [by right | by left].
Qed.

Lemma form_step_blocks (ev : form_event number) (f : form) :
  new_course_blocks_module (sel f) -> new_course_blocks_module (sel (form_step f ev)).
Proof.
  intros Hx. destruct ev as [ev|r|c r|server]; unfold form_step; simpl.
  - by apply user_step_blocks.
  - by destruct (courses_settled_sel r f) as (_ & _ & _ & [-> | ->]).
  - destruct (modules_settled_sel c r f) as (_ & _ & _ & [-> | [[text ->] | [names ->]]]);
      [done | | done].
    intros Ht. by destruct (Hx Ht) as (_ & ? & ? & ?).
  - destruct (submit_sel server f) as (_ & [-> | [Hne ->]]); [done|].
    rewrite dispatch_change_sel by done. intros Ht. simpl in Ht.
    by rewrite trim_empty in Ht.
Qed.

Lemma form_steps_blocks (evs : list (form_event number)) : forall f,
  new_course_blocks_module (sel f) ->
  new_course_blocks_module (sel (fold_left form_step evs f)).
Proof.
  induction evs as [|ev evs IH]; intros f Hf; [done|].
  simpl. by apply IH, form_step_blocks.
Qed.

(** X11. The selection stays exclusive under everything that happens to the
    form, not only under what the user does to the four controls: if at
    each level a selected option and a typed name that is not blank do not
    coexist, they do not after a listing of courses or modules arrived,
    whatever it holds, nor after a submission, whatever the requests
    gave. *)
Theorem selection_stays_exclusive_under_all_events
    (evs : list (form_event number)) (f : form) :
  exclusive (sel f) -> exclusive (sel (fold_left form_step evs f)).
Proof.
  revert f. induction evs as [|ev evs IH]; intros f Hf; [done|].
  simpl. by apply IH, form_step_exclusive.
Qed.

(** X12. A new course cannot be uploaded to. Typing a course name disables
    and clears the module controls, and nothing re-enables them while the
    name stands: so, from a form where that holds (the empty form, say),
    after any sequence of user actions, listings and submissions, a
    submission made while the new-course field holds a name is rejected
    with the module warning, and no request leaves. *)
Theorem new_course_is_never_submitted
    (evs : list (form_event number)) (server : nat -> @fetch_result number) (f : form) :
  new_course_blocks_module (sel f) ->
  let g := fold_left form_step evs f in
  trim (newCourseInput_value (sel g)) <> "" ->
  submit server g
  = (mkForm (sel g) (fileInput_files g) (submitBtn_disabled g)
       (feedback g
        ++ [("Por favor, selecione um módulo existente ou digite o nome de um novo.",
             "warning")])
       (form_console g) (requests g),
     Ok tt).
Proof.
  intros Hf g Ht.
  pose proof (form_steps_blocks evs f Hf) as Hg. fold g in Hg. clearbody g.
  destruct (Hg Ht) as (Hm & Hn & _ & _).
  unfold submit. rewrite (bind_ok _ _ g g g) by done.
  rewrite Hm, Hn, trim_empty.
  assert (nonempty (str_or (trim (courseSelect_value (sel g)))
                           (trim (newCourseInput_value (sel g)))) = true) as ->.
  { unfold str_or. destruct (nonempty (trim (courseSelect_value (sel g)))) eqn:E;
      [done | by apply nonempty_true]. }
  done.
Qed.
End FormInvariants.

Section FormRefresh.
Context {number : Type} `{JsNumber number}.

Lemma filter_listing_uploads c m (fs : list file) :
  filter (fun r => is_listing r = true) (map (fun file => PostUploadStructured file c m) fs)
  = [].
Proof.
  induction fs as [|x fs IH]; [done|].
  simpl. rewrite filter_cons. by case_decide.
Qed.

Lemma submit_refresh (server : nat -> @fetch_result number) (f : form) (c m : string) :
  c = str_or (trim (courseSelect_value (sel f))) (trim (newCourseInput_value (sel f))) ->
  m = str_or (trim (moduleSelect_value (sel f))) (trim (newModuleInput_value (sel f))) ->
  c <> "" -> m <> "" -> fileInput_files f <> [] ->
  exists f',
    submit server f = (f', Ok tt)
    /\ fileInput_files f' = fileInput_files f
    /\ filter (fun r => is_listing r = true) (requests f')
       = (filter (fun r => is_listing r = true) (requests f)
          ++ if all_succeeded server (List.length (fileInput_files f))
             then GetCourses
                  :: (if String.eqb (courseSelect_value (sel f)) c
                      then [GetModules c] else [])
             else [])%list
    /\ (all_succeeded server (List.length (fileInput_files f)) = false -> sel f' = sel f).
Proof.
  intros Hc Hm Hcne Hmne Hfs. unfold submit.
  rewrite (bind_ok _ _ f f f) by done. rewrite <- Hc, <- Hm.
  apply nonempty_true in Hcne, Hmne. rewrite Hcne, Hmne. simpl.
  destruct (Nat.eqb (List.length (fileInput_files f)) 0) eqn:En.
  { apply Nat.eqb_eq in En. by destruct (fileInput_files f). }
  unfold set_submitBtn_disabled at 1. unfold showStructuredFeedback at 1.
  unfold bind at 1. unfold bind at 1. unfold modify at 1 2. simpl.
  unfold bind at 1. rewrite upload_loop_spec. simpl.
  unfold all_succeeded.
  case_bool_decide as Hall.
  - rewrite (proj2 (Nat.eqb_eq _ _) Hall).
    unfold showStructuredFeedback, issue, bind, modify, get, when, ret,
      set_submitBtn_disabled. simpl.
    destruct (String.eqb (courseSelect_value (sel f)) c) eqn:Eq.
    + apply String.eqb_eq in Eq.
      destruct f as [x fs sb fb co rq]. simpl in *.
      run_listener. rewrite Eq, Hcne. simpl. rewrite Eq, Hcne. simpl.
      eexists. split; [done|]. simpl. split; [done|]. split; [|done].
      rewrite !filter_app, filter_listing_uploads. simpl.
      by rewrite !filter_cons, filter_nil, app_nil_r, <- app_assoc.
    + eexists. split; [done|]. simpl. split; [done|]. split; [|done].
      rewrite !filter_app, filter_listing_uploads. simpl.
      by rewrite !filter_cons, filter_nil, app_nil_r.
  - apply Nat.eqb_neq in Hall. rewrite Hall.
    unfold showStructuredFeedback, issue, bind, modify, get, when, ret,
      set_submitBtn_disabled. simpl.
    eexists. split; [done|]. simpl. split; [done|]. split; [|done].
    by rewrite !filter_app, filter_listing_uploads, !app_nil_r.
Qed.

(** X13. A valid submission never changes the selected files, and it asks for
    the lists again exactly when every file went through: then the courses
    are requested, and the modules of the selected course too when the
    course dropdown holds the target course; after a batch with a failure
    no listing is requested and the selection is as it was. *)
Theorem submission_refreshes_lists_after_full_success
    (server : nat -> @fetch_result number) (f : form) (c m : string) :
  c = str_or (trim (courseSelect_value (sel f))) (trim (newCourseInput_value (sel f))) ->
  m = str_or (trim (moduleSelect_value (sel f))) (trim (newModuleInput_value (sel f))) ->
  c <> "" -> m <> "" -> fileInput_files f <> [] ->
  let f' := fst (submit server f) in
  fileInput_files f' = fileInput_files f
  /\ filter (fun r => is_listing r = true) (requests f')
     = (filter (fun r => is_listing r = true) (requests f)
        ++ if all_succeeded server (List.length (fileInput_files f))
           then GetCourses
                :: (if String.eqb (courseSelect_value (sel f)) c
                    then [GetModules c] else [])
           else [])%list
  /\ (all_succeeded server (List.length (fileInput_files f)) = false -> sel f' = sel f).
Proof.
  intros Hc Hm Hcne Hmne Hfs f'. subst f'.
  by destruct (submit_refresh server f c m Hc Hm Hcne Hmne Hfs) as (g & -> & ?).
Qed.

(** X14. Choosing a course asks for its modules, once, and enables the two
    module controls; when the listing arrives with names, the module
    dropdown offers the placeholder followed by the names in the order of
    the answer; with an empty listing, or a 404, it offers the one option
    saying that no module was found. No module is selected either way. *)
Theorem chosen_course_lists_its_modules
    (f : form) (c : string) (r : listing) (names : list string) :
  c <> "" ->
  r = Listing true 200 (Some names) \/ (names = [] /\ r = Listing false 404 None) ->
  let g := user_step f (ChooseCourse c) in
  let g' := fst (modules_settled c r g) in
  requests g = (requests f ++ [GetModules c])%list
  /\ requests g' = requests g
  /\ moduleSelect_options (sel g') = module_options names
  /\ moduleSelect_value (sel g') = ""
  /\ moduleSelect_disabled (sel g') = false
  /\ newModuleInput_disabled (sel g') = false
  /\ feedback g' = feedback f.
Proof.
  intros Hc%nonempty_true Hr. destruct f as [x fs sb fb co rq].
  destruct Hr as [-> | [-> ->]].
  - run_listener. rewrite Hc. simpl. rewrite Hc. simpl.
    unfold modules_settled, try_catch, with_sel, modify. simpl.
    destruct names as [|n names]; simpl; done.
  - run_listener. rewrite Hc. simpl. rewrite Hc. simpl.
    by unfold modules_settled, try_catch, bind, form_log, with_sel, modify.
Qed.
End FormRefresh.

(** * More of the React pages *)

Section RemoveFile.
Context {number : Type} `{JsNumber number}.

Lemma filter_other_names (name : string) (fs : list file) :
  name ∉ map file_name fs ->
  filter (fun file => file_name file <> name) fs = fs.
Proof.
  induction fs as [|g fs IH]; intros Hn; [done|].
  simpl in Hn. apply not_elem_of_cons in Hn as [Hg Hn].
  rewrite filter_cons. case_decide; [by rewrite IH | congruence].
Qed.

Lemma filter_name_length (name : string) (fs : list file) :
  List.length (filter (fun file => file_name file <> name) fs)
  + List.length (filter (fun file => file_name file = name) fs)
  = List.length fs.
Proof.
  induction fs as [|g fs IH]; [done|].
  rewrite !filter_cons. repeat case_decide; simpl; try congruence; lia.
Qed.

(** X15. [removeFile] goes by name. It removes every selected file of that
    name and keeps the others, each as often as it was selected and in
    their order, touching nothing else; when the selected files have
    distinct names, removing the name of the file at some position removes
    that file only. *)
Theorem removing_a_file_removes_its_namesakes
    (name : string) (s : upload_page number) :
  let s' := fst (removeFile name s) in
  (forall g, g ∈ files s' <-> g ∈ files s /\ file_name g <> name)
  /\ uploading s' = uploading s /\ uploadResults s' = uploadResults s /\ error s' = error s
  /\ (NoDup (map file_name (files s)) ->
      forall i f, files s !! i = Some f -> file_name f = name ->
                  files s' = delete i (files s))
  /\ files s' `sublist_of` files s
  /\ List.length (files s')
     + List.length (filter (fun file => file_name file = name) (files s))
     = List.length (files s).
Proof.
  unfold removeFile, bind, get, setFiles, modify. simpl.
  split; [intros g; rewrite list_elem_of_filter; tauto|].
  do 3 (split; [done|]).
  split; [|split; [apply sublist_filter | apply filter_name_length]].
  generalize (files s). clear s. intros fs.
  induction fs as [|g fs IH]; intros Hnd i f Hi Hf; [done|].
  simpl in Hnd. apply NoDup_cons in Hnd as [Hg Hnd].
  rewrite filter_cons. destruct i as [|i]; simpl in *.
  - injection Hi as ->. case_decide; [done|].
    apply filter_other_names. by rewrite <- Hf.
  - case_decide as Hgn.
    + f_equal. by apply (IH Hnd i f).
    + exfalso. apply Hg. rewrite Hgn, <- Hf.
      apply list_elem_of_fmap. exists f. split; [done|].
      by apply list_elem_of_lookup_2 in Hi.
Qed.

(** X16. What an entry of the results holds. An entry carries the name of
    its file. For a request that was rejected it has the status 'error', no
    task id and, as its message, the [detail] of the error's response
    whenever there is a response with a truthy [detail] (stored as it came,
    whatever its JSON type), and 'Erro no upload' otherwise. For a request
    that resolved with a readable body it has the status 'success' and the
    task id and the message of the answer; with a body that cannot be read
    it is an error entry with 'Erro no upload'. The message of an error
    entry is never falsy. *)
Theorem error_entries_carry_a_message (r : axios_result number) (f : file) :
  let entry := upload_entry r f in
  filename entry = file_name f
  /\ match r with
     | AxiosResolved data =>
         if resolved r
         then status entry = StatusSuccess
              /\ taskId entry = field data "task_id"
              /\ result_message entry = field data "message"
         else status entry = StatusError
              /\ taskId entry = None
              /\ result_message entry = Some (JStr "Erro no upload")
     | AxiosRejected response_data =>
         let detail := field (default None response_data) "detail" in
         status entry = StatusError
         /\ taskId entry = None
         /\ result_message entry
            = (if truthy detail then detail else Some (JStr "Erro no upload"))
     end
  /\ (status entry = StatusError -> truthy (result_message entry) = true).
Proof.
  destruct r as [data|rd]; cbn zeta.
  - split; [by destruct data as [[]|]|]. split.
    + unfold field. by destruct data as [[]|].
    + destruct data as [[| | | | |kvs]|]; simpl; try done.
  - split; [done|]. unfold error_detail, or_else, field.
    assert (forall v : value number,
              truthy (if truthy v then v else Some (JStr "Erro no upload")) = true) as Ht.
    { intros v. by destruct (truthy v) eqn:E. }
    split.
    + split; [done|]. split; [done|]. simpl.
      by destruct rd as [[[]|]|].
    + intros _. simpl. destruct rd as [[[]|]|]; simpl; try done; apply Ht.
Qed.
End RemoveFile.

Section Transcriptions.
Import TranscriptionsPage.
Context {number : Type} `{JsNumber number}.

Lemma page_step_transcriptions (s : page number) (ev : page_event number) :
  transcriptions (page_step s ev)
  = match ev with
    | Fetched (GetResolved d) => d
    | _ => transcriptions s
    end.
Proof. by destruct ev as [|[]]. Qed.

Lemma page_steps_loading (evs : list (page_event number)) : forall s,
  loading s = false -> loading (fold_left page_step evs s) = false.
Proof.
  induction evs as [|ev evs IH]; intros s Hs; [done|].
  simpl. apply IH. by destruct ev as [|[]].
Qed.

End Transcriptions.

(** * The list of completed transcriptions *)

Section CompletedTranscriptionsProofs.
Context {number : Type} `{JsNumber number}.
Context (formatBytes : value number -> string).
Context (encodeURIComponent : value number -> outcome string).

Lemma transcription_rows_fold (items : list (json number)) : forall html,
  listing_ok formatBytes encodeURIComponent items = true ->
  transcription_rows formatBytes encodeURIComponent items html
  = Ok (html ++ rows_html formatBytes encodeURIComponent items).
Proof.
  induction items as [|item items IH]; intros html Hok; simpl in *.
  - by rewrite string_app_nil_r.
  - apply andb_prop in Hok as [Hitem Hok].
    destruct (transcription_row formatBytes encodeURIComponent item) as [t|e]; [|done].
    rewrite IH by done. by rewrite string_app_assoc.
Qed.

Lemma transcription_rows_throw (items : list (json number)) : forall html,
  listing_ok formatBytes encodeURIComponent items = false ->
  exists e, transcription_rows formatBytes encodeURIComponent items html = Throw e.
Proof.
  induction items as [|item items IH]; intros html Hok; simpl in *; [done|].
  destruct (transcription_row formatBytes encodeURIComponent item) as [t|e]; [|by eauto]. by apply IH.
Qed.


Lemma load_with_table_body (r : @fetch_result number) (p : dashboard) :
  is_Some (texts p !! "completed-transcriptions-body") ->
  exists t logs,
    loadCompletedTranscriptions formatBytes encodeURIComponent r p
    = (mkDashboard (<["completed-transcriptions-body" := t]> (texts p))
         (console p ++ logs) (in_flight p), Ok tt)
    /\ (listing_usable formatBytes encodeURIComponent r = false ->
        exists msg,
          t = message_row "text-center text-danger" ("Erro ao carregar: " ++ msg)).
Proof.
  intros Hp. unfold loadCompletedTranscriptions.
  rewrite (bind_ok _ _ _ _ _ (getElementById_present _ p Hp)).
  set (p1 := put "completed-transcriptions-body"
               (message_row "text-center" "Carregando...") p).
  rewrite (bind_ok _ _ p p1 tt) by done.
  assert (forall (m : JS dashboard unit) h e,
            m p1 = (p1, Throw e) ->
            h = (fun error : exn =>
                   console_error "Erro ao carregar transcrições:" ;;
                   set_text (Some "completed-transcriptions-body")
                     (message_row "text-center text-danger"
                                  ("Erro ao carregar: " ++ message error))) ->
            try_catch m h p1
            = (mkDashboard
                 (<["completed-transcriptions-body" :=
                      message_row "text-center text-danger"
                                  ("Erro ao carregar: " ++ message e)]> (texts p))
                 (console p ++ [LogError "Erro ao carregar transcrições:"])
                 (in_flight p), Ok tt)) as Hfail.
  { intros m h e Hm ->. unfold try_catch. rewrite Hm.
    unfold bind, console_error, console_write, set_text, modify. simpl.
    by rewrite insert_insert_eq. }
  assert (forall (m : JS dashboard unit) h t,
            m p1 = (put "completed-transcriptions-body" t p1, Ok tt) ->
            try_catch m h p1
            = (mkDashboard (<["completed-transcriptions-body" := t]> (texts p))
                 (console p ++ []) (in_flight p), Ok tt)) as Hgood.
  { intros m h t Hm. unfold try_catch. rewrite Hm. unfold put. simpl.
    by rewrite insert_insert_eq, app_nil_r. }
  destruct r as [|[] code [j|]]; simpl negb; cbv iota;
    try (erewrite Hfail; [by eauto 10 | done | done]).
  rewrite bind_ret.
  destruct (length_is_zero (Some j)) as [[]|e] eqn:El.
  - erewrite Hgood; [|by rewrite bind_lift_ok].
    do 2 eexists. split; [done|]. unfold listing_usable. by rewrite El.
  - rewrite bind_lift_ok. cbv iota.
    destruct j as [| | | |items|];
      try (erewrite Hfail; [by eauto 10 | done | done]).
    change (forEach_items (Some (JArr items))) with (Ok items).
    rewrite bind_lift_ok.
    destruct (listing_ok formatBytes encodeURIComponent items) eqn:Hok.
    + erewrite Hgood; [|by rewrite transcription_rows_fold, bind_lift_ok].
      do 2 eexists. split; [done|]. unfold listing_usable. by rewrite El, Hok.
    + destruct (transcription_rows_throw items "" Hok) as [e He].
      erewrite Hfail; [by eauto 10 | by rewrite He | done].
  - erewrite Hfail; [by eauto 10 | done | done].
Qed.

Lemma load_without_table_body (r : @fetch_result number) (p : dashboard) :
  texts p !! "completed-transcriptions-body" = None ->
  loadCompletedTranscriptions formatBytes encodeURIComponent r p
  = (mkDashboard (texts p)
       (console p
        ++ [LogWarn "Elemento 'completed-transcriptions-body' não encontrado."])
       (in_flight p), Ok tt).
Proof.
  intros Hp. unfold loadCompletedTranscriptions, bind, getElementById. by rewrite Hp.
Qed.

End CompletedTranscriptionsProofs.

(** * Changing the model *)

Section ModelChangeProofs.
Context {number : Type} `{JsNumber number}.

Lemma model_change_run (r : @fetch_result number) (s : model_panel) :
  exists s',
    applyModelBtn_onclick r s = (s', Ok tt)
    /\ modelSelect_value s' = modelSelect_value s
    /\ model_posts s'
       = (model_posts s
          ++ if nonempty (modelSelect_value s) then [modelSelect_value s] else [])%list
    /\ (modelFeedback s = None -> modelFeedback s' = None)
    /\ (forall shown, modelFeedback s = Some shown ->
        (modelSelect_value s = "" ->
         modelFeedback s'
         = Some ("Por favor, selecione um modelo.", shown.1.2, shown.2))
        /\ (modelSelect_value s <> "" ->
            forall code j, j <> JNull ->
              (r = Response false code (Some j) ->
               modelFeedback s'
               = Some ("Erro: "
                       ++ message (upload_error (field (Some j) "detail") code),
                       "alert alert-danger", "block"))
              /\ (r = Response true code (Some j) ->
                  modelFeedback s'
                  = Some (text_of_value (field (Some j) "message"),
                          "alert alert-warning", "block")))).
Proof.
  destruct s as [v fb co ps]. unfold applyModelBtn_onclick.
  rewrite (bind_ok _ _ (mkModelPanel v fb co ps) (mkModelPanel v fb co ps)
             (mkModelPanel v fb co ps)) by done.
  cbv zeta. cbn [modelSelect_value modelFeedback panel_console model_posts].
  destruct (nonempty v) eqn:Ev; cbn [negb].
  - apply nonempty_true in Ev.
    destruct r as [|ok code [j|]]; [| |].
    + eexists. split; [reflexivity|]. split; [done|]. split; [done|].
      split; [by intros ->|]. intros shown ->. split; [done|].
      intros _ code j Hj. by split.
    + destruct fb as [[[t c] d]|].
      * destruct ok, j as [| | | | |kvs];
          (eexists; split; [reflexivity|]; split; [done|]; split; [done|];
           split; [done|]; intros shown [=]; subst; split; [done|];
           intros _ code' j' Hj'; split; intros [=]; by subst).
      * destruct ok, j as [| | | | |kvs];
          (eexists; split; [reflexivity|]; split; [done|]; split; [done|];
           split; [done|]; by intros shown [=]).
    + destruct ok;
        (eexists; split; [reflexivity|]; split; [done|]; split; [done|];
         split; [by intros ->|]; intros shown ->; split; [done|];
         intros _ code' j' Hj'; by split).
  - apply nonempty_false in Ev. subst v.
    eexists. split; [reflexivity|]. split; [done|]. split; [by simpl; rewrite app_nil_r|].
    split; [by intros ->|]. intros [[t c] d] ->. split; [done|]. by intros [].
Qed.

Lemma message_upload_error (detail : value number) (code : nat) :
  message (upload_error detail code)
  = match detail with
    | Some d => if truthy detail then ToString d else "Erro " ++ pretty code
    | None => "Erro " ++ pretty code
    end.
Proof. by destruct detail. Qed.

End ModelChangeProofs.

(** * The properties above on concrete inputs *)

Lemma poll_writes_only_its_elements_witness :
  ("system-status" ∉ poll_elements)
  /\ texts (step page0 (StatusSettled empty_snapshot)) !! "system-status"
     = texts page0 !! "system-status".
Proof.
  assert ("system-status" ∉ poll_elements) as Hk.
  { intros Hin.
    repeat (apply elem_of_cons in Hin; destruct Hin as [Hin|Hin]; [discriminate|]).
    by apply elem_of_nil in Hin. }
  split; [exact Hk|].
  exact (poll_writes_only_its_elements empty_snapshot page0 "system-status" Hk).
Defined.

Lemma push_writes_only_its_elements_witness :
  is_push (SseMessage (Some push_workers_running)) = true
  /\ in_flight (step page0 (SseMessage (Some push_workers_running))) = in_flight page0.
Proof.
  assert (is_push (SseMessage (Some push_workers_running)) = true) as Hev by reflexivity.
  split; [exact Hev|].
  exact (proj1 (push_writes_only_its_elements
                  (SseMessage (Some push_workers_running)) page0 Hev)).
Defined.

Lemma failed_poll_marks_cards_witness :
  poll_failed (@NetworkFailure Z) = true
  /\ Forall (fun id => is_Some (texts page0 !! id)) error_cards
  /\ snd (updateDashboardCards_settle (@NetworkFailure Z) page0) = Ok tt.
Proof.
  assert (poll_failed (@NetworkFailure Z) = true) as Hr by reflexivity.
  assert (Forall (fun id => is_Some (texts page0 !! id)) error_cards) as Hp
    by (repeat constructor; vm_compute; eauto).
  split; [exact Hr|]. split; [exact Hp|].
  exact (proj1 (failed_poll_marks_cards NetworkFailure page0 Hr Hp)).
Defined.

Lemma channels_agree_on_system_cards_witness :
  Forall (fun id => is_Some (texts page0 !! id)) system_cards
  /\ sse_system_block system_cpu_40 page0 = poll_system_block system_cpu_40 page0.
Proof.
  assert (Forall (fun id => is_Some (texts page0 !! id)) system_cards) as Hp
    by (repeat constructor; vm_compute; eauto).
  split; [exact Hp|].
  exact (channels_agree_on_system_cards system_cpu_40 page0 Hp).
Defined.


Lemma poll_needs_the_memory_size_cards_witness :
  ("metric-ram-used" = "metric-ram-used" \/ "metric-ram-used" = "metric-ram-total")
  /\ truthy (field (Some data_cpu_40) "system") = true
  /\ lacks "metric-ram-used" page_five_cards
  /\ Forall (fun id =>
               texts (step page_five_cards
                           (StatusSettled (Response true 200 (Some data_cpu_40)))) !! id
               = Some "Erro") error_cards.
Proof.
  assert ("metric-ram-used" = "metric-ram-used" \/ "metric-ram-used" = "metric-ram-total")
    as Hm by (left; reflexivity).
  assert (truthy (field (Some data_cpu_40) "system") = true) as Ht by reflexivity.
  assert (lacks "metric-ram-used" page_five_cards) as Hp
    by (split; [reflexivity | repeat constructor; vm_compute; eauto]).
  split; [exact Hm|]. split; [exact Ht|]. split; [exact Hp|].
  exact (proj2 (poll_needs_the_memory_size_cards data_cpu_40 200 "metric-ram-used"
                  page_five_cards Hm Ht Hp)).
Defined.

Lemma performance_list_shows_each_model_witness :
  metrics_ok metrics_two_models = true
  /\ is_Some (texts page0 !! "model-performance-list")
  /\ is_Some (texts page0 !! "avg-process-time")
  /\ updatePerformanceMetrics metrics_two_models None page0
     = (after_performance metrics_two_models page0, Ok tt).
Proof.
  assert (metrics_ok metrics_two_models = true) as Hok by reflexivity.
  assert (is_Some (texts page0 !! "model-performance-list")) as Hl by (vm_compute; eauto).
  assert (is_Some (texts page0 !! "avg-process-time")) as Ha by (vm_compute; eauto).
  split; [exact Hok|]. split; [exact Hl|]. split; [exact Ha|].
  exact (performance_list_shows_each_model metrics_two_models None page0 Hok Hl Ha).
Defined.


Lemma upload_button_shown_iff_file_selected_witness :
  button_follows_selection area_empty
  /\ button_follows_selection (fold_left area_step pick_and_send area_empty).
Proof.
  assert (button_follows_selection area_empty) as Ha by reflexivity.
  split; [exact Ha|].
  exact (upload_button_shown_iff_file_selected pick_and_send area_empty Ha).
Defined.

Lemma selection_stays_exclusive_under_all_events_witness :
  exclusive (sel empty_form)
  /\ exclusive (sel (fold_left form_step choose_list_submit empty_form)).
Proof.
  assert (exclusive (sel empty_form)) as H0 by (split; by left).
  split; [exact H0|].
  exact (selection_stays_exclusive_under_all_events choose_list_submit empty_form H0).
Defined.

Lemma new_course_is_never_submitted_witness :
  new_course_blocks_module (sel empty_form)
  /\ trim (newCourseInput_value (sel (fold_left form_step type_quimica empty_form))) <> ""
  /\ requests (fst (submit second_and_fourth_fail
                      (fold_left form_step type_quimica empty_form)))
     = requests (fold_left form_step type_quimica empty_form).
Proof.
  assert (new_course_blocks_module (sel empty_form)) as H0
    by (intros Hc; exfalso; apply Hc; reflexivity).
  assert (trim (newCourseInput_value
                  (sel (fold_left form_step type_quimica empty_form))) <> "") as Ht
    by (vm_compute; discriminate).
  split; [exact H0|]. split; [exact Ht|].
  exact (f_equal (fun out => requests (fst out))
           (new_course_is_never_submitted type_quimica second_and_fourth_fail
              empty_form H0 Ht)).
Defined.

Lemma submission_refreshes_lists_after_full_success_witness :
  "Fisica" = str_or (trim (courseSelect_value (sel form_five_files)))
                    (trim (newCourseInput_value (sel form_five_files)))
  /\ "Aula 1" = str_or (trim (moduleSelect_value (sel form_five_files)))
                       (trim (newModuleInput_value (sel form_five_files)))
  /\ "Fisica" <> "" /\ "Aula 1" <> "" /\ fileInput_files form_five_files <> []
  /\ fileInput_files (fst (submit second_and_fourth_fail form_five_files))
     = fileInput_files form_five_files.
Proof.
  assert ("Fisica" = str_or (trim (courseSelect_value (sel form_five_files)))
                            (trim (newCourseInput_value (sel form_five_files)))) as Hc
    by reflexivity.
  assert ("Aula 1" = str_or (trim (moduleSelect_value (sel form_five_files)))
                            (trim (newModuleInput_value (sel form_five_files)))) as Hm
    by reflexivity.
  assert ("Fisica" <> "") as Hcn by discriminate.
  assert ("Aula 1" <> "") as Hmn by discriminate.
  assert (fileInput_files form_five_files <> []) as Hfs by discriminate.
  split; [exact Hc|]. split; [exact Hm|]. split; [exact Hcn|]. split; [exact Hmn|].
  split; [exact Hfs|].
  exact (proj1 (submission_refreshes_lists_after_full_success second_and_fourth_fail
                  form_five_files "Fisica" "Aula 1" Hc Hm Hcn Hmn Hfs)).
Defined.

Lemma chosen_course_lists_its_modules_witness :
  "Fisica" <> ""
  /\ (Listing true 200 (Some ["Aula 1"; "Aula 2"])
      = Listing true 200 (Some ["Aula 1"; "Aula 2"])
      \/ (["Aula 1"; "Aula 2"] = []
          /\ Listing true 200 (Some ["Aula 1"; "Aula 2"]) = Listing false 404 None))
  /\ requests (user_step empty_form (ChooseCourse "Fisica"))
     = (requests empty_form ++ [GetModules "Fisica"])%list.
Proof.
  assert ("Fisica" <> "") as Hc by discriminate.
  assert (Listing true 200 (Some ["Aula 1"; "Aula 2"])
          = Listing true 200 (Some ["Aula 1"; "Aula 2"])
          \/ (["Aula 1"; "Aula 2"] = []
              /\ Listing true 200 (Some ["Aula 1"; "Aula 2"]) = Listing false 404 None))
    as Hr by (left; reflexivity).
  split; [exact Hc|]. split; [exact Hr|].
  exact (proj1 (chosen_course_lists_its_modules empty_form "Fisica" _
                  ["Aula 1"; "Aula 2"] Hc Hr)).
Defined.

